(** * A shallow embedding of the Firebase REST facade

    The development follows the repository's request pipeline:
    the response envelope builder ([FirebaseResponse]), the auth service
    ([AuthService.verifyIdToken], [getUserByUid]), the authorization
    middleware ([verifyFirebaseToken], [requireRole]), the validation
    middleware ([validateFirebase], [sanitizeFirebaseData],
    [createFirebaseRateLimit]) and the document service
    ([deleteDocument], [batchOperations]). Around these it covers the
    other gates ([requireAnyRole], [requirePermission],
    [requireOwnership]), the path check of the realtime routes
    ([validateRealtimeDbPath]), the single-document methods
    ([createDocument], [getDocument], [updateDocument]), the duplicate
    filter of [searchDocuments] and [createCustomToken].

    JavaScript values are embedded as the inductive [value]; objects are
    association lists in property order, requests are objects, thrown
    exceptions are a [completion], and the mutable state the code keeps
    (the limiter's [Map], the document store) is passed explicitly.
    Log emission ([Logger.*]) writes to the console only and never feeds
    back into a response, so it is left out of the embedding; where the
    evaluation of a log argument can throw ([req.user.uid],
    [Object.keys(value)]) the throw is kept. The clock is read once per
    call: the instants and elapsed times a function reads are its
    arguments, and [runtime] carries what the process supplies. *)

From Stdlib Require Import ZArith Ascii String DecimalString.
From stdpp Require Import gmap strings list sorting.

Local Open Scope Z_scope.

(** ** JavaScript values *)

Module Js.

(** Numbers are the integers the code computes with (millisecond counts,
    lengths, statuses) plus [VNaN]; [VDate] is a [Date] built from a
    millisecond count. *)
#[warnings="-register-all"]
Inductive value : Type :=
  | VUndefined
  | VNull
  | VBool (b : bool)
  | VNum (n : Z)
  | VNaN
  | VStr (s : string)
  | VDate (ms : Z)
  | VArr (xs : list value)
  | VObj (fields : list (string * value)).

Abbreviation fields := (list (string * value)).

(** [!!v] / [if (v)]: the falsy values are [undefined], [null], [false],
    [0], [NaN] and the empty string. *)
Definition truthy (v : value) : bool :=
  match v with
  | VUndefined | VNull | VNaN => false
  | VBool b => b
  | VNum n => negb (n =? 0)
  | VStr s => negb (String.eqb s "")
  | VDate _ | VArr _ | VObj _ => true
  end.

(** [a || b] *)
Definition or_else (a b : value) : value := if truthy a then a else b.

(** [o[k]] on the property list of an object. *)
Fixpoint get (k : string) (o : fields) : value :=
  match o with
  | [] => VUndefined
  | (k', v) :: o' => if String.eqb k' k then v else get k o'
  end.

(** [k in o] for own properties. *)
Fixpoint has (k : string) (o : fields) : bool :=
  match o with
  | [] => false
  | (k', _) :: o' => String.eqb k' k || has k o'
  end.

(** [o[k] = v]: an existing property keeps its place, a new one is
    appended. *)
Fixpoint set (k : string) (v : value) (o : fields) : fields :=
  match o with
  | [] => [(k, v)]
  | (k', v') :: o' =>
      if String.eqb k' k then (k', v) :: o' else (k', v') :: set k v o'
  end.

(** [{ ...dst, ...src }] *)
Definition spread (dst src : fields) : fields :=
  fold_left (fun acc kv => set (fst kv) (snd kv) acc) src dst.

(** An object literal: its properties are defined left to right. *)
Definition literal (props : fields) : fields := spread [] props.

(** [...(c && { k: v })] inside an object literal. *)
Definition when (c : bool) (props : fields) : fields :=
  if c then props else [].

(** [v.k] read as a property list: the own properties of an object, none
    for any other value. *)
Definition fields_of (v : value) : fields :=
  match v with
  | VObj o => o
  | _ => []
  end.

(** [v?.k] *)
Definition opt_member (v : value) (k : string) : value :=
  get k (fields_of v).

(** [v === s] for a string [s]. *)
Definition strict_eq_str (v : value) (s : string) : bool :=
  match v with
  | VStr s' => String.eqb s' s
  | _ => false
  end.

(** Normal or abrupt completion of a statement that may throw. *)
Inductive completion (A : Type) : Type :=
  | Normal (a : A)
  | Throw (e : fields).
Arguments Normal {A} a.
Arguments Throw {A} e.

#[export] Instance completion_ret : MRet completion := fun _ a => Normal a.
#[export] Instance completion_bind : MBind completion := fun _ _ k c =>
  match c with
  | Normal a => k a
  | Throw e => Throw e
  end.

(** [try { c } catch (e) { h e }] *)
Definition try_catch {A} (c : completion A) (h : fields -> A) : A :=
  match c with
  | Normal a => a
  | Throw e => h e
  end.

End Js.

Export Js.

(** ** JavaScript strings

    A string is its sequence of code units; the embedding covers code
    units below 256. The patterns the code matches are ASCII, and a
    pattern without the [u] flag never folds a code unit of 128 or more
    onto an ASCII one. *)

Module JsString.

Definition code (c : ascii) : N := N_of_ascii c.

(** ASCII case folding used by the [i] flag. *)
Definition to_lower (c : ascii) : ascii :=
  if ((65 <=? code c) && (code c <=? 90))%N
  then ascii_of_N (code c + 32) else c.

Definition eqb_ci (a b : ascii) : bool :=
  Ascii.eqb (to_lower a) (to_lower b).

(** [p] matches at the start of [s], ignoring case. *)
Fixpoint prefix_ci (p s : string) : bool :=
  match p, s with
  | EmptyString, _ => true
  | String a p', String b s' => eqb_ci a b && prefix_ci p' s'
  | String _ _, EmptyString => false
  end.

(** [s.startsWith(p)] *)
Definition startsWith (s p : string) : bool := String.prefix p s.

(** [s.includes(p)] *)
Fixpoint includes (s p : string) : bool :=
  String.prefix p s ||
  match s with
  | EmptyString => false
  | String _ s' => includes s' p
  end.

(** [s.replace(/[...]/g, '')] for a character class. *)
Fixpoint remove_chars (cls : ascii -> bool) (s : string) : string :=
  match s with
  | EmptyString => EmptyString
  | String c s' =>
      if cls c then remove_chars cls s' else String c (remove_chars cls s')
  end.

(** [s.replace(/[...]/g, r)] for a character class and a one-unit
    replacement. *)
Fixpoint replace_chars (cls : ascii -> bool) (r : ascii) (s : string) : string :=
  match s with
  | EmptyString => EmptyString
  | String c s' =>
      String (if cls c then r else c) (replace_chars cls r s')
  end.

(** [s.replace(/pat/gi, '')] for a literal, non-empty [pat]: one scan
    from left to right; a match is dropped and the scan resumes after
    it ([skip] counts the code units of the match still to drop). *)
Fixpoint remove_ci_from (pat : string) (skip : nat) (s : string) : string :=
  match s with
  | EmptyString => EmptyString
  | String c s' =>
      match skip with
      | S k => remove_ci_from pat k s'
      | O =>
          if prefix_ci pat s
          then remove_ci_from pat (Nat.pred (String.length pat)) s'
          else String c (remove_ci_from pat O s')
      end
  end.

Definition remove_ci (pat s : string) : string := remove_ci_from pat O s.

(** White space and line terminators below 256. *)
Definition is_space (c : ascii) : bool :=
  let n := code c in
  ((9 <=? n) && (n <=? 13) || (n =? 32) || (n =? 160))%N.

Fixpoint trim_start (s : string) : string :=
  match s with
  | EmptyString => EmptyString
  | String c s' => if is_space c then trim_start s' else s
  end.

Fixpoint trim_end (s : string) : string :=
  match s with
  | EmptyString => EmptyString
  | String c s' =>
      match trim_end s' with
      | EmptyString => if is_space c then EmptyString else String c EmptyString
      | t => String c t
      end
  end.

(** [s.trim()] *)
Definition trim (s : string) : string := trim_end (trim_start s).

(** [s.split(sep)] for a non-empty [sep]; [cur] is the piece being
    read. *)
Fixpoint split_from (sep : string) (skip : nat) (cur : string) (s : string)
  : list string :=
  match s with
  | EmptyString => [cur]
  | String c s' =>
      match skip with
      | S k => split_from sep k cur s'
      | O =>
          if String.prefix sep s
          then cur :: split_from sep (Nat.pred (String.length sep)) EmptyString s'
          else split_from sep O (cur +:+ String c EmptyString) s'
      end
  end.

Definition split (s sep : string) : list string :=
  split_from sep O EmptyString s.

End JsString.

(** ** The runtime the code reads from *)

(** What the process and the engine supply: the reading of
    [new Date().toISOString()], whether [NODE_ENV] is ['development'],
    the [stack] text the engine attaches to an [Error], the [TypeError]
    it throws on a bad member access or call, and the floating-point
    rendering [((s / t) * 100).toFixed(2) + '%'] of a success rate, and
    the local-time rendering of a [Date] inside a template literal. *)
Record runtime : Type := {
  iso : string;
  development : bool;
  stack : string -> string;
  type_error : fields;
  successRate : nat -> nat -> string;
  date_string : Z -> string
}.

(** [new Error(msg)] *)
Definition new_Error (rt : runtime) (msg : string) : fields :=
  [("message", VStr msg); ("stack", VStr (stack rt msg))].

(** Decimal rendering of a length inside a template literal. *)
Definition dec (n : nat) : string := NilEmpty.string_of_uint (Nat.to_uint n).

(** [`${v}`]: the string a template literal interpolates. *)
Fixpoint to_string (rt : runtime) (v : value) : string :=
  match v with
  | VUndefined => "undefined"
  | VNull => "null"
  | VBool true => "true"
  | VBool false => "false"
  | VNum n => NilEmpty.string_of_int (Z.to_int n)
  | VNaN => "NaN"
  | VStr s => s
  | VDate ms => date_string rt ms
  | VArr xs =>
      String.concat ","
        (map (fun x => match x with
                       | VUndefined | VNull => EmptyString
                       | _ => to_string rt x
                       end) xs)
  | VObj _ => "[object Object]"
  end.

(** [v.k] where [v] may be [undefined] or [null], on which the engine
    throws. *)
Definition member (rt : runtime) (v : value) (k : string) : completion value :=
  match v with
  | VUndefined | VNull => Throw (type_error rt)
  | _ => Normal (opt_member v k)
  end.

(** [xs.includes(s)] for a string argument [s]: membership in an array,
    substring search in a string; any other receiver has no such method
    and the call throws. *)
Definition includes_call (rt : runtime) (xs : value) (s : string)
  : completion bool :=
  match xs with
  | VArr l => Normal (existsb (fun x => strict_eq_str x s) l)
  | VStr t => Normal (JsString.includes t s)
  | _ => Throw (type_error rt)
  end.

(** ** Response envelopes: [class FirebaseResponse] *)

Module FirebaseResponse.
Section Builders.
Context (rt : runtime).

Definition timing_field (timing : value) : fields :=
  when (truthy timing)
    [("timing", VObj [("duration", timing); ("unit", VStr "ms")])].

Definition success (data : value) (message : string) (timing : value)
    (meta : fields) : value :=
  VObj (literal
    ([("success", VBool true);
      ("message", VStr message);
      ("timestamp", VStr (iso rt))]
     ++ when (truthy data) [("data", data)]
     ++ timing_field timing
     ++ when (0 <? length meta)%nat [("meta", VObj meta)])).

Definition error (err : fields) (operation : string)
    (additionalContext : fields) (timing : value) : value :=
  let errorInfo := literal
    ([("message", or_else (get "message" err) (VStr "Unknown error occurred"));
      ("code", or_else (get "code" err) (VStr "UNKNOWN_ERROR"));
      ("operation", VStr operation);
      ("timestamp", VStr (iso rt))]
     ++ timing_field timing
     ++ when (development rt)
          [("stack", get "stack" err);
           ("details", or_else (get "details" err) VNull)]
     ++ additionalContext) in
  VObj [("success", VBool false);
        ("error", VObj errorInfo);
        ("timestamp", VStr (iso rt))].

Definition validation (errors : value) (message : string) : value :=
  VObj [("success", VBool false);
        ("message", VStr message);
        ("errors", match errors with VArr _ => errors | _ => VArr [errors] end);
        ("timestamp", VStr (iso rt));
        ("type", VStr "VALIDATION_ERROR")].

Definition unauthorized (message code : string) : value :=
  VObj [("success", VBool false);
        ("message", VStr message);
        ("error", VObj [("code", VStr code);
                        ("type", VStr "AUTHENTICATION_ERROR");
                        ("timestamp", VStr (iso rt))]);
        ("timestamp", VStr (iso rt))].

Definition forbidden (message code : string) : value :=
  VObj [("success", VBool false);
        ("message", VStr message);
        ("error", VObj [("code", VStr code);
                        ("type", VStr "AUTHORIZATION_ERROR");
                        ("timestamp", VStr (iso rt))]);
        ("timestamp", VStr (iso rt))].

Definition notFound (resource : string) (identifier : value) : value :=
  let message :=
    if truthy identifier
    then resource +:+ " with identifier '" +:+ to_string rt identifier
         +:+ "' not found"
    else resource +:+ " not found" in
  VObj [("success", VBool false);
        ("message", VStr message);
        ("error", VObj [("code", VStr "NOT_FOUND");
                        ("type", VStr "RESOURCE_ERROR");
                        ("resource", VStr resource);
                        ("identifier", identifier);
                        ("timestamp", VStr (iso rt))]);
        ("timestamp", VStr (iso rt))].


(** [r => r.success] as a filter predicate. *)
Definition succeeded (r : fields) : bool := truthy (get "success" r).

Definition batch (results : list fields) (operation : string) : value :=
  let successful := filter (fun r => succeeded r = true) results in
  let failed := filter (fun r => succeeded r = false) results in
  VObj [("success", VBool (length failed =? 0)%nat);
        ("message", VStr (operation +:+ " completed: " +:+ dec (length successful)
                          +:+ " successful, " +:+ dec (length failed) +:+ " failed"));
        ("summary", VObj
           [("total", VNum (Z.of_nat (length results)));
            ("successful", VNum (Z.of_nat (length successful)));
            ("failed", VNum (Z.of_nat (length failed)));
            ("successRate",
              VStr (successRate rt (length successful) (length results)))]);
        ("results", VArr (map VObj results));
        ("timestamp", VStr (iso rt))].

(** [wrap]: [operation] has run to a completion between the clock
    readings [startTime] and [endTime]. *)
Definition wrap (operation : completion value) (operationName : string)
    (context : fields) (startTime endTime : Z) : value :=
  let timing := VNum (endTime - startTime) in
  match operation with
  | Normal result =>
      success result (operationName +:+ " completed successfully") timing context
  | Throw e => error e operationName context timing
  end.

End Builders.
End FirebaseResponse.

(** [class FirebaseResponses]: the named shorthands the services use. *)
Module FirebaseResponses.
Section Shorthands.
Context (rt : runtime).

Definition document_deleted (docId : string) (timing : value) : value :=
  FirebaseResponse.success rt
    (VObj [("id", VStr docId); ("deleted", VBool true)])
    "Document deleted successfully" timing [].

Definition document_notFound (collection docId : string) : value :=
  FirebaseResponse.notFound rt "Document" (VStr (collection +:+ "/" +:+ docId)).

Definition auth_tokenVerified (decoded : value) (timing : value) : value :=
  FirebaseResponse.success rt decoded "Token verified successfully" timing [].

Definition auth_invalidToken : value :=
  FirebaseResponse.unauthorized rt "Invalid or expired token" "INVALID_TOKEN".

Definition auth_missingToken : value :=
  FirebaseResponse.unauthorized rt "Authorization token required" "MISSING_TOKEN".

End Shorthands.
End FirebaseResponses.

(** ** The auth service: [class AuthService] *)

(** The identity provider's SDK, reached through [getAuth()]: whether the
    handle can be built, and what [verifyIdToken] and [getUser] resolve
    to or reject with. *)
Record DecodedIdToken : Type := {
  uid : value;
  email : value;
  email_verified : value;
  name : value;
  picture : value;
  phone_number : value;
  iss : value;
  aud : value;
  iat : Z;
  exp : Z;
  auth_time : Z;
  customClaims : value
}.

Record AuthSdk : Type := {
  getAuth : completion unit;
  sdk_verifyIdToken : string -> bool -> completion DecodedIdToken;
  sdk_getUser : value -> completion fields
}.

Module AuthService.
Section Service.
Context (rt : runtime) (sdk : AuthSdk).

(** [initialize()]: memoised, so it fails on every call or on none. *)
Definition initialize : completion unit := getAuth sdk.

(** [verifyIdToken(idToken, checkRevoked)]; [timing] is the reading of
    [Date.now() - startTime] where the method takes it. *)
Definition verifyIdToken (idToken : string) (checkRevoked : bool)
    (timing : Z) : value :=
  try_catch
    (_ ← initialize;
     if negb (truthy (VStr idToken))
     then Normal (FirebaseResponses.auth_missingToken rt)
     else
       decodedToken ← sdk_verifyIdToken sdk idToken checkRevoked;
       let userData :=
         [("uid", uid decodedToken);
          ("email", email decodedToken);
          ("emailVerified", email_verified decodedToken);
          ("name", name decodedToken);
          ("picture", picture decodedToken);
          ("phoneNumber", phone_number decodedToken);
          ("issuer", iss decodedToken);
          ("audience", aud decodedToken);
          ("issuedAt", VDate (iat decodedToken * 1000));
          ("expiresAt", VDate (exp decodedToken * 1000));
          ("authTime", VDate (auth_time decodedToken * 1000));
          ("customClaims", or_else (customClaims decodedToken) (VObj []))] in
       Normal (FirebaseResponses.auth_tokenVerified rt (VObj userData) (VNum timing)))
    (fun error =>
       if strict_eq_str (get "code" error) "auth/id-token-expired"
       then FirebaseResponses.auth_invalidToken rt
       else if strict_eq_str (get "code" error) "auth/id-token-revoked"
       then FirebaseResponse.unauthorized rt "Token has been revoked" "TOKEN_REVOKED"
       else if strict_eq_str (get "code" error) "auth/invalid-id-token"
       then FirebaseResponses.auth_invalidToken rt
       else FirebaseResponse.error rt error "verifyIdToken" [] (VNum timing)).

(** [getUserByUid(uid)] *)
Definition getUserByUid (uid : value) (timing : Z) : value :=
  try_catch
    (_ ← initialize;
     userRecord ← sdk_getUser sdk uid;
     createdAt ← member rt (get "metadata" userRecord) "creationTime";
     lastSignIn ← member rt (get "metadata" userRecord) "lastSignInTime";
     lastRefresh ← member rt (get "metadata" userRecord) "lastRefreshTime";
     let userData :=
       [("uid", get "uid" userRecord);
        ("email", get "email" userRecord);
        ("displayName", get "displayName" userRecord);
        ("photoURL", get "photoURL" userRecord);
        ("emailVerified", get "emailVerified" userRecord);
        ("phoneNumber", get "phoneNumber" userRecord);
        ("disabled", get "disabled" userRecord);
        ("metadata", VObj [("createdAt", createdAt);
                           ("lastSignIn", lastSignIn);
                           ("lastRefresh", lastRefresh)]);
        ("customClaims", or_else (get "customClaims" userRecord) (VObj []));
        ("providerData", get "providerData" userRecord)] in
     Normal (FirebaseResponse.success rt (VObj userData)
               "User retrieved successfully" (VNum timing) []))
    (fun error =>
       if strict_eq_str (get "code" error) "auth/user-not-found"
       then FirebaseResponse.notFound rt "User" uid
       else FirebaseResponse.error rt error "getUserByUid" [("uid", uid)] (VNum timing)).

End Service.
End AuthService.

(** ** Middleware outcomes *)

(** A middleware either hands over with [next()] or answers with
    [res.status(s).json(body)]. It returns the request object as it
    leaves it. *)
Inductive outcome : Type :=
  | Next
  | Sent (status : Z) (body : value).

(** ** Authorization middleware *)

Module AuthMiddleware.
Section Middleware.
Context (rt : runtime) (sdk : AuthSdk).

(** [verifyFirebaseToken({ checkRevoked, optional })(req, res, next)].
    [svcTiming] is the elapsed time the service reads, [timing] the one
    the middleware reads. *)
Definition verifyFirebaseToken (checkRevoked optional : bool)
    (svcTiming timing : Z) (req : fields) : fields * outcome :=
  let skip_or (response : value) : fields * outcome :=
    if optional then (set "user" VNull req, Next)
    else (req, Sent 401 response) in
  try_catch
    (authHeader ← member rt (get "headers" req) "authorization";
     if negb (truthy authHeader) then
       Normal (skip_or (FirebaseResponse.unauthorized rt
                          "Authorization token required" "MISSING_TOKEN"))
     else
       match authHeader with
       | VStr h =>
           if negb (JsString.startsWith h "Bearer ") then
             Normal (skip_or (FirebaseResponse.unauthorized rt
                                "Authorization token required" "MISSING_TOKEN"))
           else
             match JsString.split h "Bearer " !! 1%nat with
             | None | Some EmptyString =>
                 Normal (skip_or (FirebaseResponse.unauthorized rt
                                    "Invalid authorization format" "INVALID_FORMAT"))
             | Some idToken =>
                 let verificationResult :=
                   AuthService.verifyIdToken rt sdk idToken checkRevoked svcTiming in
                 if negb (truthy (opt_member verificationResult "success")) then
                   Normal (req, Sent 401 verificationResult)
                 else
                   let req1 := set "user" (opt_member verificationResult "data") req in
                   let req2 := set "authTiming" (VNum timing) req1 in
                   match member rt (get "user" req2) "uid" with
                   | Normal _ => Normal (req2, Next)
                   | Throw e =>
                       Normal (req2, Sent 500
                         (FirebaseResponse.error rt e "token verification" []
                            (VNum timing)))
                   end
             end
       | _ => Throw (type_error rt)
       end)
    (fun error =>
       (req, Sent 500
          (FirebaseResponse.error rt error "token verification" [] (VNum timing)))).

(** [optionalFirebaseAuth = verifyFirebaseToken({ optional: true })] *)
Definition optionalFirebaseAuth : Z -> Z -> fields -> fields * outcome :=
  verifyFirebaseToken false true.

(** [requireRole(requiredRole)(req, res, next)] *)
Definition requireRole (requiredRole : string) (svcTiming : Z)
    (req : fields) : fields * outcome :=
  try_catch
    (if negb (truthy (get "user" req)) then
       Normal (req, Sent 401
         (FirebaseResponse.unauthorized rt
            "Authentication required for role check" "UNAUTHORIZED"))
     else
       let userResult :=
         AuthService.getUserByUid rt sdk
           (opt_member (get "user" req) "uid") svcTiming in
       if negb (truthy (opt_member userResult "success")) then
         _ ← member rt (opt_member userResult "error") "message";
         Normal (req, Sent 500
           (FirebaseResponse.error rt
              (fields_of (opt_member userResult "error"))
              "role verification" [] VNull))
       else
         customClaims ← member rt (opt_member userResult "data") "customClaims";
         let userRoles := or_else (opt_member customClaims "roles") (VArr []) in
         let userRole := opt_member customClaims "role" in
         inRoles ← includes_call rt userRoles requiredRole;
         let hasRole := inRoles || strict_eq_str userRole requiredRole in
         if negb hasRole then
           Normal (req, Sent 403
             (FirebaseResponse.forbidden rt
                ("Role '" +:+ requiredRole +:+ "' required") "INSUFFICIENT_ROLE"))
         else
           Normal (set "userRole" userRole (set "userRoles" userRoles req), Next))
    (fun error =>
       (req, Sent 500
          (FirebaseResponse.error rt error "role verification" [] VNull))).

(** [requireAdmin = requireRole('admin')] *)
Definition requireAdmin : Z -> fields -> fields * outcome := requireRole "admin".

End Middleware.
End AuthMiddleware.

(** ** Validation middleware *)

(** What [schema.validate(data, options)] of the schema library gives
    back: the coerced value, or the details of every offending field
    (its path rendered by [join('.')], message, offending value and rule
    kind). The call itself may throw. *)
Record detail : Type := {
  detail_path : string;
  detail_message : string;
  detail_value : value;
  detail_type : string
}.

Inductive validated : Type :=
  | Valid (coerced : value)
  | Invalid (details : list detail).

Definition schema : Type := value -> completion validated.

Module Validation.
Section Middleware.
Context (rt : runtime).

(** [Object.keys(v)] throws on [undefined] and [null]. *)
Definition object_keys (v : value) : completion (list string) :=
  match v with
  | VUndefined | VNull => Throw (type_error rt)
  | VObj o => Normal (map fst o)
  | _ => Normal []
  end.

(** [validateFirebase(schema, source)(req, res, next)] *)
Definition validateFirebase (sch : schema) (source : string) (timing : Z)
    (req : fields) : fields * outcome :=
  let data :=
    if String.eqb source "body" then get "body" req
    else if String.eqb source "params" then get "params" req
    else if String.eqb source "query" then get "query" req
    else if String.eqb source "headers" then get "headers" req
    else get source req in
  let on_throw (r : fields) (validationError : fields) : fields * outcome :=
    (r, Sent 500
          (FirebaseResponse.error rt validationError "validation middleware" []
             (VNum timing))) in
  match sch data with
  | Throw e => on_throw req e
  | Normal (Invalid details) =>
      let validationErrors :=
        map (fun d => VObj [("field", VStr (detail_path d));
                            ("message", VStr (detail_message d));
                            ("value", detail_value d);
                            ("type", VStr (detail_type d))]) details in
      (req, Sent 400
              (FirebaseResponse.validation rt (VArr validationErrors)
                 "Validation failed"))
  | Normal (Valid v) =>
      let req' :=
        if String.eqb source "body" then set "body" v req
        else if String.eqb source "params" then set "params" v req
        else if String.eqb source "query" then set "query" v req
        else if String.eqb source "headers" then set "headers" v req
        else set source v req in
      match object_keys v with
      | Normal _ => (req', Next)
      | Throw e => on_throw req' e
      end
  end.

(** [sanitizeValue] for a string leaf. *)
Definition sanitizeString (s : string) : string :=
  JsString.trim
    (JsString.remove_ci "data:"
       (JsString.remove_ci "javascript:"
          (JsString.remove_chars
             (fun c => Ascii.eqb c "<" || Ascii.eqb c ">") s))).

(** [key.replace(/[.#$[\]]/g, '_')] *)
Definition sanitizeKey (k : string) : string :=
  JsString.replace_chars
    (fun c => Ascii.eqb c "." || Ascii.eqb c "#" || Ascii.eqb c "$"
              || Ascii.eqb c "[" || Ascii.eqb c "]")
    "_" k.

(** [sanitized[key] = val] on the object the loop builds: under the key
    [__proto__] the assignment goes to the prototype's setter and
    defines no property, under any other key it defines or overwrites
    the property. (What the object then inherits is not part of the
    embedding: [get] reads own properties.) *)
Definition assign (sanitized : fields) (key : string) (val : value) : fields :=
  if String.eqb key "__proto__" then sanitized else set key val sanitized.

(** [sanitizeValue]: a [Date] is an object without enumerable entries. *)
Fixpoint sanitizeValue (v : value) : value :=
  match v with
  | VStr s => VStr (sanitizeString s)
  | VArr xs => VArr (map sanitizeValue xs)
  | VObj o =>
      VObj (fold_left (fun sanitized kv => assign sanitized (fst kv) (snd kv))
              (map (fun kv => (sanitizeKey (fst kv), sanitizeValue (snd kv))) o)
              [])
  | VDate _ => VObj []
  | _ => v
  end.

(** [sanitizeFirebaseData(req, res, next)] *)
Definition sanitizeFirebaseData (req : fields) : fields * outcome :=
  let req1 :=
    if truthy (get "body" req)
    then set "body" (sanitizeValue (get "body" req)) req else req in
  let req2 :=
    if truthy (get "query" req1)
    then set "query" (sanitizeValue (get "query" req1)) req1 else req1 in
  (req2, Next).

End Middleware.
End Validation.

(** ** The sliding-window rate limiter *)

Module RateLimit.

(** The limiter's [Map]: request instants (milliseconds) per key. A key
    is the uid or the address, both strings when present; any other
    value of [req.user?.uid || req.ip] ([undefined] when both are
    missing) is filed under [None]. *)
Abbreviation store := (gmap (option string) (list Z)).

Definition request_key (req : fields) : option string :=
  match or_else (opt_member (get "user" req) "uid") (get "ip" req) with
  | VStr s => Some s
  | _ => None
  end.

(** [timestamps.filter(timestamp => timestamp > windowStart)] *)
Definition newer (windowStart : Z) (timestamps : list Z) : list Z :=
  filter (fun timestamp => windowStart < timestamp) timestamps.

(** The loop over [requests.entries()]: every entry is filtered, and
    deleted when nothing is left. *)
Definition sweep (windowStart : Z) (requests : store) : store :=
  omap (fun timestamps =>
          let filtered := newer windowStart timestamps in
          if (length filtered =? 0)%nat then None else Some filtered)
       requests.

(** [Math.ceil(x / 1000)] on an integer [x]. *)
Definition ceil_div_1000 (x : Z) : Z := - ((- x) / 1000).

(** [Math.ceil((recentRequests[0] + windowMs - now) / 1000)]; reading
    index 0 of an empty array gives [undefined], and the sum [NaN]. *)
Definition retryAfter (recentRequests : list Z) (windowMs now : Z) : value :=
  match recentRequests with
  | oldest :: _ => VNum (ceil_div_1000 (oldest + windowMs - now))
  | [] => VNaN
  end.

Section Limiter.
Context (rt : runtime).

(** The body sent with status 429. *)
Definition rate_limited (maxRequests windowMs now : Z)
    (recentRequests : list Z) : value :=
  FirebaseResponse.error rt (new_Error rt "Rate limit exceeded") "rate limiting"
    [("maxRequests", VNum maxRequests);
     ("windowMs", VNum windowMs);
     ("retryAfter", retryAfter recentRequests windowMs now)]
    VNull.

(** [createFirebaseRateLimit(maxRequests, windowMs)(req, res, next)] at
    the instant [now = Date.now()], on the closure's map [requests]. *)
Definition createFirebaseRateLimit (maxRequests windowMs : Z) (now : Z)
    (req : fields) (requests : store) : fields * outcome * store :=
  let key := request_key req in
  let windowStart := now - windowMs in
  let requests1 := sweep windowStart requests in
  let keyRequests := default [] (requests1 !! key) in
  let recentRequests := newer windowStart keyRequests in
  if maxRequests <=? Z.of_nat (length recentRequests) then
    (req, Sent 429 (rate_limited maxRequests windowMs now recentRequests),
     requests1)
  else
    (req, Next, <[key := recentRequests ++ [now]]> requests1).

(** The answers one key receives while the limiter serves a sequence of
    requests, each with the instant it arrives at. *)
Fixpoint answers (maxRequests windowMs : Z) (k : option string)
    (arrivals : list (fields * Z)) (requests : store) : list outcome :=
  match arrivals with
  | [] => []
  | (req, now) :: rest =>
      let '(_, o, requests') :=
        createFirebaseRateLimit maxRequests windowMs now req requests in
      (if decide (request_key req = k) then [o] else [])
      ++ answers maxRequests windowMs k rest requests'
  end.

End Limiter.

(** The instants of a sequence of arrivals never go back. *)
Fixpoint nondecreasing (ts : list Z) : bool :=
  match ts with
  | [] => true
  | t :: rest =>
      match rest with
      | [] => true
      | t' :: _ => (t <=? t') && nondecreasing rest
      end
  end.

End RateLimit.

(** ** The document service: [class FirestoreService] *)

(** The document database behind [getFirestore()], by its contract: a
    document reference is a collection path and the path below it,
    checked when it is built; the client checks the data of a write
    when the write is handed to it ([accepts_set] for [set] and [add],
    [accepts_update] for [update]: field names, field paths, values)
    and throws on data it does not take; [get] tells whether the
    document exists; [set] writes the data object, [delete] removes
    whether or not the document exists, [update] merges into an
    existing document and rejects on a missing one; a batch commits all
    of its writes or none. Transport faults are not part of the
    contract. *)
Record FirestoreSdk : Type := {
  getFirestore : completion unit;
  valid_collection : string -> bool;
  valid_id : string -> bool;
  autoId : nat -> string;
  accepts_set : fields -> bool;
  accepts_update : fields -> bool;
  argument_error : fields;
  missing_error : fields
}.

Abbreviation documents := (gmap (string * string) fields).

Inductive write : Type :=
  | WSet (ref : string * string) (data : fields)
  | WUpdate (ref : string * string) (data : fields)
  | WDelete (ref : string * string).

(** One entry of the [operations] array of a batch request. *)
Record operation : Type := {
  op_type : string;
  op_collection : string;
  op_id : option string;
  op_data : fields
}.

(** [admin.firestore.FieldValue.serverTimestamp()]: the sentinel the
    platform replaces by its own clock when the write lands. *)
Definition serverTimestamp : value :=
  VObj [("_methodName", VStr "FieldValue.serverTimestamp")].

Module FirestoreService.
Section Service.
Context (rt : runtime) (sdk : FirestoreSdk).

Definition initialize : completion unit := getFirestore sdk.

(** [this.db.collection(collection).doc(id)]: the reference is kept as
    the collection and the path below it, which is the id itself or,
    for an id with [/], a document further down. *)
Definition doc (collection : string) (id : option string)
  : completion (string * string) :=
  match id with
  | Some i =>
      if valid_collection sdk collection && valid_id sdk i
      then Normal (collection, i) else Throw (argument_error sdk)
  | None => Throw (argument_error sdk)
  end.

(** The last segment of a path. *)
Fixpoint last_segment (path : string) : string :=
  match path with
  | EmptyString => EmptyString
  | String c rest =>
      if Ascii.eqb c "/" || JsString.includes rest "/"
      then last_segment rest else path
  end.

(** [docRef.id]: the last segment of the document's path. *)
Definition ref_id (docRef : string * string) : string :=
  last_segment (snd docRef).

(** The check the client makes when a write is handed to it. *)
Definition checked (accepted : bool) : completion unit :=
  if accepted then Normal tt else Throw (argument_error sdk).

(** [this.db.collection(collection).doc()]: a reference with a generated
    id; [index] names the draw. *)
Definition new_doc (collection : string) (index : nat)
  : completion (string * string) :=
  if valid_collection sdk collection
  then Normal (collection, autoId sdk index) else Throw (argument_error sdk).

(** The segments of a field path: the name cut at every [.]. *)
Fixpoint segments (name : string) : list string :=
  match name with
  | EmptyString => [EmptyString]
  | String c rest =>
      if Ascii.eqb c "." then EmptyString :: segments rest
      else match segments rest with
           | first :: others => String c first :: others
           | [] => [String c EmptyString]
           end
  end.

(** Writing [v] at a field path of [o]: a map on the way is kept, with
    the rest of the path written in it; anything else on the way is
    replaced by a map. *)
Fixpoint set_path (path : list string) (v : value) (o : fields) : fields :=
  match path with
  | [] => o
  | k :: rest =>
      match rest with
      | [] => set k v o
      | _ :: _ => set k (VObj (set_path rest v (fields_of (get k o)))) o
      end
  end.

(** What an update leaves of a document: every name of [data] is a
    field path, written in turn. *)
Definition merge (old data : fields) : fields :=
  fold_left (fun acc kv => set_path (segments (fst kv)) (snd kv) acc) data old.

(** [docRef.update(data)] as it lands, for data the client has taken:
    the client's check is [checked], made where the service hands over
    the data of a caller; the marks of a soft delete are plain names. *)
Definition update (ref : string * string) (data : fields) (db : documents)
  : completion documents :=
  match db !! ref with
  | Some old => Normal (<[ref := merge old data]> db)
  | None => Throw (missing_error sdk)
  end.

Definition apply_write (w : write) (db : documents) : completion documents :=
  match w with
  | WSet ref data => Normal (<[ref := data]> db)
  | WUpdate ref data => update ref data db
  | WDelete ref => Normal (delete ref db)
  end.

(** [batch.commit()] *)
Fixpoint commit (batch : list write) (db : documents) : completion documents :=
  match batch with
  | [] => Normal db
  | w :: rest => db' ← apply_write w db; commit rest db'
  end.

(** [deleteDocument(collection, docId, hardDelete, userId)] *)
Definition deleteDocument (collection docId : string) (hardDelete userId : value)
    (timing : Z) (db : documents) : value * documents :=
  try_catch
    (_ ← initialize;
     docRef ← doc collection (Some docId);
     if negb (bool_decide (is_Some (db !! docRef))) then
       Normal (FirebaseResponses.document_notFound rt collection docId, db)
     else
       db' ←
         (if truthy hardDelete then Normal (delete docRef db)
          else update docRef
                 (literal ([("deleted", VBool true);
                            ("deletedAt", serverTimestamp)]
                           ++ when (truthy userId) [("deletedBy", userId)]))
                 db);
       Normal (FirebaseResponses.document_deleted rt docId (VNum timing), db'))
    (fun error =>
       (FirebaseResponse.error rt error "deleteDocument"
          [("collection", VStr collection); ("docId", VStr docId)] (VNum timing),
        db)).

Definition id_value (id : option string) : value :=
  match id with Some i => VStr i | None => VUndefined end.

(** [{ ...data, createdAt: serverTimestamp(), updatedAt: serverTimestamp() }] *)
Definition createData (data : fields) : fields :=
  literal (data ++ [("createdAt", serverTimestamp);
                    ("updatedAt", serverTimestamp)]).

(** [{ ...data, updatedAt: serverTimestamp() }] *)
Definition updateData (data : fields) : fields :=
  literal (data ++ [("updatedAt", serverTimestamp)]).

(** The body of [operations.forEach((operation, index) => ...)] for one
    operation: the write it queues, if any, and the result it pushes.
    [batch.set] and [batch.update] check the data when they are called,
    so data the client does not take ends in the [catch] of the
    operation and queues nothing. *)
Definition queue_one (index : nat) (o : operation) : list write * fields :=
  let type := op_type o in
  let collection := op_collection o in
  let id := op_id o in
  let data := op_data o in
  try_catch
    (if String.eqb type "create" then
       newDocRef ← new_doc collection index;
       _ ← checked (accepts_set sdk (createData data));
       Normal ([WSet newDocRef (createData data)],
               [("success", VBool true); ("type", VStr type);
                ("collection", VStr collection);
                ("id", VStr (ref_id newDocRef));
                ("index", VNum (Z.of_nat index))])
     else if String.eqb type "update" then
       updateDocRef ← doc collection id;
       _ ← checked (accepts_update sdk (updateData data));
       Normal ([WUpdate updateDocRef (updateData data)],
               [("success", VBool true); ("type", VStr type);
                ("collection", VStr collection);
                ("id", id_value id);
                ("index", VNum (Z.of_nat index))])
     else if String.eqb type "delete" then
       deleteDocRef ← doc collection id;
       Normal ([WDelete deleteDocRef],
               [("success", VBool true); ("type", VStr type);
                ("collection", VStr collection);
                ("id", id_value id);
                ("index", VNum (Z.of_nat index))])
     else
       Normal ([],
               [("success", VBool false);
                ("error", VStr ("Invalid operation type: " +:+ type));
                ("index", VNum (Z.of_nat index))]))
    (fun opError =>
       ([],
        [("success", VBool false);
         ("error", get "message" opError);
         ("type", VStr type);
         ("collection", VStr collection);
         ("id", id_value id);
         ("index", VNum (Z.of_nat index))])).

(** The whole [forEach]: the queued batch and the [results] array. *)
Fixpoint queue (index : nat) (operations : list operation)
  : list write * list fields :=
  match operations with
  | [] => ([], [])
  | o :: rest =>
      let '(w, r) := queue_one index o in
      let '(ws, rs) := queue (S index) rest in
      (w ++ ws, r :: rs)
  end.

(** [batchOperations(operations)] *)
Definition batchOperations (operations : list operation) (timing : Z)
    (db : documents) : value * documents :=
  try_catch
    (_ ← initialize;
     let '(batch, results) := queue 0 operations in
     db' ← commit batch db;
     Normal (FirebaseResponse.batch rt results "batch operations", db'))
    (fun error =>
       (FirebaseResponse.error rt error "batchOperations"
          [("operationsCount", VNum (Z.of_nat (length operations)))] (VNum timing),
        db)).

End Service.
End FirestoreService.

(** ** Route handlers of the document router *)

Module FirestoreRoutes.
Section Routes.
Context (rt : runtime) (sdk : FirestoreSdk).

(** [router.delete('/collections/:collection/documents/:id', ...)]: the
    final handler, after the middleware chain; [collection] and [id] are
    the path parameters the router matched. *)
Definition deleteDocument (collection id : string) (timing : Z) (req : fields)
    (db : documents) : outcome * documents :=
  match
    (hardDelete ← member rt (get "query" req) "hardDelete";
     userId ← member rt (get "user" req) "uid";
     Normal (hardDelete, userId))
  with
  | Throw error =>
      (Sent 500 (VObj [("success", VBool false);
                       ("error", get "message" error)]), db)
  | Normal (hardDelete, userId) =>
      let '(result, db') :=
        FirestoreService.deleteDocument rt sdk collection id hardDelete userId
          timing db in
      (Sent (if truthy (opt_member result "success") then 200 else 404) result, db')
  end.

(** [router.post('/batch', ...)]: the final handler. *)
Definition batch (operations : list operation) (timing : Z) (db : documents)
  : outcome * documents :=
  let '(result, db') :=
    FirestoreService.batchOperations rt sdk operations timing db in
  (Sent (if truthy (opt_member result "success") then 200 else 400) result, db').

End Routes.
End FirestoreRoutes.

(** ** The other authorization gates *)

(** [a === b]. Objects compare by identity; the two sides the code
    compares come from different places (a request part against the
    identity the provider returned), so two objects are never the same
    one. *)
Definition strict_eq (a b : value) : bool :=
  match a, b with
  | VUndefined, VUndefined => true
  | VNull, VNull => true
  | VBool x, VBool y => Bool.eqb x y
  | VNum x, VNum y => x =? y
  | VStr x, VStr y => String.eqb x y
  | _, _ => false
  end.

(** [xs.some(f)] where [f] may throw. *)
Fixpoint some_call (f : string -> completion bool) (xs : list string)
  : completion bool :=
  match xs with
  | [] => Normal false
  | x :: rest =>
      match f x with
      | Normal true => Normal true
      | Normal false => some_call f rest
      | Throw e => Throw e
      end
  end.

Module AuthGates.
Section Gates.
Context (rt : runtime) (sdk : AuthSdk).

(** [requireAnyRole(allowedRoles)(req, res, next)] *)
Definition requireAnyRole (allowedRoles : list string) (svcTiming : Z)
    (req : fields) : fields * outcome :=
  try_catch
    (if negb (truthy (get "user" req)) then
       Normal (req, Sent 401
         (FirebaseResponse.unauthorized rt
            "Authentication required for role check" "UNAUTHORIZED"))
     else
       let userResult :=
         AuthService.getUserByUid rt sdk
           (opt_member (get "user" req) "uid") svcTiming in
       if negb (truthy (opt_member userResult "success")) then
         _ ← member rt (opt_member userResult "error") "message";
         Normal (req, Sent 500
           (FirebaseResponse.error rt
              (fields_of (opt_member userResult "error"))
              "role verification" [] VNull))
       else
         customClaims ← member rt (opt_member userResult "data") "customClaims";
         let userRoles := or_else (opt_member customClaims "roles") (VArr []) in
         let userRole := opt_member customClaims "role" in
         hasAnyRole ←
           some_call
             (fun role =>
                inRoles ← includes_call rt userRoles role;
                Normal (inRoles || strict_eq_str userRole role))
             allowedRoles;
         if negb hasAnyRole then
           Normal (req, Sent 403
             (FirebaseResponse.forbidden rt
                ("One of these roles required: "
                 +:+ String.concat ", " allowedRoles)
                "INSUFFICIENT_ROLE"))
         else
           Normal (set "userRole" userRole (set "userRoles" userRoles req), Next))
    (fun error =>
       (req, Sent 500
          (FirebaseResponse.error rt error "role verification" [] VNull))).

(** [requireModerator = requireAnyRole(['admin', 'moderator'])] *)
Definition requireModerator : Z -> fields -> fields * outcome :=
  requireAnyRole ["admin"; "moderator"].

(** [requirePermission(permission)(req, res, next)] *)
Definition requirePermission (permission : string) (svcTiming : Z)
    (req : fields) : fields * outcome :=
  try_catch
    (if negb (truthy (get "user" req)) then
       Normal (req, Sent 401
         (FirebaseResponse.unauthorized rt
            "Authentication required for permission check" "UNAUTHORIZED"))
     else
       let userResult :=
         AuthService.getUserByUid rt sdk
           (opt_member (get "user" req) "uid") svcTiming in
       if negb (truthy (opt_member userResult "success")) then
         _ ← member rt (opt_member userResult "error") "message";
         Normal (req, Sent 500
           (FirebaseResponse.error rt
              (fields_of (opt_member userResult "error"))
              "permission verification" [] VNull))
       else
         customClaims ← member rt (opt_member userResult "data") "customClaims";
         let userPermissions :=
           or_else (opt_member customClaims "permissions") (VArr []) in
         granted ← includes_call rt userPermissions permission;
         if negb granted then
           Normal (req, Sent 403
             (FirebaseResponse.forbidden rt
                ("Permission '" +:+ permission +:+ "' required")
                "INSUFFICIENT_PERMISSION"))
         else
           Normal (set "userPermissions" userPermissions req, Next))
    (fun error =>
       (req, Sent 500
          (FirebaseResponse.error rt error "permission verification" [] VNull))).

(** [requireOwnership(ownershipField, paramName)(req, res, next)] *)
Definition requireOwnership (ownershipField paramName : string)
    (req : fields) : fields * outcome :=
  try_catch
    (if negb (truthy (get "user" req)) then
       Normal (req, Sent 401
         (FirebaseResponse.unauthorized rt
            "Authentication required for ownership check" "UNAUTHORIZED"))
     else
       fromParams ← member rt (get "params" req) paramName;
       resourceId ←
         (if truthy fromParams then Normal fromParams
          else member rt (get "body" req) ownershipField);
       let userId := opt_member (get "user" req) "uid" in
       if negb (truthy resourceId) then
         Normal (req, Sent 400
           (FirebaseResponse.error rt
              (new_Error rt
                 (ownershipField +:+ " is required for ownership verification"))
              "ownership verification" [] VNull))
       else if negb (strict_eq resourceId userId) then
         Normal (req, Sent 403
           (FirebaseResponse.forbidden rt
              "You can only access your own resources" "OWNERSHIP_REQUIRED"))
       else Normal (req, Next))
    (fun error =>
       (req, Sent 500
          (FirebaseResponse.error rt error "ownership verification" [] VNull))).

End Gates.
End AuthGates.

(** ** Middleware chains *)

(** The handlers a route lists run in order: [next()] hands the request
    over to the following one, a response ends the chain. *)
Definition middleware : Type := fields -> fields * outcome.

Fixpoint run_chain (chain : list middleware) (req : fields) : fields * outcome :=
  match chain with
  | [] => (req, Next)
  | m :: rest =>
      match m req with
      | (req', Next) => run_chain rest req'
      | answered => answered
      end
  end.

(** The guard in front of every [/admin/...] handler:
    [verifyFirebaseToken(), requireAdmin]. *)
Definition admin_guard (rt : runtime) (sdk : AuthSdk)
    (svcTiming timing roleTiming : Z) : list middleware :=
  [AuthMiddleware.verifyFirebaseToken rt sdk false false svcTiming timing;
   AuthMiddleware.requireAdmin rt sdk roleTiming].

(** ** The path check of the realtime routes *)

(** The texts the schema library puts in its own errors. *)
Record JoiMessages : Type := {
  string_base : string;
  string_empty : string;
  string_max : Z -> string
}.

Module PathValidation.
Section Path.
Context (rt : runtime) (joi : JoiMessages).

(** A character the pattern [/^[^.#$[\]]*$/] rejects. *)
Definition path_separator (c : ascii) : bool :=
  Ascii.eqb c "." || Ascii.eqb c "#" || Ascii.eqb c "$"
  || Ascii.eqb c "[" || Ascii.eqb c "]".

(** [/^[^.#$[\]]*$/.test(s)] *)
Fixpoint path_pattern (s : string) : bool :=
  match s with
  | EmptyString => true
  | String c s' => negb (path_separator c) && path_pattern s'
  end.

(** [s] between double quotes. *)
Definition quoted (s : string) : string :=
  String "034"%char (s +:+ String "034"%char EmptyString).

(** The message the schema sets for its pattern. *)
Definition pattern_message : string :=
  "Firebase path cannot contain " +:+ quoted "." +:+ ", " +:+ quoted "#"
  +:+ ", " +:+ quoted "$" +:+ ", " +:+ quoted "[" +:+ ", or " +:+ quoted "]".

(** [FirebaseSchemas.firebasePath.validate(path).error?.message], by the
    schema library's rules for
    [Joi.string().min(1).max(768).pattern(...)]: the value is optional;
    a value that is not a string, an empty string, a string longer than
    768 code units and a string the pattern rejects are errors, the
    first that applies being reported; the pattern's message is the one
    the schema sets. *)
Definition firebasePath (path : value) : option string :=
  match path with
  | VUndefined => None
  | VStr s =>
      if String.eqb s "" then Some (string_empty joi)
      else if (768 <? String.length s)%nat then Some (string_max joi 768)
      else if negb (path_pattern s)
      then Some pattern_message
      else None
  | _ => Some (string_base joi)
  end.

(** [validateRealtimeDbPath(req, res, next)]; the handler has no [try],
    so a throw leaves it. *)
Definition validateRealtimeDbPath (req : fields) : completion (fields * outcome) :=
  path ← member rt (get "params" req) "path";
  match firebasePath path with
  | Some message =>
      Normal (req, Sent 400
        (FirebaseResponse.validation rt
           (VArr [VObj [("field", VStr "path");
                        ("message", VStr message);
                        ("value", path)]])
           "Validation failed"))
  | None => Normal (req, Next)
  end.

End Path.
End PathValidation.

(** ** Single documents: the other methods of [class FirestoreService] *)

Module FirestoreDocuments.
Section Service.
Context (rt : runtime) (sdk : FirestoreSdk).

(** The id a [docId] argument names: [doc(docId)] takes a string. *)
Definition named (docId : value) : option string :=
  match docId with
  | VStr s => Some s
  | _ => None
  end.

(** [{ id: doc.id, ...doc.data() }] *)
Definition with_id (id : string) (data : fields) : value :=
  VObj (literal (("id", VStr id) :: data)).

(** A parameter whose default is [null]: an argument left out reads as
    [null]. *)
Definition or_null (v : value) : value :=
  match v with
  | VUndefined => VNull
  | _ => v
  end.

(** [{ ...data, createdAt: ..., updatedAt: ...,
       ...(userId && { createdBy: userId }) }] *)
Definition docData (data : fields) (userId : value) : fields :=
  literal (data ++ [("createdAt", serverTimestamp);
                    ("updatedAt", serverTimestamp)]
                ++ when (truthy userId) [("createdBy", userId)]).

(** [{ ...data, updatedAt: ..., ...(userId && { updatedBy: userId }) }] *)
Definition updateData (data : fields) (userId : value) : fields :=
  literal (data ++ [("updatedAt", serverTimestamp)]
                ++ when (truthy userId) [("updatedBy", userId)]).

(** [createDocument(collection, data, docId = null, userId = null)] for
    an object [data]; [draw] names the id [add] generates. [set] and
    [add] check the data before anything is written. *)
Definition createDocument (collection : string) (data : fields)
    (docId userId : value) (draw : nat) (timing : Z) (db : documents)
  : value * documents :=
  let docId := or_null docId in
  let userId := or_null userId in
  try_catch
    (_ ← FirestoreService.initialize sdk;
     docRef ←
       (if truthy docId then FirestoreService.doc sdk collection (named docId)
        else FirestoreService.new_doc sdk collection draw);
     _ ← FirestoreService.checked sdk (accepts_set sdk (docData data userId));
     Normal (FirebaseResponse.success rt
               (with_id (FirestoreService.ref_id docRef) (docData data userId))
               "Document created successfully" (VNum timing) [],
             <[docRef := docData data userId]> db))
    (fun error =>
       (FirebaseResponse.error rt error "createDocument"
          [("collection", VStr collection); ("docId", docId)] (VNum timing),
        db)).

(** [getDocument(collection, docId)] *)
Definition getDocument (collection docId : string) (timing : Z) (db : documents)
  : value :=
  try_catch
    (_ ← FirestoreService.initialize sdk;
     docRef ← FirestoreService.doc sdk collection (Some docId);
     match db !! docRef with
     | None => Normal (FirebaseResponses.document_notFound rt collection docId)
     | Some stored =>
         Normal (FirebaseResponse.success rt
                   (with_id (FirestoreService.ref_id docRef) stored)
                   "Document retrieved successfully" (VNum timing) [])
     end)
    (fun error =>
       FirebaseResponse.error rt error "getDocument"
         [("collection", VStr collection); ("docId", VStr docId)] (VNum timing)).

(** [updateDocument(collection, docId, data, userId = null)] for an
    object [data]. [update] checks the data before anything is
    written. *)
Definition updateDocument (collection docId : string) (data : fields)
    (userId : value) (timing : Z) (db : documents) : value * documents :=
  try_catch
    (_ ← FirestoreService.initialize sdk;
     docRef ← FirestoreService.doc sdk collection (Some docId);
     if negb (bool_decide (is_Some (db !! docRef))) then
       Normal (FirebaseResponses.document_notFound rt collection docId, db)
     else
       _ ← FirestoreService.checked sdk
             (accepts_update sdk (updateData data userId));
       db' ← FirestoreService.update sdk docRef (updateData data userId) db;
       Normal (FirebaseResponse.success rt
                 (with_id (FirestoreService.ref_id docRef)
                    (default [] (db' !! docRef)))
                 "Document updated successfully" (VNum timing) [],
               db'))
    (fun error =>
       (FirebaseResponse.error rt error "updateDocument"
          [("collection", VStr collection); ("docId", VStr docId)] (VNum timing),
        db)).

End Service.
End FirestoreDocuments.

(** ** Search results: the duplicates [searchDocuments] removes *)

Module FirestoreSearch.

(** [self.findIndex(p)], counting from [j]; [None] is the [-1] of a
    search that finds nothing. *)
Fixpoint findIndex (p : nat -> fields -> bool) (j : nat) (self : list fields)
  : option nat :=
  match self with
  | [] => None
  | d :: rest => if p j d then Some j else findIndex p (S j) rest
  end.

(** [self.filter((doc, index) => keep)], counting from [index]. *)
Fixpoint filter_indexed (keep : nat -> fields -> bool) (index : nat)
    (self : list fields) : list fields :=
  match self with
  | [] => []
  | doc :: rest =>
      (if keep index doc then [doc] else []) ++ filter_indexed keep (S index) rest
  end.

(** [d.id === doc.id] for the documents at the positions [j] and
    [index] of the array: every document of a snapshot is an object of
    its own, so two [id]s that are objects are the same one only at the
    same position; any other two are compared by value. *)
Definition same_id (j index : nat) (a b : value) : bool :=
  match a, b with
  | (VObj _ | VArr _ | VDate _), (VObj _ | VArr _ | VDate _) => Nat.eqb j index
  | _, _ => strict_eq a b
  end.

(** [allDocs.filter((doc, index, self) =>
      index === self.findIndex(d => d.id === doc.id))] *)
Definition uniqueDocs (allDocs : list fields) : list fields :=
  filter_indexed
    (fun index doc =>
       match findIndex (fun j d => same_id j index (get "id" d) (get "id" doc))
               0 allDocs with
       | Some j => Nat.eqb index j
       | None => false
       end)
    0 allDocs.

End FirestoreSearch.

(** ** Custom tokens: [AuthService.createCustomToken] *)

Module AuthTokens.
Section Service.
Context (rt : runtime) (sdk : AuthSdk).
(** [this.auth.createCustomToken(uid, additionalClaims)] *)
Context (sdk_createCustomToken : value -> value -> completion value).

(** [createCustomToken(uid, additionalClaims = {})] *)
Definition createCustomToken (uid additionalClaims : value) (timing : Z) : value :=
  let additionalClaims :=
    match additionalClaims with
    | VUndefined => VObj []
    | _ => additionalClaims
    end in
  try_catch
    (_ ← AuthService.initialize sdk;
     _ ← Validation.object_keys rt additionalClaims;
     if negb (truthy uid) then
       Normal (FirebaseResponse.validation rt
                 (VStr "UID is required for custom token creation")
                 "Validation failed")
     else
       customToken ← sdk_createCustomToken uid additionalClaims;
       Normal (FirebaseResponse.success rt
                 (VObj [("token",
                         VObj [("customToken", customToken);
                               ("uid", uid);
                               ("additionalClaims", additionalClaims);
                               ("expiresIn", VStr "1 hour")])])
                 "Custom token created successfully" (VNum timing) []))
    (fun error =>
       FirebaseResponse.error rt error "createCustomToken" [("uid", uid)]
         (VNum timing)).

End Service.
End AuthTokens.

(** * The vocabulary of the statements *)

(** ** Requests and envelopes *)

(** The [authorization] header is absent, empty, or does not start with
    the bearer scheme. *)
Definition lacks_bearer (authorization : value) : bool :=
  match authorization with
  | VStr h => negb (JsString.startsWith h "Bearer ")
  | v => negb (truthy v)
  end.

(** [envelope.error.code] *)
Definition error_code (envelope : value) : value :=
  opt_member (opt_member envelope "error") "code".

(** The cases optional auth lets through without an identity: the
    header is absent (or otherwise falsy), lacks the bearer prefix, or
    carries an empty token. *)
Definition carries_no_token (authorization : value) : bool :=
  match authorization with
  | VStr h =>
      negb (JsString.startsWith h "Bearer ") ||
      match JsString.split h "Bearer " !! 1%nat with
      | Some (String _ _) => false
      | _ => true
      end
  | v => negb (truthy v)
  end.

(** The claims grant [role]: it is the singular [role] claim or a member
    of the [roles] list claim. *)
Definition carries_role (claims : value) (role : string) : bool :=
  strict_eq_str (opt_member claims "role") role ||
  match opt_member claims "roles" with
  | VArr roles => existsb (fun r => strict_eq_str r role) roles
  | _ => false
  end.

(** The [roles] claim is a list when it is there at all. *)
Definition roles_is_list (claims : value) : bool :=
  match opt_member claims "roles" with
  | VArr _ => true
  | v => negb (truthy v)
  end.





(** ** Strings *)

(** The code unit [c] occurs in [s]. *)
Fixpoint occurs (c : ascii) (s : string) : bool :=
  match s with
  | EmptyString => false
  | String c' s' => Ascii.eqb c' c || occurs c s'
  end.

(** ** Data *)

(** A plain field name: not empty, not one of the reserved [__...]
    names, and none of [. * ~ / [ ]] in it, which [update] reads as
    parts of a field path or refuses. *)
Definition field_name (k : string) : bool :=
  negb (String.eqb k "") && negb (JsString.startsWith k "__") &&
  negb (occurs "." k) && negb (occurs "*" k) && negb (occurs "~" k) &&
  negb (occurs "/" k) && negb (occurs "[" k) && negb (occurs "]" k).

(** Every field name of the data is a plain name. *)
Definition flat_names (data : fields) : bool :=
  forallb (fun kv => field_name (fst kv)) data.

(** A value the database takes and gives back as it is: [null],
    booleans, numbers, strings, lists that hold no list directly, and
    objects under plain field names. *)
Fixpoint storable (v : value) : bool :=
  match v with
  | VNull | VBool _ | VNum _ | VStr _ => true
  | VArr xs =>
      forallb (fun x => match x with VArr _ => false | _ => storable x end) xs
  | VObj o => forallb (fun kv => field_name (fst kv) && storable (snd kv)) o
  | VUndefined | VNaN | VDate _ => false
  end.

(** ** Batches *)

(** A valid create: under a collection the database accepts, with data
    the client takes. *)
Definition valid_create (sdk : FirestoreSdk) (o : operation) : bool :=
  String.eqb (op_type o) "create" && valid_collection sdk (op_collection o) &&
  accepts_set sdk (FirestoreService.createData (op_data o)).

(** A well-formed delete of a document that is not in the database. *)
Definition delete_of_missing (sdk : FirestoreSdk) (db : documents)
    (o : operation) : bool :=
  String.eqb (op_type o) "delete" &&
  match op_id o with
  | Some i =>
      valid_collection sdk (op_collection o) && valid_id sdk i &&
      negb (bool_decide (is_Some (db !! (op_collection o, i))))
  | None => false
  end.

(** Two valid creates and one delete of a missing document, in any
    order. *)
Definition two_creates_one_missing_delete (sdk : FirestoreSdk) (db : documents)
    (operations : list operation) : bool :=
  (length operations =? 3)%nat &&
  (length (List.filter (valid_create sdk) operations) =? 2)%nat &&
  (length (List.filter (delete_of_missing sdk db) operations) =? 1)%nat.

(** The number of results whose [success] reads as [b]. *)
Fixpoint tally (b : bool) (results : list fields) : nat :=
  match results with
  | [] => O
  | r :: rest =>
      ((if Bool.eqb (FirebaseResponse.succeeded r) b then 1 else 0)
       + tally b rest)%nat
  end.

(** An operation that queues its write without an error: a valid create
    or a well-formed delete. *)
Definition benign (sdk : FirestoreSdk) (o : operation) : bool :=
  valid_create sdk o ||
  (String.eqb (op_type o) "delete" &&
   match op_id o with
   | Some i => valid_collection sdk (op_collection o) && valid_id sdk i
   | None => false
   end).

Definition blind (w : write) : bool :=
  match w with
  | WUpdate _ _ => false
  | _ => true
  end.

(** ** The sliding window *)

(** The instants the limiter holds for a key. *)
Definition held (requests : RateLimit.store) (k : option string) : list Z :=
  default [] (requests !! k).

(** The instants at which the requests of key [k] arrive. *)
Definition key_times (k : option string) (arrivals : list (fields * Z)) : list Z :=
  map snd (filter (fun a => RateLimit.request_key (fst a) = k) arrivals).

(** What a sliding window of [maxRequests] per [windowMs] answers to
    requests at the instants [times], having let through the requests
    at the instants [seen]. *)
Fixpoint window (rt : runtime) (maxRequests windowMs : Z) (seen times : list Z)
  : list outcome :=
  match times with
  | [] => []
  | now :: rest =>
      let recent := RateLimit.newer (now - windowMs) seen in
      if maxRequests <=? Z.of_nat (length recent)
      then Sent 429 (RateLimit.rate_limited rt maxRequests windowMs now recent)
           :: window rt maxRequests windowMs seen rest
      else Next :: window rt maxRequests windowMs (seen ++ [now]) rest
  end.

(** ** Sample runtimes, providers and requests *)

Definition sample_runtime : runtime := {|
  iso := "2025-01-01T00:00:00.000Z";
  development := false;
  stack := fun msg => "Error: " +:+ msg;
  type_error := [("message", VStr "Cannot read properties of undefined")];
  successRate := fun _ _ => "100.00%";
  date_string := fun _ => "Wed Jan 01 2025"
|}.

(** An identity provider that rejects every token as expired and knows
    no user. *)
Definition rejecting_sdk : AuthSdk := {|
  getAuth := Normal tt;
  sdk_verifyIdToken := fun _ _ =>
    Throw [("message", VStr "expired"); ("code", VStr "auth/id-token-expired")];
  sdk_getUser := fun _ =>
    Throw [("message", VStr "no user"); ("code", VStr "auth/user-not-found")]
|}.

(** A provider that knows one user, an editor who is also listed as
    reviewer. *)
Definition directory_sdk : AuthSdk := {|
  getAuth := Normal tt;
  sdk_verifyIdToken := fun _ _ => Throw [("code", VStr "auth/invalid-id-token")];
  sdk_getUser := fun uid =>
    Normal [("uid", uid);
            ("metadata", VObj [("creationTime", VStr "2024-05-01")]);
            ("customClaims", VObj [("role", VStr "editor");
                                   ("roles", VArr [VStr "reviewer"])])]
|}.

(** A document database that accepts every non-empty path segment and
    takes data of plain names and values. *)
Definition plain_sdk : FirestoreSdk := {|
  getFirestore := Normal tt;
  valid_collection := fun c => negb (String.eqb c "") && negb (occurs "/" c);
  valid_id := fun i => negb (String.eqb i "") && negb (occurs "/" i);
  autoId := fun n => "auto" +:+ dec n;
  accepts_set := fun data => storable (VObj data);
  accepts_update := fun data => storable (VObj data);
  argument_error := [("message", VStr "invalid resource path")];
  missing_error := [("message", VStr "no document to update"); ("code", VNum 5)]
|}.

(** Two creates around the delete of a document nobody wrote. *)
Definition sample_batch : list operation :=
  [ {| op_type := "create"; op_collection := "notes"; op_id := None;
       op_data := [("title", VStr "a")] |};
    {| op_type := "delete"; op_collection := "notes";
       op_id := Some "ghost"; op_data := [] |};
    {| op_type := "create"; op_collection := "notes"; op_id := None;
       op_data := [("title", VStr "b")] |} ].

(** ** Gates and chains *)

(** The status a middleware answered with, if it answered. *)
Definition status_of (o : outcome) : option Z :=
  match o with
  | Next => None
  | Sent status _ => Some status
  end.

(** The [permissions] claim is a list when it is there at all. *)
Definition permissions_is_list (claims : value) : bool :=
  match opt_member claims "permissions" with
  | VArr _ => true
  | v => negb (truthy v)
  end.

(** The claims list [permission]. *)
Definition carries_permission (claims : value) (permission : string) : bool :=
  match opt_member claims "permissions" with
  | VArr permissions => existsb (fun p => strict_eq_str p permission) permissions
  | _ => false
  end.

(** ** Payloads the sanitizer has nothing to do on *)

(** [p] occurs in [s], ignoring case. *)
Fixpoint mentions_ci (s p : string) : bool :=
  JsString.prefix_ci p s ||
  match s with
  | EmptyString => false
  | String _ s' => mentions_ci s' p
  end.

Definition head_space (s : string) : bool :=
  match s with
  | EmptyString => false
  | String c _ => JsString.is_space c
  end.

Fixpoint last_space (s : string) : bool :=
  match s with
  | EmptyString => false
  | String c EmptyString => JsString.is_space c
  | String _ s' => last_space s'
  end.

(** No angle bracket, no [javascript:] or [data:] in any case, no white
    space at either end. *)
Definition plain_string (s : string) : bool :=
  negb (occurs "<" s) && negb (occurs ">" s)
  && negb (mentions_ci s "javascript:") && negb (mentions_ci s "data:")
  && negb (head_space s) && negb (last_space s).

Fixpoint distinct_keys (o : fields) : bool :=
  match o with
  | [] => true
  | (k, _) :: o' => negb (has k o') && distinct_keys o'
  end.

(** A value built from plain strings under keys without path
    separators and other than [__proto__], no key twice in one object,
    and no [Date]. *)
Fixpoint plain (v : value) : bool :=
  match v with
  | VStr s => plain_string s
  | VArr xs => forallb plain xs
  | VObj o =>
      forallb (fun kv => PathValidation.path_pattern (fst kv) &&
                         negb (String.eqb (fst kv) "__proto__") &&
                         plain (snd kv)) o
      && distinct_keys o
  | VDate _ => false
  | _ => true
  end.

(** ** What the limiter lets through *)

(** The instants of the requests of key [k] that the limiter hands
    over while it serves a sequence of arrivals. *)
Fixpoint let_through (rt : runtime) (maxRequests windowMs : Z) (k : option string)
    (arrivals : list (fields * Z)) (requests : RateLimit.store) : list Z :=
  match arrivals with
  | [] => []
  | (req, now) :: rest =>
      let '(_, o, requests') :=
        RateLimit.createFirebaseRateLimit rt maxRequests windowMs now req requests in
      (if decide (RateLimit.request_key req = k)
       then match o with Next => [now] | Sent _ _ => [] end
       else [])
      ++ let_through rt maxRequests windowMs k rest requests'
  end.

(** The instants of [ts] inside the window that ends at [T]. *)
Definition inside (windowMs T : Z) (ts : list Z) : list Z :=
  filter (fun t => T - windowMs < t /\ t <= T) ts.

(** The arrivals of key [k] alone. *)
Definition alone (k : option string) (arrivals : list (fields * Z))
  : list (fields * Z) :=
  filter (fun a => RateLimit.request_key (fst a) = k) arrivals.

(** ** Documents *)

(** The fields [createDocument] sets itself. *)
Definition creation_stamp (k : string) : bool :=
  String.eqb k "createdAt" || String.eqb k "updatedAt" || String.eqb k "createdBy".

(** The fields [updateDocument] sets itself. *)
Definition update_stamp (k : string) : bool :=
  String.eqb k "updatedAt" || String.eqb k "updatedBy".

(** The fields a soft delete sets. *)
Definition deletion_mark (k : string) : bool :=
  String.eqb k "deleted" || String.eqb k "deletedAt" || String.eqb k "deletedBy".

(** ** Batches that fail *)

(** An update of a document that is not in the database, under a
    reference the database accepts and with data the client takes. *)
Definition update_of_missing (sdk : FirestoreSdk) (db : documents)
    (o : operation) : bool :=
  String.eqb (op_type o) "update" &&
  accepts_update sdk (FirestoreService.updateData (op_data o)) &&
  match op_id o with
  | Some i =>
      valid_collection sdk (op_collection o) && valid_id sdk i &&
      negb (bool_decide (is_Some (db !! (op_collection o, i))))
  | None => false
  end.

(** No operation of the batch is a create. *)
Definition no_creation (operations : list operation) : bool :=
  forallb (fun o => negb (String.eqb (op_type o) "create")) operations.

(** An update or a delete under a reference the database refuses: no
    id, or a collection or an id it does not accept (such as an id that
    is a path of two segments). *)
Definition refused_reference (sdk : FirestoreSdk) (o : operation) : bool :=
  (String.eqb (op_type o) "update" || String.eqb (op_type o) "delete") &&
  match op_id o with
  | Some i => negb (valid_collection sdk (op_collection o) && valid_id sdk i)
  | None => true
  end.

(** ** Search results *)

(** The document's [id] is the string [s]. *)
Definition has_id (s : string) (doc : fields) : bool :=
  strict_eq (get "id" doc) (VStr s).

(** ** Sample providers and requests *)

(** A provider that accepts every token as the administrator [u1]. *)
Definition accepting_sdk : AuthSdk := {|
  getAuth := Normal tt;
  sdk_verifyIdToken := fun _ _ =>
    Normal {| uid := VStr "u1"; email := VStr "u1@example.org";
              email_verified := VBool true; name := VStr "U One";
              picture := VUndefined; phone_number := VUndefined;
              iss := VStr "https://securetoken.google.com/demo";
              aud := VStr "demo"; iat := 1700000000; exp := 1700003600;
              auth_time := 1700000000;
              customClaims := VObj [("role", VStr "admin")] |};
  sdk_getUser := fun uid =>
    Normal [("uid", uid);
            ("metadata", VObj [("creationTime", VStr "2024-05-01")]);
            ("customClaims", VObj [("role", VStr "admin")])]
|}.

(** A provider whose one user has the [roles] claim as one string. *)
Definition one_string_sdk : AuthSdk := {|
  getAuth := Normal tt;
  sdk_verifyIdToken := fun _ _ => Throw [("code", VStr "auth/invalid-id-token")];
  sdk_getUser := fun uid =>
    Normal [("uid", uid);
            ("metadata", VObj [("creationTime", VStr "2024-05-01")]);
            ("customClaims", VObj [("roles", VStr "superadmin")])]
|}.

(** The schema library's own messages, in short. *)
Definition sample_joi : JoiMessages := {|
  string_base := "value must be a string";
  string_empty := "value is not allowed to be empty";
  string_max := fun n => "value is too long"
|}.

(** A document database that cannot be reached. *)
Definition offline_sdk : FirestoreSdk := {|
  getFirestore := Throw [("message", VStr "The default Firebase app does not exist");
                         ("code", VStr "app/no-app")];
  valid_collection := fun c => negb (String.eqb c "");
  valid_id := fun i => negb (String.eqb i "");
  autoId := fun n => "auto" +:+ dec n;
  accepts_set := fun _ => true;
  accepts_update := fun _ => true;
  argument_error := [("message", VStr "invalid resource path")];
  missing_error := [("message", VStr "no document to update"); ("code", VNum 5)]
|}.

(** One stored note. *)
Definition one_note : documents :=
  {[ ("notes", "n1") := [("title", VStr "a"); ("body", VStr "b")] ]}.

(** A delete and an update of a document nobody wrote. *)
Definition stale_batch : list operation :=
  [ {| op_type := "delete"; op_collection := "notes";
       op_id := Some "n1"; op_data := [] |};
    {| op_type := "update"; op_collection := "notes";
       op_id := Some "ghost"; op_data := [("title", VStr "c")] |} ].

(** A create next to a delete whose id is a path of two segments. *)
Definition mixed_batch : list operation :=
  [ {| op_type := "create"; op_collection := "notes"; op_id := None;
       op_data := [("title", VStr "a")] |};
    {| op_type := "delete"; op_collection := "notes";
       op_id := Some "n1/drafts"; op_data := [] |} ].

(** Two clients taking turns. *)
Definition two_clients : list (fields * Z) :=
  [ ([("user", VObj [("uid", VStr "u1")]); ("ip", VStr "10.0.0.7")], 1000);
    ([("ip", VStr "10.0.0.9")], 1500);
    ([("user", VObj [("uid", VStr "u1")]); ("ip", VStr "10.0.0.7")], 2000);
    ([("ip", VStr "10.0.0.9")], 2500);
    ([("user", VObj [("uid", VStr "u1")]); ("ip", VStr "10.0.0.7")], 3000) ].

(** * Properties *)

(** ** Objects *)

Section ObjectFacts.

Lemma get_set_eq k v (o : fields) : get k (set k v o) = v.
Proof.
  induction o as [|[k' v'] o IH]; simpl.
  - by rewrite String.eqb_refl.
  - destruct (String.eqb k' k) eqn:E; simpl; rewrite E; [done | apply IH].
Qed.

Lemma get_set_ne k k' v (o : fields) : k <> k' -> get k' (set k v o) = get k' o.
Proof.
  intros Hne. induction o as [|[k0 v0] o IH]; simpl.
  - destruct (String.eqb k k') eqn:E; [|done].
    apply String.eqb_eq in E. contradiction.
  - destruct (String.eqb k0 k) eqn:E; simpl.
    + apply String.eqb_eq in E. subst k0.
      destruct (String.eqb k k') eqn:E'; [|done].
      apply String.eqb_eq in E'. contradiction.
    + destruct (String.eqb k0 k'); [done | apply IH].
Qed.

Lemma has_set k k' v (o : fields) :
  has k' (set k v o) = String.eqb k k' || has k' o.
Proof.
  induction o as [|[k0 v0] o IH]; simpl.
  - done.
  - destruct (String.eqb k0 k) eqn:E; simpl.
    + apply String.eqb_eq in E. subst k0.
      destruct (String.eqb k k'); done.
    + rewrite IH. destruct (String.eqb k0 k'), (String.eqb k k'); done.
Qed.

Lemma has_spread k (src dst : fields) :
  has k (spread dst src) = has k dst || has k src.
Proof.
  unfold spread. revert dst.
  induction src as [|[k0 v0] src IH]; intros dst; simpl.
  - by rewrite orb_false_r.
  - rewrite IH, has_set. simpl.
    destruct (has k dst), (String.eqb k0 k); done.
Qed.

End ObjectFacts.

(** ** Token verification *)

Section TokenFacts.
Context (rt : runtime) (sdk : AuthSdk).

(** C3: a request whose authorization header is absent or lacks the
    bearer prefix is answered 401 with an envelope of code
    MISSING_TOKEN by the token-verification middleware; when the route
    marked auth optional the same request continues to the next stage
    with [req.user] set to [null]. *)
Theorem missing_bearer_credential
    (checkRevoked optional : bool) (svcTiming timing : Z)
    (req headers : fields) :
  get "headers" req = VObj headers ->
  lacks_bearer (get "authorization" headers) = true ->
  let result :=
    AuthMiddleware.verifyFirebaseToken rt sdk checkRevoked optional
      svcTiming timing req in
  (optional = false ->
     exists body,
       result = (req, Sent 401 body) /\
       body = FirebaseResponse.unauthorized rt
                "Authorization token required" "MISSING_TOKEN" /\
       opt_member body "success" = VBool false /\
       error_code body = VStr "MISSING_TOKEN") /\
  (optional = true ->
     result = (set "user" VNull req, Next) /\
     get "user" (fst result) = VNull).
Proof.
  intros Hh Hl result. subst result.
  unfold AuthMiddleware.verifyFirebaseToken, member. rewrite Hh. simpl.
  unfold opt_member. simpl.
  destruct (get "authorization" headers) as [| |b|n| |h| | |] eqn:Ha;
    simpl in Hl; try discriminate;
    try (simpl; try rewrite (proj1 (negb_true_iff _) Hl); simpl;
         split; intros ->;
         [ eexists; split; [reflexivity|]; repeat split
         | split; [reflexivity|]; simpl; apply get_set_eq ]).
  - simpl. destruct (String.eqb h "") eqn:Eh; simpl.
    + split; intros ->.
      * eexists; split; [reflexivity|]. repeat split.
      * split; [reflexivity|]. simpl. apply get_set_eq.
    + apply negb_true_iff in Hl. rewrite Hl. simpl.
      split; intros ->.
      * eexists; split; [reflexivity|]. repeat split.
      * split; [reflexivity|]. simpl. apply get_set_eq.
Qed.

End TokenFacts.

Lemma missing_bearer_credential_witness :
  let req := [("headers", VObj [("host", VStr "api.example")]);
              ("ip", VStr "10.0.0.7")] in
  exists body,
    AuthMiddleware.verifyFirebaseToken sample_runtime rejecting_sdk
      false false 3 5 req = (req, Sent 401 body) /\
    error_code body = VStr "MISSING_TOKEN".
Proof.
  intros req.
  destruct (missing_bearer_credential sample_runtime rejecting_sdk
              false false 3 5 req [("host", VStr "api.example")]
              eq_refl eq_refl) as [Hrequired _].
  destruct (Hrequired eq_refl) as (body & Hres & _ & _ & Hcode).
  exists body. split; assumption.
Defined.

Section VerificationFacts.
Context (rt : runtime) (sdk : AuthSdk).

Lemma error_envelope_code err operation timing :
  error_code (FirebaseResponse.error rt err operation [] timing)
  = or_else (get "code" err) (VStr "UNKNOWN_ERROR").
Proof.
  unfold error_code, FirebaseResponse.error, FirebaseResponse.timing_field.
  destruct (truthy timing), (development rt); reflexivity.
Qed.

(** The envelope the service builds once the provider has rejected. *)
Lemma verifyIdToken_rejected idToken checkRevoked timing e :
  String.eqb idToken "" = false ->
  getAuth sdk = Normal tt ->
  sdk_verifyIdToken sdk idToken checkRevoked = Throw e ->
  AuthService.verifyIdToken rt sdk idToken checkRevoked timing =
    if strict_eq_str (get "code" e) "auth/id-token-expired"
    then FirebaseResponses.auth_invalidToken rt
    else if strict_eq_str (get "code" e) "auth/id-token-revoked"
    then FirebaseResponse.unauthorized rt "Token has been revoked" "TOKEN_REVOKED"
    else if strict_eq_str (get "code" e) "auth/invalid-id-token"
    then FirebaseResponses.auth_invalidToken rt
    else FirebaseResponse.error rt e "verifyIdToken" [] (VNum timing).
Proof.
  intros Htok Hinit Hrej.
  unfold AuthService.verifyIdToken, AuthService.initialize.
  rewrite Hinit. simpl. rewrite Htok. simpl. rewrite Hrej. reflexivity.
Qed.

(** Whatever happens inside the service, a verification that did not
    resolve yields an envelope whose [success] is [false]. *)
Lemma verifyIdToken_unverified idToken checkRevoked timing :
  (forall d, sdk_verifyIdToken sdk idToken checkRevoked <> Normal d) ->
  opt_member (AuthService.verifyIdToken rt sdk idToken checkRevoked timing)
    "success" = VBool false.
Proof.
  intros Hrej.
  unfold AuthService.verifyIdToken, AuthService.initialize.
  assert (Hcatch : forall e,
    opt_member
      (if strict_eq_str (get "code" e) "auth/id-token-expired"
       then FirebaseResponses.auth_invalidToken rt
       else if strict_eq_str (get "code" e) "auth/id-token-revoked"
       then FirebaseResponse.unauthorized rt "Token has been revoked" "TOKEN_REVOKED"
       else if strict_eq_str (get "code" e) "auth/invalid-id-token"
       then FirebaseResponses.auth_invalidToken rt
       else FirebaseResponse.error rt e "verifyIdToken" [] (VNum timing))
      "success" = VBool false).
  { intros e.
    destruct (strict_eq_str (get "code" e) "auth/id-token-expired"); [done|].
    destruct (strict_eq_str (get "code" e) "auth/id-token-revoked"); [done|].
    destruct (strict_eq_str (get "code" e) "auth/invalid-id-token"); done. }
  destruct (getAuth sdk) as [[]|e0]; simpl; [|apply Hcatch].
  destruct (String.eqb idToken ""); simpl; [done|].
  destruct (sdk_verifyIdToken sdk idToken checkRevoked) as [d|e] eqn:Hv; simpl.
  - exfalso. by apply (Hrej d).
  - apply Hcatch.
Qed.

(** The middleware on a request that carries a bearer token. *)
Lemma verifyFirebaseToken_bearer checkRevoked optional svcTiming timing
    (req headers : fields) h idToken :
  get "headers" req = VObj headers ->
  get "authorization" headers = VStr h ->
  JsString.startsWith h "Bearer " = true ->
  JsString.split h "Bearer " !! 1%nat = Some idToken ->
  String.eqb idToken "" = false ->
  let r := AuthService.verifyIdToken rt sdk idToken checkRevoked svcTiming in
  AuthMiddleware.verifyFirebaseToken rt sdk checkRevoked optional
    svcTiming timing req =
  if negb (truthy (opt_member r "success")) then (req, Sent 401 r)
  else
    let req2 := set "authTiming" (VNum timing)
                  (set "user" (opt_member r "data") req) in
    match member rt (get "user" req2) "uid" with
    | Normal _ => (req2, Next)
    | Throw e =>
        (req2, Sent 500
           (FirebaseResponse.error rt e "token verification" [] (VNum timing)))
    end.
Proof.
  intros Hh Ha Hs Hsplit Htok r.
  assert (Hah : opt_member (VObj headers) "authorization" = VStr h) by exact Ha.
  assert (Hne : String.eqb h "" = false).
  { destruct h; [discriminate Hs | reflexivity]. }
  unfold AuthMiddleware.verifyFirebaseToken, member. rewrite Hh.
  cbn [mbind completion_bind try_catch]. rewrite Hah.
  cbn [truthy negb]. rewrite Hne, Hs, Hsplit. cbn [negb].
  destruct idToken as [|c tok]; [discriminate Htok|].
  fold r. destruct (negb (truthy (opt_member r "success"))); [reflexivity|].
  cbn zeta.
  destruct (get "user" _); reflexivity.
Qed.

(** C4: a provider error of kind expired or invalid gives the
    INVALID_TOKEN envelope, one of kind revoked gives the TOKEN_REVOKED
    envelope, both of the authentication-error kind; any other provider
    error gives the generic error envelope, which keeps the provider's
    error code (and says UNKNOWN_ERROR when the error carries none). The
    token-verification middleware sends each of them with status 401. *)
Theorem provider_errors_are_mapped
    (idToken : string) (checkRevoked : bool) (timing : Z) (e : fields) :
  String.eqb idToken "" = false ->
  getAuth sdk = Normal tt ->
  sdk_verifyIdToken sdk idToken checkRevoked = Throw e ->
  let r := AuthService.verifyIdToken rt sdk idToken checkRevoked timing in
  ((get "code" e = VStr "auth/id-token-expired" \/
    get "code" e = VStr "auth/invalid-id-token") ->
     r = FirebaseResponse.unauthorized rt "Invalid or expired token" "INVALID_TOKEN" /\
     error_code r = VStr "INVALID_TOKEN") /\
  (get "code" e = VStr "auth/id-token-revoked" ->
     r = FirebaseResponse.unauthorized rt "Token has been revoked" "TOKEN_REVOKED" /\
     error_code r = VStr "TOKEN_REVOKED") /\
  (strict_eq_str (get "code" e) "auth/id-token-expired" = false ->
   strict_eq_str (get "code" e) "auth/id-token-revoked" = false ->
   strict_eq_str (get "code" e) "auth/invalid-id-token" = false ->
     r = FirebaseResponse.error rt e "verifyIdToken" [] (VNum timing) /\
     (truthy (get "code" e) = true -> error_code r = get "code" e) /\
     (truthy (get "code" e) = false -> error_code r = VStr "UNKNOWN_ERROR")) /\
  opt_member r "success" = VBool false /\
  (forall optional mwTiming req headers h,
     get "headers" req = VObj headers ->
     get "authorization" headers = VStr h ->
     JsString.startsWith h "Bearer " = true ->
     JsString.split h "Bearer " !! 1%nat = Some idToken ->
     AuthMiddleware.verifyFirebaseToken rt sdk checkRevoked optional
       timing mwTiming req = (req, Sent 401 r)).
Proof.
  intros Htok Hinit Hrej r.
  assert (Hr : r = _) by apply (verifyIdToken_rejected _ _ timing _ Htok Hinit Hrej).
  assert (Hfail : opt_member r "success" = VBool false).
  { apply verifyIdToken_unverified. intros d Hd. congruence. }
  split; [|split; [|split; [|split]]].
  - intros [Hc|Hc]; rewrite Hr, Hc; done.
  - intros Hc; rewrite Hr, Hc; done.
  - intros H1 H2 H3. rewrite H1, H2, H3 in Hr. split; [exact Hr|].
    rewrite Hr, error_envelope_code. unfold or_else.
    split; intros ->; reflexivity.
  - exact Hfail.
  - intros optional mwTiming req headers h Hh Ha Hs Hsplit.
    rewrite (verifyFirebaseToken_bearer _ _ _ _ _ _ _ _ Hh Ha Hs Hsplit Htok).
    cbn zeta. fold r. rewrite Hfail. reflexivity.
Qed.

End VerificationFacts.

Lemma provider_errors_are_mapped_witness :
  error_code (AuthService.verifyIdToken sample_runtime rejecting_sdk
                "stale-token" true 12) = VStr "INVALID_TOKEN".
Proof.
  destruct (provider_errors_are_mapped sample_runtime rejecting_sdk
              "stale-token" true 12
              [("message", VStr "expired"); ("code", VStr "auth/id-token-expired")]
              eq_refl eq_refl eq_refl) as [Hexpired _].
  destruct (Hexpired (or_introl eq_refl)) as [_ Hcode].
  exact Hcode.
Defined.

Section OptionalAuthFacts.
Context (rt : runtime) (sdk : AuthSdk).

(** C10: with auth optional, a bearer token that fails verification is
    still answered 401 with the verification failure envelope; only a
    request without a token (no header, no bearer prefix, empty token)
    continues with [req.user] set to [null], and a request that
    continues otherwise carried a token the provider accepted. *)
Theorem optional_auth_rejects_failed_tokens
    (svcTiming timing : Z) (req headers : fields) :
  get "headers" req = VObj headers ->
  let authorization := get "authorization" headers in
  let result := AuthMiddleware.optionalFirebaseAuth rt sdk svcTiming timing req in
  (forall h idToken,
     authorization = VStr h ->
     JsString.startsWith h "Bearer " = true ->
     JsString.split h "Bearer " !! 1%nat = Some idToken ->
     String.eqb idToken "" = false ->
     (forall d, sdk_verifyIdToken sdk idToken false <> Normal d) ->
     result = (req, Sent 401
                 (AuthService.verifyIdToken rt sdk idToken false svcTiming)) /\
     opt_member (AuthService.verifyIdToken rt sdk idToken false svcTiming)
       "success" = VBool false) /\
  (carries_no_token authorization = true ->
     result = (set "user" VNull req, Next)) /\
  (forall req', result = (req', Next) ->
     carries_no_token authorization = true \/
     exists h idToken d,
       authorization = VStr h /\
       JsString.split h "Bearer " !! 1%nat = Some idToken /\
       sdk_verifyIdToken sdk idToken false = Normal d).
Proof.
  intros Hh authorization result.
  assert (Hfailed : forall h idToken,
     authorization = VStr h ->
     JsString.startsWith h "Bearer " = true ->
     JsString.split h "Bearer " !! 1%nat = Some idToken ->
     String.eqb idToken "" = false ->
     (forall d, sdk_verifyIdToken sdk idToken false <> Normal d) ->
     result = (req, Sent 401
                 (AuthService.verifyIdToken rt sdk idToken false svcTiming)) /\
     opt_member (AuthService.verifyIdToken rt sdk idToken false svcTiming)
       "success" = VBool false).
  { intros h idToken Ha Hs Hsplit Htok Hrej.
    pose proof (verifyIdToken_unverified rt sdk idToken false svcTiming Hrej) as Hfail.
    split; [|exact Hfail].
    unfold result, AuthMiddleware.optionalFirebaseAuth.
    rewrite (verifyFirebaseToken_bearer rt sdk _ _ _ _ _ _ _ _ Hh Ha Hs Hsplit Htok).
    cbn zeta. rewrite Hfail. reflexivity. }
  assert (Hbypass : carries_no_token authorization = true ->
                    result = (set "user" VNull req, Next)).
  { intros Hno.
    assert (Hah : opt_member (VObj headers) "authorization" = authorization)
      by reflexivity.
    unfold result, AuthMiddleware.optionalFirebaseAuth,
      AuthMiddleware.verifyFirebaseToken, member.
    rewrite Hh. cbn [mbind completion_bind try_catch]. rewrite Hah.
    destruct authorization as [| |b|n| |h| | |]; simpl in Hno;
      try discriminate; try reflexivity.
    - apply negb_true_iff in Hno. subst b. reflexivity.
    - cbn [truthy]. rewrite Hno. reflexivity.
    - cbn [truthy]. destruct (negb (String.eqb h "")); [|reflexivity].
      cbn [negb]. unfold JsString.startsWith in *.
      destruct (String.prefix "Bearer " h); [|reflexivity].
      cbn [negb orb] in Hno |- *.
      destruct (JsString.split h "Bearer " !! 1%nat) as [[|c t]|];
        [reflexivity | discriminate | reflexivity]. }
  split; [exact Hfailed | split; [exact Hbypass|]].
  intros req' Hnext.
  destruct (carries_no_token authorization) eqn:Hno; [by left | right].
  assert (Hrun : AuthMiddleware.verifyFirebaseToken rt sdk false true
                   svcTiming timing req = (req', Next)) by exact Hnext.
  unfold AuthMiddleware.verifyFirebaseToken, member in Hrun.
  rewrite Hh in Hrun. cbn [mbind completion_bind try_catch] in Hrun.
  change (opt_member (VObj headers) "authorization") with authorization in Hrun.
  destruct authorization as [| |b|n| |h| | |] eqn:Ha; simpl in Hno;
    try discriminate Hno; try discriminate Hrun.
  - apply negb_false_iff in Hno. subst b. discriminate Hrun.
  - cbn [truthy] in Hrun. rewrite Hno in Hrun. discriminate Hrun.
  - apply orb_false_iff in Hno as [Hs Htok].
    apply negb_false_iff in Hs.
    destruct (JsString.split h "Bearer " !! 1%nat) as [[|c t]|] eqn:Hsplit;
      try discriminate.
    destruct (sdk_verifyIdToken sdk (String c t) false) as [d|e] eqn:Hv.
    + exists h, (String c t), d. done.
    + exfalso.
      destruct (Hfailed h (String c t) eq_refl Hs Hsplit eq_refl) as [Hres _].
      { intros d Hd. congruence. }
      rewrite Hres in Hnext. discriminate.
Qed.

End OptionalAuthFacts.

Lemma optional_auth_rejects_failed_tokens_witness :
  let req := [("headers", VObj [("authorization", VStr "Bearer stale-token")])] in
  AuthMiddleware.optionalFirebaseAuth sample_runtime rejecting_sdk 12 15 req
  = (req, Sent 401
            (AuthService.verifyIdToken sample_runtime rejecting_sdk
               "stale-token" false 12)).
Proof.
  intros req.
  destruct (optional_auth_rejects_failed_tokens sample_runtime rejecting_sdk
              12 15 req [("authorization", VStr "Bearer stale-token")] eq_refl)
    as [Hfailed _].
  destruct (Hfailed "Bearer stale-token" "stale-token"
              eq_refl eq_refl eq_refl eq_refl) as [Hres _].
  - intros d Hd. discriminate Hd.
  - exact Hres.
Defined.

(** ** The role gate *)

Section RoleFacts.
Context (rt : runtime) (sdk : AuthSdk).

(** What [getUserByUid] answers when the provider resolves a record
    that carries its [metadata]. *)
Lemma getUserByUid_found uid timing (userRecord metadata : fields) :
  getAuth sdk = Normal tt ->
  sdk_getUser sdk uid = Normal userRecord ->
  get "metadata" userRecord = VObj metadata ->
  let r := AuthService.getUserByUid rt sdk uid timing in
  opt_member r "success" = VBool true /\
  opt_member (opt_member r "data") "customClaims"
  = or_else (get "customClaims" userRecord) (VObj []) /\
  exists data, opt_member r "data" = VObj data.
Proof.
  intros Hinit Huser Hmeta r. subst r.
  unfold AuthService.getUserByUid, AuthService.initialize.
  rewrite Hinit. cbn [mbind completion_bind try_catch].
  rewrite Huser. cbn [mbind completion_bind try_catch].
  rewrite Hmeta. cbn [member mbind completion_bind try_catch].
  unfold FirebaseResponse.success, FirebaseResponse.timing_field.
  destruct (truthy (VNum timing)); cbn; eauto.
Qed.

(** Where the [roles] claim is a list (or is not there): for a verified
    identity whose fetched custom claims do not carry the required
    role, neither as the [role] claim nor in the [roles] list, the role
    gate answers 403 with code INSUFFICIENT_ROLE; with the role granted
    in the claims the same request is passed on to the next stage. *)
Theorem role_gate
    (requiredRole : string) (svcTiming : Z) (req : fields)
    (userRecord metadata : fields) :
  truthy (get "user" req) = true ->
  getAuth sdk = Normal tt ->
  sdk_getUser sdk (opt_member (get "user" req) "uid") = Normal userRecord ->
  get "metadata" userRecord = VObj metadata ->
  let claims := or_else (get "customClaims" userRecord) (VObj []) in
  roles_is_list claims = true ->
  let result := AuthMiddleware.requireRole rt sdk requiredRole svcTiming req in
  (carries_role claims requiredRole = false ->
     exists body,
       result = (req, Sent 403 body) /\
       body = FirebaseResponse.forbidden rt
                ("Role '" +:+ requiredRole +:+ "' required") "INSUFFICIENT_ROLE" /\
       opt_member body "success" = VBool false /\
       error_code body = VStr "INSUFFICIENT_ROLE") /\
  (carries_role claims requiredRole = true ->
     exists req', result = (req', Next) /\
       forall k, k <> "userRoles" -> k <> "userRole" -> get k req' = get k req).
Proof.
  intros Huser Hinit Hfetch Hmeta claims Hlist result.
  destruct (getUserByUid_found _ svcTiming _ _ Hinit Hfetch Hmeta)
    as (Hok & Hclaims & data & Hdata).
  fold claims in Hclaims.
  assert (Hrun : result =
    match includes_call rt (or_else (opt_member claims "roles") (VArr [])) requiredRole with
    | Normal inRoles =>
        if negb (inRoles || strict_eq_str (opt_member claims "role") requiredRole)
        then (req, Sent 403
                (FirebaseResponse.forbidden rt
                   ("Role '" +:+ requiredRole +:+ "' required") "INSUFFICIENT_ROLE"))
        else (set "userRole" (opt_member claims "role")
                (set "userRoles" (or_else (opt_member claims "roles") (VArr [])) req),
              Next)
    | Throw e =>
        (req, Sent 500 (FirebaseResponse.error rt e "role verification" [] VNull))
    end).
  { unfold result, AuthMiddleware.requireRole.
    rewrite Huser. cbn [negb]. rewrite Hok. cbn [truthy negb].
    unfold member at 1. rewrite Hdata. fold (opt_member (VObj data) "customClaims").
    rewrite <- Hdata, Hclaims.
    cbn [mbind completion_bind].
    destruct (includes_call rt _ requiredRole) as [inRoles|e];
      cbn [mbind completion_bind try_catch]; [|reflexivity].
    destruct (negb _); reflexivity. }
  assert (Hin : includes_call rt (or_else (opt_member claims "roles") (VArr [])) requiredRole
                = Normal match opt_member claims "roles" with
                         | VArr roles => existsb (fun r => strict_eq_str r requiredRole) roles
                         | _ => false
                         end).
  { unfold roles_is_list in Hlist. unfold or_else.
    destruct (opt_member claims "roles") as [| |b|n| |s| |roles|o];
      try reflexivity; try discriminate Hlist;
      apply negb_true_iff in Hlist; rewrite Hlist; reflexivity. }
  rewrite Hin in Hrun.
  unfold carries_role. rewrite orb_comm.
  split; intros Hc; rewrite Hc in Hrun; cbn [negb] in Hrun.
  - eexists. split; [exact Hrun|]. repeat split.
  - eexists. split; [exact Hrun|].
    intros k Hk1 Hk2. rewrite !get_set_ne by done. reflexivity.
Qed.

(** C7, where the code departs from it: when the [roles] claim is a
    string and not a list, [userRoles.includes(requiredRole)] searches
    the string for the role's name. The gate then passes the request on
    to the next stage whenever the name occurs somewhere in that
    string, although the claims carry the role neither as the [role]
    claim nor as a member of a [roles] list, and it files the string as
    [req.userRoles]. *)
Theorem role_gate_passes_on_substring
    (requiredRole roles : string) (svcTiming : Z) (req : fields)
    (userRecord metadata : fields) :
  truthy (get "user" req) = true ->
  getAuth sdk = Normal tt ->
  sdk_getUser sdk (opt_member (get "user" req) "uid") = Normal userRecord ->
  get "metadata" userRecord = VObj metadata ->
  let claims := or_else (get "customClaims" userRecord) (VObj []) in
  opt_member claims "roles" = VStr roles ->
  roles <> "" ->
  JsString.includes roles requiredRole = true ->
  strict_eq_str (opt_member claims "role") requiredRole = false ->
  let result := AuthMiddleware.requireRole rt sdk requiredRole svcTiming req in
  carries_role claims requiredRole = false /\
  snd result = Next /\
  get "userRoles" (fst result) = VStr roles /\
  forall k, k <> "userRoles" -> k <> "userRole" -> get k (fst result) = get k req.
Proof.
  intros Huser Hinit Hfetch Hmeta claims Hroles Hne Hin Hrole result.
  destruct (getUserByUid_found _ svcTiming _ _ Hinit Hfetch Hmeta)
    as (Hok & Hclaims & data & Hdata).
  fold claims in Hclaims.
  assert (Hrun : result =
    (set "userRole" (opt_member claims "role") (set "userRoles" (VStr roles) req),
     Next)).
  { unfold result, AuthMiddleware.requireRole.
    rewrite Huser. cbn [negb]. rewrite Hok. cbn [truthy negb].
    unfold member at 1. rewrite Hdata. fold (opt_member (VObj data) "customClaims").
    rewrite <- Hdata, Hclaims.
    cbn [mbind completion_bind]. rewrite Hroles.
    assert (Hor : or_else (VStr roles) (VArr []) = VStr roles).
    { unfold or_else. cbn [truthy].
      destruct (String.eqb_spec roles ""); [contradiction|reflexivity]. }
    rewrite Hor. cbn [includes_call mbind completion_bind]. rewrite Hin.
    reflexivity. }
  split.
  { unfold carries_role. rewrite Hrole, Hroles. reflexivity. }
  rewrite Hrun. cbn [fst snd]. split; [reflexivity|]. split.
  - rewrite get_set_ne by done. apply get_set_eq.
  - intros k Hk1 Hk2. by rewrite !get_set_ne.
Qed.

End RoleFacts.

Lemma role_gate_witness :
  let req := [("user", VObj [("uid", VStr "u1")])] in
  exists body,
    AuthMiddleware.requireRole sample_runtime directory_sdk "admin" 4 req
    = (req, Sent 403 body) /\
    error_code body = VStr "INSUFFICIENT_ROLE".
Proof.
  intros req.
  destruct (role_gate sample_runtime directory_sdk "admin" 4 req
              [("uid", VStr "u1");
               ("metadata", VObj [("creationTime", VStr "2024-05-01")]);
               ("customClaims", VObj [("role", VStr "editor");
                                      ("roles", VArr [VStr "reviewer"])])]
              [("creationTime", VStr "2024-05-01")]
              eq_refl eq_refl eq_refl eq_refl eq_refl) as [Hdenied _].
  destruct (Hdenied eq_refl) as (body & Hres & _ & _ & Hcode).
  exists body. split; assumption.
Defined.

Lemma role_gate_passes_on_substring_witness :
  let req := [("user", VObj [("uid", VStr "u1")])] in
  snd (AuthMiddleware.requireRole sample_runtime one_string_sdk "admin" 4 req)
  = Next /\
  carries_role (VObj [("roles", VStr "superadmin")]) "admin" = false.
Proof.
  intros req.
  assert (Hne : "superadmin" <> "") by discriminate.
  destruct (role_gate_passes_on_substring sample_runtime one_string_sdk
              "admin" "superadmin" 4 req
              [("uid", VStr "u1");
               ("metadata", VObj [("creationTime", VStr "2024-05-01")]);
               ("customClaims", VObj [("roles", VStr "superadmin")])]
              [("creationTime", VStr "2024-05-01")]
              eq_refl eq_refl eq_refl eq_refl eq_refl Hne eq_refl eq_refl)
    as (Hcarries & Hnext & _).
  split; [exact Hnext | exact Hcarries].
Defined.

(** ** Schema validation leaves the rest of the request alone *)

Section ValidationFacts.
Context (rt : runtime).

(** The part the middleware reads is [req[source]] for every source. *)
Lemma validated_part (source : string) (req : fields) :
  (if String.eqb source "body" then get "body" req
   else if String.eqb source "params" then get "params" req
   else if String.eqb source "query" then get "query" req
   else if String.eqb source "headers" then get "headers" req
   else get source req) = get source req.
Proof.
  repeat match goal with
         | |- context [String.eqb source ?k] =>
             destruct (String.eqb_spec source k) as [->|_]; [reflexivity|]
         end.
  reflexivity.
Qed.

Lemma replaced_part (source : string) (v : value) (req : fields) :
  (if String.eqb source "body" then set "body" v req
   else if String.eqb source "params" then set "params" v req
   else if String.eqb source "query" then set "query" v req
   else if String.eqb source "headers" then set "headers" v req
   else set source v req) = set source v req.
Proof.
  repeat match goal with
         | |- context [String.eqb source ?k] =>
             destruct (String.eqb_spec source k) as [->|_]; [reflexivity|]
         end.
  reflexivity.
Qed.

(** C9: the validation middleware applied to one request part leaves
    every other part of the request as it was: when the schema accepts,
    only the validated part is replaced, by the coerced value; when the
    schema reports offending fields the request is answered 400 and no
    part is modified (nor is one when the schema call itself throws). *)
Theorem validation_frame (sch : schema) (source : string) (timing : Z)
    (req : fields) :
  let result := Validation.validateFirebase rt sch source timing req in
  (forall k, k <> source -> get k (fst result) = get k req) /\
  (forall coerced,
     sch (get source req) = Normal (Valid coerced) ->
     fst result = set source coerced req /\
     get source (fst result) = coerced /\
     (coerced <> VUndefined -> coerced <> VNull -> snd result = Next)) /\
  (forall details,
     sch (get source req) = Normal (Invalid details) ->
     fst result = req /\
     exists errors,
       snd result = Sent 400
         (FirebaseResponse.validation rt (VArr errors) "Validation failed") /\
       length errors = length details) /\
  (forall e,
     sch (get source req) = Throw e ->
     fst result = req /\ exists body, snd result = Sent 500 body).
Proof.
  intros result. subst result.
  unfold Validation.validateFirebase.
  rewrite validated_part.
  destruct (sch (get source req)) as [[coerced|details]|e];
    rewrite ?replaced_part.
  - assert (Hfst : fst (match Validation.object_keys rt coerced with
                        | Normal _ => (set source coerced req, Next)
                        | Throw e =>
                            (set source coerced req,
                             Sent 500 (FirebaseResponse.error rt e
                                         "validation middleware" [] (VNum timing)))
                        end) = set source coerced req).
    { destruct (Validation.object_keys rt coerced); reflexivity. }
    split; [|split; [|split]].
    + intros k Hk. rewrite Hfst. by apply get_set_ne.
    + intros c [= <-]. rewrite Hfst. split; [done|].
      split; [apply get_set_eq|].
      intros Hu Hn. destruct coerced; try reflexivity; contradiction.
    + intros d [=].
    + intros e [=].
  - split; [done|]. split; [intros c [=]|]. split; [|intros e [=]].
    intros d [= <-]. split; [done|].
    eexists. split; [reflexivity|]. by rewrite length_map.
  - split; [done|]. split; [intros c [=]|]. split; [intros d [=]|].
    intros e' _. split; [done|]. eauto.
Qed.

End ValidationFacts.

(** ** The shapes of the envelopes *)

Section EnvelopeFacts.
Context (rt : runtime).

Lemma has_app k (a b : fields) : has k (a ++ b) = has k a || has k b.
Proof.
  induction a as [|[k' v'] a IH]; simpl; [done|].
  rewrite IH. by rewrite orb_assoc.
Qed.

Lemma has_literal k (props : fields) : has k (literal props) = has k props.
Proof. unfold literal. by rewrite has_spread. Qed.



End EnvelopeFacts.

Section BatchEnvelopeFacts.
Context (rt : runtime).

Lemma batch_partition (results : list fields) :
  (length (filter (fun r => FirebaseResponse.succeeded r = true) results)
   + length (filter (fun r => FirebaseResponse.succeeded r = false) results)
   = length results)%nat.
Proof.
  induction results as [|r results IH]; [done|].
  rewrite !filter_cons.
  destruct (FirebaseResponse.succeeded r) eqn:E.
  - rewrite decide_True by done. rewrite decide_False by done. simpl. lia.
  - rewrite decide_False by done. rewrite decide_True by done. simpl. lia.
Qed.

Lemma batch_none_failed (results : list fields) :
  (length (filter (fun r => FirebaseResponse.succeeded r = false) results) =? 0)%nat
  = forallb FirebaseResponse.succeeded results.
Proof.
  induction results as [|r results IH]; [done|].
  rewrite filter_cons. simpl.
  destruct (FirebaseResponse.succeeded r) eqn:E.
  - rewrite decide_False by done. exact IH.
  - rewrite decide_True by done. reflexivity.
Qed.

Lemma batch_all_succeeded (results : list fields) :
  forallb FirebaseResponse.succeeded results = true ->
  filter (fun r => FirebaseResponse.succeeded r = true) results = results /\
  filter (fun r => FirebaseResponse.succeeded r = false) results = [].
Proof.
  induction results as [|r results IH]; [done|].
  simpl. intros [Hr Hrest]%andb_true_iff. destruct (IH Hrest) as [IH1 IH2].
  rewrite !filter_cons.
  rewrite decide_True by done. rewrite decide_False by (rewrite Hr; done).
  by rewrite IH1, IH2.
Qed.

(** The envelope of [batch]. *)
Lemma batch_envelope (results : list fields) operation :
  let e := FirebaseResponse.batch rt results operation in
  opt_member e "success" = VBool (forallb FirebaseResponse.succeeded results) /\
  opt_member e "results" = VArr (map VObj results) /\
  opt_member (opt_member e "summary") "total"
  = VNum (Z.of_nat (length results)) /\
  opt_member (opt_member e "summary") "successful"
  = VNum (Z.of_nat (length (filter (fun r => FirebaseResponse.succeeded r = true)
                              results))) /\
  opt_member (opt_member e "summary") "failed"
  = VNum (Z.of_nat (length (filter (fun r => FirebaseResponse.succeeded r = false)
                              results))) /\
  has "message" (fields_of e) = true /\
  has "error" (fields_of e) = false.
Proof.
  cbn zeta. unfold FirebaseResponse.batch, opt_member. cbn.
  rewrite batch_none_failed. done.
Qed.

End BatchEnvelopeFacts.



(** ** The sanitizer *)

Section SanitizerFacts.

Lemma occurs_remove_chars cls c s :
  occurs c (JsString.remove_chars cls s) = true -> cls c = false.
Proof.
  induction s as [|c' s IH]; simpl; [discriminate|].
  destruct (cls c') eqn:E; simpl; [exact IH|].
  intros [Hc|Hc]%orb_true_iff; [|by apply IH].
  apply Ascii.eqb_eq in Hc. by subst c'.
Qed.

Lemma occurs_remove_ci pat c s :
  forall skip, occurs c (JsString.remove_ci_from pat skip s) = true ->
               occurs c s = true.
Proof.
  induction s as [|c' s IH]; intros skip; simpl; [done|].
  destruct skip as [|k].
  - destruct (JsString.prefix_ci pat (String c' s)).
    + intros H. rewrite (IH _ H). apply orb_true_r.
    + simpl. intros [Hc|Hc]%orb_true_iff; [by rewrite Hc|].
      rewrite (IH _ Hc). apply orb_true_r.
  - intros H. rewrite (IH _ H). apply orb_true_r.
Qed.

Lemma occurs_trim_start c s :
  occurs c (JsString.trim_start s) = true -> occurs c s = true.
Proof.
  induction s as [|c' s IH]; simpl; [done|].
  destruct (JsString.is_space c'); [|done].
  intros H. rewrite (IH H). apply orb_true_r.
Qed.

Lemma occurs_trim_end c s :
  occurs c (JsString.trim_end s) = true -> occurs c s = true.
Proof.
  induction s as [|c' s IH]; simpl; [done|].
  destruct (JsString.trim_end s) as [|c'' t] eqn:E.
  - destruct (JsString.is_space c'); simpl; [discriminate|].
    rewrite orb_false_r. intros ->. reflexivity.
  - simpl in *. intros [Hc|Hc]%orb_true_iff; [by rewrite Hc|].
    rewrite (IH Hc). apply orb_true_r.
Qed.

Lemma prefix_occurs c p s :
  String.prefix (String c p) s = true -> occurs c s = true.
Proof.
  destruct s as [|c' s]; simpl; [discriminate|].
  destruct (ascii_dec c c') as [->|]; [|discriminate].
  intros _. by rewrite Ascii.eqb_refl.
Qed.

Lemma includes_occurs c p s :
  JsString.includes s (String c p) = true -> occurs c s = true.
Proof.
  induction s as [|c' s IH].
  - simpl. discriminate.
  - cbn [JsString.includes].
    intros [Hp|Hr]%orb_true_iff; [by apply (prefix_occurs c p)|].
    simpl. rewrite (IH Hr). apply orb_true_r.
Qed.

(** The sanitized string holds no angle bracket, hence no [<script>]. *)
Lemma sanitizeString_no_script_tag (s : string) :
  occurs "<" (Validation.sanitizeString s) = false /\
  occurs ">" (Validation.sanitizeString s) = false /\
  JsString.includes (Validation.sanitizeString s) "<script>" = false.
Proof.
  assert (Hno : forall c, (Ascii.eqb c "<" || Ascii.eqb c ">") = true ->
                          occurs c (Validation.sanitizeString s) = false).
  { intros c Hc. destruct (occurs c (Validation.sanitizeString s)) eqn:E; [|done].
    unfold Validation.sanitizeString, JsString.trim, JsString.remove_ci in E.
    apply occurs_trim_end, occurs_trim_start in E.
    apply occurs_remove_ci, occurs_remove_ci in E.
    apply occurs_remove_chars in E. congruence. }
  split; [by apply Hno|]. split; [by apply Hno|].
  destruct (JsString.includes _ "<script>") eqn:E; [|done].
  apply includes_occurs in E. rewrite Hno in E; done.
Qed.

End SanitizerFacts.

(** C2 at a failing input: the body carries [<script>] and a
    [javascript:] wrapped around a second one; the single pass of the
    sanitizer drops the inner match, and what it forwards holds the
    literal [javascript:] (and no [<script>]). *)
Theorem sanitizer_forwards_javascript_scheme :
  let payload := "<script>javajavascript:script:alert(1)" in
  let req := [("body", VObj [("bio", VStr payload)]); ("query", VObj [])] in
  JsString.includes payload "<script>" = true /\
  opt_member (get "body" (fst (Validation.sanitizeFirebaseData req))) "bio"
  = VStr "scriptjavascript:alert(1)" /\
  JsString.includes "scriptjavascript:alert(1)" "javascript:" = true /\
  JsString.includes "scriptjavascript:alert(1)" "<script>" = false /\
  Validation.sanitizeString "javascript:jajavascript:vascript:alert(1)"
  = "javascript:alert(1)".
Proof. repeat split. Qed.

(** ** Deleting a document twice *)

Section DeleteFacts.
Context (rt : runtime) (sdk : FirestoreSdk).

(** A hard delete answers with a success envelope only when the
    document was there, and then the document is gone. *)
Lemma hard_delete_success (collection docId : string) (userId : value)
    (timing : Z) (db : documents) :
  let r := FirestoreService.deleteDocument rt sdk collection docId
             (VBool true) userId timing db in
  truthy (opt_member (fst r) "success") = true ->
  getFirestore sdk = Normal tt /\
  FirestoreService.doc sdk collection (Some docId) = Normal (collection, docId) /\
  is_Some (db !! (collection, docId)) /\
  snd r = delete (collection, docId) db.
Proof.
  cbn zeta.
  unfold FirestoreService.deleteDocument, FirestoreService.initialize,
    FirestoreService.doc.
  destruct (getFirestore sdk) as [[]|e]; cbn [mbind completion_bind try_catch];
    [|cbn; discriminate].
  destruct (valid_collection sdk collection && valid_id sdk docId);
    cbn [mbind completion_bind try_catch]; [|cbn; discriminate].
  destruct (db !! (collection, docId)) as [old|] eqn:Hdb.
  - rewrite bool_decide_eq_true_2 by eauto. cbn. intros _. eauto.
  - rewrite bool_decide_eq_false_2 by (intros [? ?]; done). cbn.
    discriminate.
Qed.

(** C8: a hard delete repeated after a first successful hard delete of
    the same document answers with the not-found envelope, which the
    route sends with status 404; it is not a second success. *)
Theorem hard_delete_twice
    (collection docId : string) (userId userId' : value) (t1 t2 : Z)
    (db : documents) :
  let first := FirestoreService.deleteDocument rt sdk collection docId
                 (VBool true) userId t1 db in
  truthy (opt_member (fst first) "success") = true ->
  let second := FirestoreService.deleteDocument rt sdk collection docId
                  (VBool true) userId' t2 (snd first) in
  fst second = FirebaseResponses.document_notFound rt collection docId /\
  opt_member (fst second) "success" = VBool false /\
  error_code (fst second) = VStr "NOT_FOUND" /\
  snd second = snd first /\
  (forall req query user,
     get "query" req = VObj query ->
     get "hardDelete" query = VBool true ->
     get "user" req = VObj user ->
     FirestoreRoutes.deleteDocument rt sdk collection docId t2 req (snd first)
     = (Sent 404 (FirebaseResponses.document_notFound rt collection docId),
        snd first)).
Proof.
  intros first Hok second.
  destruct (hard_delete_success collection docId userId t1 db Hok)
    as (Hinit & Hdoc & _ & Hdb).
  fold first in Hdb.
  assert (Hsecond : forall u t,
    FirestoreService.deleteDocument rt sdk collection docId (VBool true) u t
      (snd first)
    = (FirebaseResponses.document_notFound rt collection docId, snd first)).
  { intros u t. unfold FirestoreService.deleteDocument, FirestoreService.initialize.
    rewrite Hinit. cbn [mbind completion_bind]. rewrite Hdoc.
    cbn [mbind completion_bind].
    rewrite bool_decide_eq_false_2; [reflexivity|].
    rewrite Hdb, lookup_delete_eq. intros [? ?]; done. }
  unfold second. rewrite Hsecond. cbn [fst snd].
  repeat split.
  intros req query user Hq Hh Hu.
  unfold FirestoreRoutes.deleteDocument, member. rewrite Hq, Hu.
  change (opt_member (VObj query) "hardDelete") with (get "hardDelete" query).
  rewrite Hh. cbn [mbind completion_bind].
  rewrite Hsecond. reflexivity.
Qed.

End DeleteFacts.

Lemma hard_delete_twice_witness :
  fst (FirestoreService.deleteDocument sample_runtime plain_sdk "notes" "n1"
         (VBool true) (VStr "u1") 9
         (snd (FirestoreService.deleteDocument sample_runtime plain_sdk
                 "notes" "n1" (VBool true) (VStr "u1") 7
                 {[ ("notes", "n1") := [("title", VStr "draft")] ]})))
  = FirebaseResponses.document_notFound sample_runtime "notes" "n1".
Proof.
  exact (proj1 (hard_delete_twice sample_runtime plain_sdk "notes" "n1"
                  (VStr "u1") (VStr "u1") 7 9
                  {[ ("notes", "n1") := [("title", VStr "draft")] ]}
                  eq_refl)).
Defined.

(** ** Batches *)

Section BatchFacts.
Context (rt : runtime) (sdk : FirestoreSdk).

Lemma tally_filter b (results : list fields) :
  length (filter (fun r => FirebaseResponse.succeeded r = b) results)
  = tally b results.
Proof.
  induction results as [|r results IH]; [done|].
  rewrite filter_cons. cbn [tally]. rewrite <- IH.
  destruct (FirebaseResponse.succeeded r), b; case_decide; done.
Qed.

Lemma queue_one_benign index o :
  benign sdk o = true ->
  FirebaseResponse.succeeded (snd (FirestoreService.queue_one sdk index o)) = true /\
  forallb blind (fst (FirestoreService.queue_one sdk index o)) = true.
Proof.
  unfold benign, valid_create, FirestoreService.queue_one,
    FirestoreService.new_doc, FirestoreService.doc, FirestoreService.checked.
  intros [[[Ht Hc]%andb_true_iff Hdata]%andb_true_iff
         | [Ht Hid]%andb_true_iff]%orb_true_iff.
  - rewrite Ht, Hc. cbn [mbind completion_bind]. rewrite Hdata. cbn. done.
  - apply String.eqb_eq in Ht. rewrite Ht. cbn [String.eqb Ascii.eqb Bool.eqb].
    destruct (op_id o) as [i|]; [|discriminate].
    rewrite Hid. cbn. done.
Qed.

Lemma queue_benign operations :
  forall index,
  forallb (benign sdk) operations = true ->
  forallb FirebaseResponse.succeeded
    (snd (FirestoreService.queue sdk index operations)) = true /\
  forallb blind (fst (FirestoreService.queue sdk index operations)) = true /\
  length (snd (FirestoreService.queue sdk index operations)) = length operations.
Proof.
  induction operations as [|o operations IH]; intros index; [done|].
  cbn [forallb]. intros [Ho Hrest]%andb_true_iff.
  destruct (queue_one_benign index o Ho) as [Hr Hw].
  destruct (IH (S index) Hrest) as (IHr & IHw & IHl).
  cbn [FirestoreService.queue].
  destruct (FirestoreService.queue_one sdk index o) as [w r].
  destruct (FirestoreService.queue sdk (S index) operations) as [ws rs].
  cbn [fst snd forallb length] in *.
  rewrite forallb_app, Hr, Hw, IHr, IHw, IHl. done.
Qed.

(** A batch without updates always commits. *)
Lemma commit_blind (batch : list write) :
  forall db : documents,
  forallb blind batch = true ->
  exists db', FirestoreService.commit sdk batch db = Normal db'.
Proof.
  induction batch as [|w batch IH]; intros db; [eauto|].
  cbn [forallb]. intros [Hw Hrest]%andb_true_iff.
  destruct w as [ref data|ref data|ref]; try discriminate;
    cbn [FirestoreService.commit FirestoreService.apply_write mbind completion_bind];
    by apply IH.
Qed.

Lemma scenario_benign (db : documents) operations :
  two_creates_one_missing_delete sdk db operations = true ->
  forallb (benign sdk) operations = true /\ length operations = 3%nat.
Proof.
  assert (Hdisjoint : forall o,
    valid_create sdk o = true -> delete_of_missing sdk db o = false).
  { intros o [[Ht _]%andb_true_iff _]%andb_true_iff. unfold delete_of_missing.
    apply String.eqb_eq in Ht. by rewrite Ht. }
  assert (Hdel : forall o, delete_of_missing sdk db o = true -> benign sdk o = true).
  { intros o [Ht Hid]%andb_true_iff. unfold benign. rewrite Ht.
    destruct (op_id o); [|discriminate].
    apply andb_true_iff in Hid as [-> _]. apply orb_true_r. }
  assert (Hcre : forall o, valid_create sdk o = true -> benign sdk o = true).
  { intros o Ho. unfold benign. by rewrite Ho. }
  unfold two_creates_one_missing_delete.
  destruct operations as [|a [|b [|c [|d rest]]]]; try discriminate.
  cbn [length List.filter forallb].
  pose proof (Hdisjoint a) as Da. pose proof (Hdisjoint b) as Db.
  pose proof (Hdisjoint c) as Dc.
  pose proof (Hdel a) as Ea. pose proof (Hdel b) as Eb. pose proof (Hdel c) as Ec.
  pose proof (Hcre a) as Fa. pose proof (Hcre b) as Fb. pose proof (Hcre c) as Fc.
  destruct (valid_create sdk a), (valid_create sdk b), (valid_create sdk c),
    (delete_of_missing sdk db a), (delete_of_missing sdk db b),
    (delete_of_missing sdk db c);
    cbn; try discriminate; intros _;
    rewrite ?Ea, ?Eb, ?Ec, ?Fa, ?Fb, ?Fc by done; try done;
    first [ discriminate (Da eq_refl) | discriminate (Db eq_refl)
          | discriminate (Dc eq_refl) ].
Qed.

(** C5: for a batch of two valid creates and one delete of a document
    that does not exist, the service answers with the batch envelope:
    its top-level [success] is [true] exactly when no per-operation
    result failed, and [summary.successful] and [summary.failed] are
    the numbers of results with [success] true and false. The delete
    of the missing document is queued like any other and recorded as a
    success, so the counts read 3 and 0 and [success] is [true]. *)
Theorem batch_counts_match
    (operations : list operation) (timing : Z) (db : documents) :
  getFirestore sdk = Normal tt ->
  two_creates_one_missing_delete sdk db operations = true ->
  let envelope :=
    fst (FirestoreService.batchOperations rt sdk operations timing db) in
  exists results,
    envelope = FirebaseResponse.batch rt results "batch operations" /\
    opt_member envelope "results" = VArr (map VObj results) /\
    length results = length operations /\
    opt_member envelope "success" = VBool (Nat.eqb (tally false results) 0) /\
    opt_member (opt_member envelope "summary") "successful"
    = VNum (Z.of_nat (tally true results)) /\
    opt_member (opt_member envelope "summary") "failed"
    = VNum (Z.of_nat (tally false results)) /\
    tally true results = 3%nat /\ tally false results = 0%nat /\
    fst (FirestoreRoutes.batch rt sdk operations timing db) = Sent 200 envelope.
Proof.
  intros Hinit Hscenario envelope.
  destruct (scenario_benign db operations Hscenario) as [Hbenign Hlen].
  destruct (queue_benign operations 0%nat Hbenign) as (Hrs & Hws & Hl).
  assert (Henv : exists db',
    FirestoreService.batchOperations rt sdk operations timing db
    = (FirebaseResponse.batch rt
         (snd (FirestoreService.queue sdk 0 operations)) "batch operations", db')).
  { unfold FirestoreService.batchOperations, FirestoreService.initialize.
    rewrite Hinit. cbn [mbind completion_bind].
    destruct (FirestoreService.queue sdk 0 operations) as [batch results].
    cbn [fst snd] in *.
    destruct (commit_blind batch db Hws) as [db' ->].
    cbn [mbind completion_bind try_catch]. eauto. }
  destruct Henv as [db' Henv].
  set (results := snd (FirestoreService.queue sdk 0 operations)) in *.
  destruct (batch_envelope rt results "batch operations")
    as (Hsuccess & Hresults & _ & Hsucc & Hfail & _ & _).
  destruct (batch_all_succeeded results Hrs) as [Hall Hnone].
  pose proof (tally_filter true results) as Ttrue.
  pose proof (tally_filter false results) as Tfalse.
  assert (Hthree : tally true results = 3%nat).
  { rewrite <- Ttrue, Hall, Hl. exact Hlen. }
  assert (Hzero : tally false results = 0%nat).
  { rewrite <- Tfalse, Hnone. reflexivity. }
  exists results. unfold envelope. rewrite Henv. cbn [fst].
  split; [reflexivity|]. split; [exact Hresults|]. split; [exact Hl|].
  split.
  { rewrite Hsuccess, Hrs, Hzero. reflexivity. }
  split; [by rewrite Hsucc, Ttrue|]. split; [by rewrite Hfail, Tfalse|].
  split; [exact Hthree|]. split; [exact Hzero|].
  unfold FirestoreRoutes.batch. rewrite Henv. cbn [fst].
  rewrite Hsuccess, Hrs. reflexivity.
Qed.

End BatchFacts.

Lemma batch_counts_match_witness :
  opt_member
    (opt_member
       (fst (FirestoreService.batchOperations sample_runtime plain_sdk
               sample_batch 21 ∅))
       "summary")
    "successful" = VNum 3.
Proof.
  assert (Hscenario :
    two_creates_one_missing_delete plain_sdk ∅ sample_batch = true)
    by (vm_compute; reflexivity).
  destruct (batch_counts_match sample_runtime plain_sdk sample_batch 21 ∅
              eq_refl Hscenario)
    as (results & _ & _ & _ & _ & Hsucc & _ & Hthree & _).
  rewrite Hsucc, Hthree. reflexivity.
Defined.

(** ** The sliding window *)

Section WindowFacts.
Context (rt : runtime) (maxRequests windowMs : Z).

Lemma newer_newer w1 w2 (l : list Z) :
  w1 <= w2 -> RateLimit.newer w2 (RateLimit.newer w1 l) = RateLimit.newer w2 l.
Proof.
  intros Hw. unfold RateLimit.newer.
  induction l as [|x l IH]; [done|].
  rewrite (filter_cons (fun t => w1 < t)).
  destruct (decide (w1 < x)).
  - rewrite !filter_cons. rewrite IH. done.
  - rewrite IH. rewrite (filter_cons_False (fun t => w2 < t)) by lia. done.
Qed.

Lemma newer_all w (l : list Z) :
  Forall (fun x => w < x) l -> RateLimit.newer w l = l.
Proof.
  unfold RateLimit.newer. induction 1 as [|x l Hx Hl IH]; [done|].
  rewrite filter_cons_True by done. by rewrite IH.
Qed.

Lemma newer_none w (l : list Z) :
  Forall (fun x => x <= w) l -> RateLimit.newer w l = [].
Proof.
  unfold RateLimit.newer. induction 1 as [|x l Hx Hl IH]; [done|].
  rewrite filter_cons_False by lia. exact IH.
Qed.

Lemma newer_app w (l1 l2 : list Z) :
  RateLimit.newer w (l1 ++ l2) = RateLimit.newer w l1 ++ RateLimit.newer w l2.
Proof. apply filter_app. Qed.

(** After the sweep a key holds what was newer than the window start. *)
Lemma held_sweep (w : Z) (requests : RateLimit.store) (k : option string) :
  held (RateLimit.sweep w requests) k = RateLimit.newer w (held requests k).
Proof.
  unfold held, RateLimit.sweep. rewrite lookup_omap.
  destruct (requests !! k) as [l|]; simpl; [|done].
  destruct (RateLimit.newer w l) as [|x l'] eqn:E; simpl; done.
Qed.

(** One request through the limiter, seen from key [k]. *)
Lemma limiter_step (now : Z) (req : fields) (requests : RateLimit.store)
    (k : option string) :
  let recent := RateLimit.newer (now - windowMs) (held requests k) in
  let '(_, o, requests') :=
    RateLimit.createFirebaseRateLimit rt maxRequests windowMs now req requests in
  if decide (RateLimit.request_key req = k) then
    if maxRequests <=? Z.of_nat (length recent)
    then o = Sent 429 (RateLimit.rate_limited rt maxRequests windowMs now recent)
         /\ held requests' k = recent
    else o = Next /\ held requests' k = recent ++ [now]
  else held requests' k = recent.
Proof.
  cbn zeta. unfold RateLimit.createFirebaseRateLimit.
  fold (held (RateLimit.sweep (now - windowMs) requests) (RateLimit.request_key req)).
  rewrite held_sweep, newer_newer by lia.
  destruct (decide (RateLimit.request_key req = k)) as [->|Hne].
  - destruct (maxRequests <=? _).
    + split; [done|]. apply held_sweep.
    + split; [done|]. unfold held. by rewrite lookup_insert_eq.
  - destruct (maxRequests <=? _).
    + apply held_sweep.
    + unfold held at 1. rewrite lookup_insert_ne by done. apply held_sweep.
Qed.

End WindowFacts.

Section LimiterFacts.
Context (rt : runtime) (maxRequests windowMs : Z) (k : option string).

Lemma nondecreasing_cons t (ts : list Z) :
  RateLimit.nondecreasing (t :: ts) = true ->
  RateLimit.nondecreasing ts = true /\ Forall (Z.le t) ts.
Proof.
  revert t. induction ts as [|t' ts IH]; intros t; [done|].
  cbn [RateLimit.nondecreasing]. intros [Hle Hrest]%andb_true_iff.
  apply Z.leb_le in Hle. split; [exact Hrest|].
  destruct (IH t' Hrest) as [_ Hall].
  constructor; [done|].
  eapply Forall_impl; [exact Hall|]. intros x Hx. simpl in Hx. lia.
Qed.

Lemma nondecreasing_sorted (ts : list Z) :
  RateLimit.nondecreasing ts = true -> StronglySorted Z.le ts.
Proof.
  induction ts as [|t ts IH]; [constructor|].
  intros H. destruct (nondecreasing_cons t ts H) as [Hrest Hall].
  constructor; auto.
Qed.

Lemma key_times_bound t (arrivals : list (fields * Z)) :
  Forall (Z.le t) (map snd arrivals) -> Forall (Z.le t) (key_times k arrivals).
Proof.
  unfold key_times. rewrite !Forall_forall. intros Hall x Hx.
  apply Hall. apply list_elem_of_fmap in Hx as (a & -> & Ha).
  apply list_elem_of_filter in Ha as [_ Ha].
  apply list_elem_of_fmap. eauto.
Qed.

Lemma key_times_sorted (arrivals : list (fields * Z)) :
  StronglySorted Z.le (map snd arrivals) ->
  StronglySorted Z.le (key_times k arrivals).
Proof.
  induction arrivals as [|[req now] arrivals IH]; [constructor|].
  cbn [map snd]. intros [Hall Hrest]%StronglySorted_cons.
  unfold key_times. rewrite filter_cons. cbn [fst].
  destruct (decide (RateLimit.request_key req = k)); [|by apply IH].
  cbn [map snd]. constructor; [by apply IH | by apply key_times_bound].
Qed.

(** The limiter answers a key as the sliding window over the instants
    it let through: other keys' requests only age the entries. *)
Lemma answers_window (arrivals : list (fields * Z)) :
  forall (requests : RateLimit.store) (seen : list Z) (t0 : Z),
  RateLimit.nondecreasing (t0 :: map snd arrivals) = true ->
  (forall t, t0 <= t ->
     RateLimit.newer (t - windowMs) (held requests k)
     = RateLimit.newer (t - windowMs) seen) ->
  RateLimit.answers rt maxRequests windowMs k arrivals requests
  = window rt maxRequests windowMs seen (key_times k arrivals).
Proof.
  induction arrivals as [|[req now] arrivals IH]; intros requests seen t0 Hmono Hinv;
    [done|].
  cbn [map snd] in Hmono.
  assert (Hnow : t0 <= now /\
                 RateLimit.nondecreasing (now :: map snd arrivals) = true).
  { cbn [RateLimit.nondecreasing] in Hmono.
    apply andb_true_iff in Hmono as [Hle Hrest]. apply Z.leb_le in Hle. done. }
  destruct Hnow as [Hle Hrest].
  cbn [RateLimit.answers].
  pose proof (limiter_step rt maxRequests windowMs now req requests k) as Hstep.
  cbn zeta in Hstep.
  destruct (RateLimit.createFirebaseRateLimit rt maxRequests windowMs now req requests)
    as [[req' o] requests'].
  unfold key_times. rewrite filter_cons. cbn [fst].
  rewrite (Hinv now Hle) in Hstep.
  assert (Haged : forall l t, now <= t ->
    RateLimit.newer (t - windowMs) (RateLimit.newer (now - windowMs) l)
    = RateLimit.newer (t - windowMs) l).
  { intros l t Ht. apply newer_newer. lia. }
  destruct (decide (RateLimit.request_key req = k)) as [Hk|Hk].
  - cbn [map snd window].
    destruct (maxRequests <=? _); destruct Hstep as [-> Hheld]; cbn [app];
      f_equal; apply (IH requests' _ now Hrest); intros t Ht; rewrite Hheld.
    + by rewrite Haged.
    + by rewrite !newer_app, Haged.
  - cbn [app]. apply (IH requests' _ now Hrest). intros t Ht.
    by rewrite Hstep, Haged.
Qed.

(** While fewer than [maxRequests] instants are live, the window lets
    every request through and remembers it. *)
Lemma window_fill (t1 T : Z) (stale : list Z) :
  Forall (fun x => x <= t1 - windowMs) stale ->
  T - windowMs < t1 ->
  forall (times live rest : list Z),
  Forall (fun x => T - windowMs < x) live ->
  Forall (fun t => t1 <= t /\ t <= T) times ->
  Z.of_nat (length live + length times) <= maxRequests ->
  window rt maxRequests windowMs (stale ++ live) (times ++ rest)
  = replicate (length times) Next
    ++ window rt maxRequests windowMs (stale ++ live ++ times) rest.
Proof.
  intros Hstale Hwin.
  induction times as [|t times IH]; intros live rest Hlive Htimes Hroom.
  - by rewrite !app_nil_r.
  - apply Forall_cons in Htimes as [[Ht1 HtT] Htimes].
    cbn [app window length replicate].
    rewrite newer_app.
    rewrite (newer_none _ stale)
      by (eapply Forall_impl; [exact Hstale|]; simpl; intros; lia).
    rewrite (newer_all _ live)
      by (eapply Forall_impl; [exact Hlive|]; simpl; intros; lia).
    cbn [app].
    replace (maxRequests <=? Z.of_nat (length live)) with false
      by (symmetry; apply Z.leb_gt; cbn [length] in Hroom; lia).
    f_equal.
    replace (stale ++ live ++ t :: times) with (stale ++ (live ++ [t]) ++ times)
      by (by rewrite <- (assoc_L (++) live)).
    rewrite <- (assoc_L (++) stale live [t]).
    apply IH; [|done|].
    + apply Forall_app. split; [done|]. constructor; [lia|constructor].
    + rewrite length_app. cbn [length] in *. lia.
Qed.

End LimiterFacts.

Section RateLimitTheorem.
Context (rt : runtime).

Lemma ceil_div_1000_spec (x : Z) :
  1000 * (RateLimit.ceil_div_1000 x - 1) < x <= 1000 * RateLimit.ceil_div_1000 x.
Proof.
  unfold RateLimit.ceil_div_1000.
  pose proof (Z.div_mod (- x) 1000 ltac:(lia)) as Hdm.
  pose proof (Z.mod_pos_bound (- x) 1000 ltac:(lia)) as Hb.
  lia.
Qed.

Lemma rate_limited_retryAfter maxRequests windowMs now recent :
  opt_member
    (opt_member (RateLimit.rate_limited rt maxRequests windowMs now recent) "error")
    "retryAfter"
  = RateLimit.retryAfter recent windowMs now.
Proof.
  unfold RateLimit.rate_limited, FirebaseResponse.error.
  destruct (development rt); reflexivity.
Qed.

(** C1 as the code has it, for [maxRequests >= 1]: when a key whose
    entry holds nothing inside the window sends [maxRequests + 1]
    requests within one window, the first [maxRequests] of them are
    passed on and the next is answered 429 with [retryAfter] the number
    of seconds, rounded up and positive, until the oldest instant kept
    for the key leaves the window; once the window has moved past that
    instant the key's next request is passed on again. Requests of
    other keys may arrive in between at any instants. *)
Theorem rate_limit_window
    (maxRequests windowMs : Z) (k : option string)
    (arrivals : list (fields * Z)) (requests : RateLimit.store)
    (t1 T t' : Z) (mids : list Z) :
  1 <= maxRequests ->
  RateLimit.nondecreasing (map snd arrivals) = true ->
  key_times k arrivals = t1 :: mids ++ [T; t'] ->
  Z.of_nat (length mids) = maxRequests - 1 ->
  T < t1 + windowMs ->
  t1 + windowMs <= t' ->
  Forall (fun x => x <= t1 - windowMs) (held requests k) ->
  let body := RateLimit.rate_limited rt maxRequests windowMs T (t1 :: mids) in
  let seconds := RateLimit.ceil_div_1000 (t1 + windowMs - T) in
  RateLimit.answers rt maxRequests windowMs k arrivals requests
  = replicate (Z.to_nat maxRequests) Next ++ [Sent 429 body; Next] /\
  opt_member (opt_member body "error") "retryAfter" = VNum seconds /\
  0 < seconds /\
  1000 * (seconds - 1) < t1 + windowMs - T <= 1000 * seconds.
Proof.
  intros Hmax Hmono Htimes Hcount Hwithin Hafter Hfresh body seconds.
  split; [|split; [apply rate_limited_retryAfter|]].
  2: { pose proof (ceil_div_1000_spec (t1 + windowMs - T)) as Hc.
       unfold seconds. split; [lia | exact Hc]. }
  assert (Hsorted : StronglySorted Z.le (t1 :: mids ++ [T; t'])).
  { rewrite <- Htimes. apply key_times_sorted, nondecreasing_sorted, Hmono. }
  apply StronglySorted_cons in Hsorted as [Hlow Hsorted].
  apply Forall_app in Hlow as [Hlow HlowT].
  apply Forall_cons in HlowT as [HlowT _].
  assert (Hhigh : Forall (fun t => t <= T) mids).
  { apply Forall_forall. intros x Hx.
    apply (StronglySorted_app_1_elem_of Z.le mids [T; t'] x T Hsorted Hx).
    apply list_elem_of_here. }
  assert (Hbetween : Forall (fun t => t1 <= t /\ t <= T) (t1 :: mids)).
  { constructor; [lia|].
    apply Forall_forall. intros x Hx.
    rewrite Forall_forall in Hlow, Hhigh. split; [by apply Hlow | by apply Hhigh]. }
  destruct arrivals as [|[req now] arrivals]; [discriminate Htimes|].
  rewrite (answers_window rt maxRequests windowMs k _ requests (held requests k) now).
  2: { cbn [map snd RateLimit.nondecreasing] in *.
       rewrite Hmono. by rewrite Z.leb_refl. }
  2: { reflexivity. }
  rewrite Htimes.
  set (stale := held requests k) in *.
  change (t1 :: mids ++ [T; t']) with ((t1 :: mids) ++ [T; t']).
  rewrite <- (app_nil_r stale) at 1.
  rewrite (window_fill rt maxRequests windowMs t1 T stale Hfresh ltac:(lia)
             (t1 :: mids) [] [T; t'] ltac:(constructor) Hbetween)
    by (cbn [length]; lia).
  cbn [app length].
  replace (Z.to_nat maxRequests) with (S (length mids)) by lia.
  f_equal.
  assert (Hlive : Forall (fun x => T - windowMs < x) (t1 :: mids)).
  { eapply Forall_impl; [exact Hbetween|]. simpl. intros; lia. }
  cbn [window].
  rewrite !newer_app.
  rewrite (newer_none (T - windowMs) stale)
    by (eapply Forall_impl; [exact Hfresh|]; simpl; intros; lia).
  rewrite (newer_all (T - windowMs) (t1 :: mids)) by exact Hlive.
  cbn [app length].
  replace (maxRequests <=? Z.of_nat (S (length mids))) with true
    by (symmetry; apply Z.leb_le; lia).
  fold body. f_equal.
  rewrite (newer_none (t' - windowMs) stale)
    by (eapply Forall_impl; [exact Hfresh|]; simpl; intros; lia).
  cbn [app]. unfold RateLimit.newer at 1.
  rewrite filter_cons_False by lia.
  pose proof (length_filter (fun t => t' - windowMs < t) mids) as Hlen.
  replace (maxRequests <=? _) with false
    by (symmetry; apply Z.leb_gt; lia).
  reflexivity.
Qed.

End RateLimitTheorem.

(** C1 as stated fails for [maxRequests = 0]: the one request of the
    sequence is answered 429, but no instant is kept for the key, and
    [retryAfter] is [NaN] rather than a positive number of seconds. *)
Lemma rate_limit_window_counterexample :
  exists body,
    RateLimit.answers sample_runtime 0 900000 (Some "10.0.0.7")
      [([("ip", VStr "10.0.0.7")], 1700000000000)] ∅
    = [Sent 429 body] /\
    opt_member (opt_member body "error") "retryAfter" = VNaN /\
    ~ (exists seconds,
         opt_member (opt_member body "error") "retryAfter" = VNum seconds /\
         0 < seconds).
Proof.
  eexists. split; [vm_compute; reflexivity|].
  split; [reflexivity|].
  intros (seconds & Hs & _). discriminate Hs.
Qed.

Lemma rate_limit_window_witness :
  RateLimit.answers sample_runtime 2 60000 (Some "u1")
    [ ([("user", VObj [("uid", VStr "u1")]); ("ip", VStr "10.0.0.7")], 1000);
      ([("ip", VStr "10.0.0.9")], 1500);
      ([("user", VObj [("uid", VStr "u1")]); ("ip", VStr "10.0.0.7")], 2000);
      ([("user", VObj [("uid", VStr "u1")]); ("ip", VStr "10.0.0.7")], 31500);
      ([("ip", VStr "10.0.0.9")], 40000);
      ([("user", VObj [("uid", VStr "u1")]); ("ip", VStr "10.0.0.7")], 61000) ]
    ∅
  = [Next; Next;
     Sent 429 (RateLimit.rate_limited sample_runtime 2 60000 31500 [1000; 2000]);
     Next].
Proof.
  refine (proj1 (rate_limit_window sample_runtime 2 60000 (Some "u1") _ ∅
                   1000 31500 61000 [2000] _ _ _ _ _ _ _)).
  - lia.
  - reflexivity.
  - vm_compute; reflexivity.
  - reflexivity.
  - lia.
  - lia.
  - constructor.
Defined.

(** * Further properties of the pipeline *)

(** ** The gates behind the token *)

Section GateFacts.
Context (rt : runtime) (sdk : AuthSdk).

Lemma some_call_total (f : string -> completion bool) (g : string -> bool)
    (xs : list string) :
  (forall x, f x = Normal (g x)) ->
  some_call f xs = Normal (existsb g xs).
Proof.
  intros Hf. induction xs as [|x xs IH]; [done|].
  cbn [some_call existsb]. rewrite Hf. destruct (g x); [done | exact IH].
Qed.

Lemma includes_call_list (claims : value) (key role : string) :
  match opt_member claims key with
  | VArr _ => true
  | v => negb (truthy v)
  end = true ->
  includes_call rt (or_else (opt_member claims key) (VArr [])) role
  = Normal match opt_member claims key with
           | VArr items => existsb (fun r => strict_eq_str r role) items
           | _ => false
           end.
Proof.
  intros Hlist. unfold or_else.
  destruct (opt_member claims key) as [| |b|n| |s| |items|o];
    try reflexivity; try discriminate Hlist;
    apply negb_true_iff in Hlist; rewrite Hlist; reflexivity.
Qed.

(** X1: Without an identity on the request every gate answers 401 with code
    UNAUTHORIZED, whatever the provider would say. *)
Theorem gates_need_identity (req : fields) (svcTiming : Z)
    (role permission ownershipField paramName : string)
    (allowedRoles : list string) :
  truthy (get "user" req) = false ->
  let refused message :=
    (req, Sent 401 (FirebaseResponse.unauthorized rt message "UNAUTHORIZED")) in
  AuthMiddleware.requireRole rt sdk role svcTiming req
  = refused "Authentication required for role check" /\
  AuthGates.requireAnyRole rt sdk allowedRoles svcTiming req
  = refused "Authentication required for role check" /\
  AuthGates.requirePermission rt sdk permission svcTiming req
  = refused "Authentication required for permission check" /\
  AuthGates.requireOwnership rt ownershipField paramName req
  = refused "Authentication required for ownership check".
Proof.
  intros Huser refused.
  unfold AuthMiddleware.requireRole, AuthGates.requireAnyRole,
    AuthGates.requirePermission, AuthGates.requireOwnership.
  rewrite Huser. repeat split.
Qed.

(** X2: [requireAnyRole([role])] decides as [requireRole(role)] does: the
    same request leaves both, and both answer with the same status or
    both hand over. *)
Theorem single_allowed_role (role : string) (svcTiming : Z) (req : fields) :
  let one := AuthMiddleware.requireRole rt sdk role svcTiming req in
  let any := AuthGates.requireAnyRole rt sdk [role] svcTiming req in
  fst any = fst one /\ status_of (snd any) = status_of (snd one).
Proof.
  cbn zeta.
  unfold AuthMiddleware.requireRole, AuthGates.requireAnyRole.
  destruct (negb (truthy (get "user" req))); [done|].
  destruct (negb (truthy (opt_member _ "success"))).
  - destruct (member rt _ "message"); done.
  - destruct (member rt _ "customClaims") as [customClaims|e];
      cbn [mbind completion_bind try_catch]; [|done].
    cbn [some_call].
    destruct (includes_call rt _ role) as [inRoles|e];
      cbn [mbind completion_bind try_catch]; [|done].
    destruct (inRoles || strict_eq_str (opt_member customClaims "role") role);
      cbn [negb mbind completion_bind try_catch]; done.
Qed.

End GateFacts.

Section FetchedGateFacts.
Context (rt : runtime) (sdk : AuthSdk).

(** X3: With a list of roles in the claims (or none), [requireAnyRole] hands
    over exactly when the claims carry one of the allowed roles, and
    answers 403 with code INSUFFICIENT_ROLE otherwise; an empty list of
    allowed roles refuses everyone. *)
Theorem any_role_gate
    (allowedRoles : list string) (svcTiming : Z) (req : fields)
    (userRecord metadata : fields) :
  truthy (get "user" req) = true ->
  getAuth sdk = Normal tt ->
  sdk_getUser sdk (opt_member (get "user" req) "uid") = Normal userRecord ->
  get "metadata" userRecord = VObj metadata ->
  let claims := or_else (get "customClaims" userRecord) (VObj []) in
  roles_is_list claims = true ->
  let result := AuthGates.requireAnyRole rt sdk allowedRoles svcTiming req in
  (existsb (carries_role claims) allowedRoles = false ->
     result = (req, Sent 403
                 (FirebaseResponse.forbidden rt
                    ("One of these roles required: "
                     +:+ String.concat ", " allowedRoles)
                    "INSUFFICIENT_ROLE"))) /\
  (existsb (carries_role claims) allowedRoles = true ->
     snd result = Next /\
     forall k, k <> "userRoles" -> k <> "userRole" ->
               get k (fst result) = get k req) /\
  (allowedRoles = [] -> status_of (snd result) = Some 403).
Proof.
  intros Huser Hinit Hfetch Hmeta claims Hlist result.
  destruct (getUserByUid_found rt sdk _ svcTiming _ _ Hinit Hfetch Hmeta)
    as (Hok & Hclaims & data & Hdata).
  fold claims in Hclaims.
  assert (Hrun : result =
    if negb (existsb (carries_role claims) allowedRoles)
    then (req, Sent 403
            (FirebaseResponse.forbidden rt
               ("One of these roles required: "
                +:+ String.concat ", " allowedRoles)
               "INSUFFICIENT_ROLE"))
    else (set "userRole" (opt_member claims "role")
            (set "userRoles" (or_else (opt_member claims "roles") (VArr [])) req),
          Next)).
  { unfold result, AuthGates.requireAnyRole.
    rewrite Huser. cbn [negb]. rewrite Hok. cbn [truthy negb].
    unfold member at 1. rewrite Hdata.
    fold (opt_member (VObj data) "customClaims").
    rewrite <- Hdata, Hclaims. cbn [mbind completion_bind].
    rewrite (some_call_total _ (carries_role claims)).
    - cbn [mbind completion_bind try_catch]. destruct (negb _); reflexivity.
    - intros role. rewrite (includes_call_list rt claims "roles" role Hlist).
      cbn [mbind completion_bind]. unfold carries_role.
      by rewrite orb_comm. }
  split; [|split].
  - intros Hc. by rewrite Hc in Hrun.
  - intros Hc. rewrite Hc in Hrun. cbn [negb] in Hrun. rewrite Hrun.
    split; [done|]. intros k Hk1 Hk2. cbn [fst]. by rewrite !get_set_ne.
  - intros ->. by rewrite Hrun.
Qed.

End FetchedGateFacts.

Section PermissionFacts.
Context (rt : runtime) (sdk : AuthSdk).

(** X4: With a list of permissions in the claims (or none), the permission
    gate hands over exactly when the list holds the permission, keeping
    the list on the request, and answers 403 with code
    INSUFFICIENT_PERMISSION otherwise. *)
Theorem permission_gate
    (permission : string) (svcTiming : Z) (req : fields)
    (userRecord metadata : fields) :
  truthy (get "user" req) = true ->
  getAuth sdk = Normal tt ->
  sdk_getUser sdk (opt_member (get "user" req) "uid") = Normal userRecord ->
  get "metadata" userRecord = VObj metadata ->
  let claims := or_else (get "customClaims" userRecord) (VObj []) in
  permissions_is_list claims = true ->
  let result := AuthGates.requirePermission rt sdk permission svcTiming req in
  (carries_permission claims permission = false ->
     result = (req, Sent 403
                 (FirebaseResponse.forbidden rt
                    ("Permission '" +:+ permission +:+ "' required")
                    "INSUFFICIENT_PERMISSION")) /\
     error_code (FirebaseResponse.forbidden rt
                   ("Permission '" +:+ permission +:+ "' required")
                   "INSUFFICIENT_PERMISSION")
     = VStr "INSUFFICIENT_PERMISSION") /\
  (carries_permission claims permission = true ->
     result = (set "userPermissions"
                 (or_else (opt_member claims "permissions") (VArr [])) req,
               Next) /\
     forall k, k <> "userPermissions" -> get k (fst result) = get k req).
Proof.
  intros Huser Hinit Hfetch Hmeta claims Hlist result.
  destruct (getUserByUid_found rt sdk _ svcTiming _ _ Hinit Hfetch Hmeta)
    as (Hok & Hclaims & data & Hdata).
  fold claims in Hclaims.
  assert (Hrun : result =
    if negb (carries_permission claims permission)
    then (req, Sent 403
            (FirebaseResponse.forbidden rt
               ("Permission '" +:+ permission +:+ "' required")
               "INSUFFICIENT_PERMISSION"))
    else (set "userPermissions"
            (or_else (opt_member claims "permissions") (VArr [])) req, Next)).
  { unfold result, AuthGates.requirePermission.
    rewrite Huser. cbn [negb]. rewrite Hok. cbn [truthy negb].
    unfold member at 1. rewrite Hdata.
    fold (opt_member (VObj data) "customClaims").
    rewrite <- Hdata, Hclaims. cbn [mbind completion_bind].
    rewrite (includes_call_list rt claims "permissions" permission Hlist).
    cbn [mbind completion_bind try_catch]. unfold carries_permission.
    destruct (negb _); reflexivity. }
  split; intros Hc; rewrite Hc in Hrun; cbn [negb] in Hrun.
  - split; [exact Hrun | reflexivity].
  - split; [exact Hrun|]. intros k Hk. rewrite Hrun. cbn [fst].
    by rewrite get_set_ne.
Qed.

(** X5: When the user record cannot be fetched the role gate answers 500,
    not 403 or 404: for a user the provider does not know the envelope
    carries code NOT_FOUND and the stock message, for any other
    provider error it carries that error's code. The request is left as
    it was. *)
Theorem role_gate_fetch_failure
    (requiredRole : string) (svcTiming : Z) (req e : fields) :
  truthy (get "user" req) = true ->
  getAuth sdk = Normal tt ->
  sdk_getUser sdk (opt_member (get "user" req) "uid") = Throw e ->
  let result := AuthMiddleware.requireRole rt sdk requiredRole svcTiming req in
  exists body,
    result = (req, Sent 500 body) /\
    opt_member body "success" = VBool false /\
    (get "code" e = VStr "auth/user-not-found" ->
       error_code body = VStr "NOT_FOUND" /\
       opt_member (opt_member body "error") "message"
       = VStr "Unknown error occurred") /\
    (strict_eq_str (get "code" e) "auth/user-not-found" = false ->
     truthy (get "code" e) = true ->
       error_code body = get "code" e).
Proof.
  intros Huser Hinit Hfetch result.
  assert (Hsvc : AuthService.getUserByUid rt sdk
                   (opt_member (get "user" req) "uid") svcTiming
                 = if strict_eq_str (get "code" e) "auth/user-not-found"
                   then FirebaseResponse.notFound rt "User"
                          (opt_member (get "user" req) "uid")
                   else FirebaseResponse.error rt e "getUserByUid"
                          [("uid", opt_member (get "user" req) "uid")]
                          (VNum svcTiming)).
  { unfold AuthService.getUserByUid, AuthService.initialize.
    rewrite Hinit. cbn [mbind completion_bind]. rewrite Hfetch. reflexivity. }
  unfold result, AuthMiddleware.requireRole.
  rewrite Huser. cbn [negb]. rewrite Hsvc.
  destruct (strict_eq_str (get "code" e) "auth/user-not-found") eqn:Hcode.
  - cbn. eexists. split; [reflexivity|]. split; [reflexivity|].
    split; [|discriminate].
    intros _. unfold error_code, FirebaseResponse.error.
    destruct (development rt); split; reflexivity.
  - assert (Hbody : exists info,
      opt_member (FirebaseResponse.error rt e "getUserByUid"
                    [("uid", opt_member (get "user" req) "uid")] (VNum svcTiming))
        "error" = VObj info /\
      get "code" info = or_else (get "code" e) (VStr "UNKNOWN_ERROR")).
    { unfold FirebaseResponse.error, FirebaseResponse.timing_field.
      eexists. split; [reflexivity|].
      destruct (truthy (VNum svcTiming)), (development rt); reflexivity. }
    destruct Hbody as (info & Hinfo & Hinfo_code).
    assert (Hfail : opt_member (FirebaseResponse.error rt e "getUserByUid"
                    [("uid", opt_member (get "user" req) "uid")] (VNum svcTiming))
                      "success" = VBool false) by reflexivity.
    rewrite Hfail, Hinfo. cbn [truthy negb member opt_member fields_of
      mbind completion_bind try_catch].
    eexists. split; [reflexivity|]. split; [reflexivity|].
    split.
    + intros Hc. rewrite Hc in Hcode. discriminate Hcode.
    + intros _ Htruthy. rewrite error_envelope_code, Hinfo_code.
      unfold or_else. rewrite Htruthy. rewrite Htruthy. reflexivity.
Qed.

End PermissionFacts.

Section OwnershipFacts.
Context (rt : runtime).

(** X6: The ownership gate compares the owner named by the request with the
    verified uid by strict equality. The path parameter shadows the body
    field: when it is there the body is not read at all. A request that
    names no owner is answered 400, a mismatch 403 with code
    OWNERSHIP_REQUIRED, and the request is never modified. *)
Theorem ownership_gate
    (ownershipField paramName : string) (req params : fields) :
  truthy (get "user" req) = true ->
  get "params" req = VObj params ->
  let uid := opt_member (get "user" req) "uid" in
  let result := AuthGates.requireOwnership rt ownershipField paramName req in
  let denied :=
    (req, Sent 403 (FirebaseResponse.forbidden rt
                      "You can only access your own resources"
                      "OWNERSHIP_REQUIRED")) in
  fst result = req /\
  (truthy (get paramName params) = true ->
     result = if strict_eq (get paramName params) uid
              then (req, Next) else denied) /\
  (truthy (get paramName params) = false ->
   forall body, get "body" req = VObj body ->
     result =
       if negb (truthy (get ownershipField body))
       then (req, Sent 400
               (FirebaseResponse.error rt
                  (new_Error rt
                     (ownershipField +:+ " is required for ownership verification"))
                  "ownership verification" [] VNull))
       else if strict_eq (get ownershipField body) uid
       then (req, Next) else denied).
Proof.
  intros Huser Hparams uid result denied.
  unfold result, AuthGates.requireOwnership.
  rewrite Huser, Hparams. cbn [negb].
  change (member rt (VObj params) paramName)
    with (Normal (get paramName params) : completion value).
  cbn [mbind completion_bind].
  destruct (truthy (get paramName params)) eqn:Hp.
  - cbn [mbind completion_bind]. rewrite Hp. cbn [negb].
    split; [|split; [|discriminate]].
    + destruct (strict_eq _ _); reflexivity.
    + intros _. unfold uid. destruct (strict_eq _ _); reflexivity.
  - split; [|split; [discriminate|]].
    + unfold member.
      destruct (get "body" req) as [| |b|n| |s|d|xs|o]; try reflexivity;
        cbn [mbind completion_bind opt_member fields_of get truthy negb try_catch];
        try reflexivity.
      destruct (truthy (get ownershipField o)); cbn [negb try_catch]; [|reflexivity].
      destruct (strict_eq _ _); reflexivity.
    + intros _ body Hbody. rewrite Hbody.
      change (member rt (VObj body) ownershipField)
        with (Normal (get ownershipField body) : completion value).
      cbn [mbind completion_bind]. unfold uid.
      destruct (truthy (get ownershipField body)); cbn [negb try_catch];
        [|reflexivity].
      destruct (strict_eq _ _); reflexivity.
Qed.

End OwnershipFacts.

Section AcceptedTokenFacts.
Context (rt : runtime) (sdk : AuthSdk).

(** What the service answers when the provider accepts the token. *)
Lemma verifyIdToken_accepted idToken checkRevoked timing d :
  String.eqb idToken "" = false ->
  getAuth sdk = Normal tt ->
  sdk_verifyIdToken sdk idToken checkRevoked = Normal d ->
  let r := AuthService.verifyIdToken rt sdk idToken checkRevoked timing in
  opt_member r "success" = VBool true /\
  exists userData,
    opt_member r "data" = VObj userData /\
    get "uid" userData = uid d /\
    get "email" userData = email d /\
    get "customClaims" userData = or_else (customClaims d) (VObj []).
Proof.
  intros Htok Hinit Hok. cbn zeta.
  unfold AuthService.verifyIdToken, AuthService.initialize.
  rewrite Hinit. cbn [mbind completion_bind truthy]. rewrite Htok.
  cbn [negb]. rewrite Hok. cbn [mbind completion_bind try_catch].
  unfold FirebaseResponses.auth_tokenVerified, FirebaseResponse.success,
    FirebaseResponse.timing_field.
  destruct (truthy (VNum timing));
    (split; [reflexivity|]; eexists; repeat split; reflexivity).
Qed.

(** The middleware on a token the provider accepts. *)
Lemma verifyFirebaseToken_accepts
    (checkRevoked optional : bool) (svcTiming timing : Z)
    (req headers : fields) (h idToken : string) (d : DecodedIdToken) :
  get "headers" req = VObj headers ->
  get "authorization" headers = VStr h ->
  JsString.startsWith h "Bearer " = true ->
  JsString.split h "Bearer " !! 1%nat = Some idToken ->
  String.eqb idToken "" = false ->
  getAuth sdk = Normal tt ->
  sdk_verifyIdToken sdk idToken checkRevoked = Normal d ->
  exists userData,
    AuthMiddleware.verifyFirebaseToken rt sdk checkRevoked optional
      svcTiming timing req
    = (set "authTiming" (VNum timing) (set "user" (VObj userData) req), Next) /\
    get "uid" userData = uid d /\
    get "email" userData = email d /\
    get "customClaims" userData = or_else (customClaims d) (VObj []).
Proof.
  intros Hh Ha Hs Hsplit Htok Hinit Hok.
  destruct (verifyIdToken_accepted idToken checkRevoked svcTiming d Htok Hinit Hok)
    as (Hsuccess & userData & Hdata & Huid & Hemail & Hclaims).
  exists userData. split; [|done].
  rewrite (verifyFirebaseToken_bearer rt sdk _ _ _ _ _ _ _ _ Hh Ha Hs Hsplit Htok).
  cbn zeta. rewrite Hsuccess, Hdata. cbn [truthy negb].
  rewrite (get_set_ne "authTiming" "user") by done. rewrite get_set_eq.
  reflexivity.
Qed.

(** X7: On a token the provider accepts, the middleware attaches the
    identity the provider decoded (its uid, email and claims, an empty
    object when the token has none) and the elapsed time, hands over,
    and changes nothing else on the request: whatever [user] the
    request carried before is replaced. *)
Theorem accepted_token_attaches_identity
    (checkRevoked optional : bool) (svcTiming timing : Z)
    (req headers : fields) (h idToken : string) (d : DecodedIdToken) :
  get "headers" req = VObj headers ->
  get "authorization" headers = VStr h ->
  JsString.startsWith h "Bearer " = true ->
  JsString.split h "Bearer " !! 1%nat = Some idToken ->
  String.eqb idToken "" = false ->
  getAuth sdk = Normal tt ->
  sdk_verifyIdToken sdk idToken checkRevoked = Normal d ->
  let result :=
    AuthMiddleware.verifyFirebaseToken rt sdk checkRevoked optional
      svcTiming timing req in
  snd result = Next /\
  opt_member (get "user" (fst result)) "uid" = uid d /\
  opt_member (get "user" (fst result)) "email" = email d /\
  opt_member (get "user" (fst result)) "customClaims"
  = or_else (customClaims d) (VObj []) /\
  get "authTiming" (fst result) = VNum timing /\
  (forall k, k <> "user" -> k <> "authTiming" ->
             get k (fst result) = get k req).
Proof.
  intros Hh Ha Hs Hsplit Htok Hinit Hok result.
  destruct (verifyFirebaseToken_accepts checkRevoked optional svcTiming timing
              req headers h idToken d Hh Ha Hs Hsplit Htok Hinit Hok)
    as (userData & Hrun & Huid & Hemail & Hclaims).
  unfold result. rewrite Hrun. cbn [fst snd].
  rewrite (get_set_ne "authTiming" "user") by done.
  rewrite !get_set_eq.
  repeat split; try assumption.
  intros k Hk1 Hk2. by rewrite !get_set_ne.
Qed.

(** The middleware on a request without a bearer credential. *)
Lemma verifyFirebaseToken_without_bearer
    (checkRevoked optional : bool) (svcTiming timing : Z)
    (req headers : fields) :
  get "headers" req = VObj headers ->
  lacks_bearer (get "authorization" headers) = true ->
  AuthMiddleware.verifyFirebaseToken rt sdk checkRevoked optional
    svcTiming timing req
  = if optional then (set "user" VNull req, Next)
    else (req, Sent 401 (FirebaseResponse.unauthorized rt
                           "Authorization token required" "MISSING_TOKEN")).
Proof.
  intros Hh Hl.
  unfold AuthMiddleware.verifyFirebaseToken, member. rewrite Hh.
  cbn [mbind completion_bind].
  change (opt_member (VObj headers) "authorization")
    with (get "authorization" headers).
  destruct (get "authorization" headers) as [| |b|n| |h| | |];
    cbn [lacks_bearer] in Hl; try discriminate Hl; try reflexivity.
  - apply negb_true_iff in Hl. rewrite Hl. reflexivity.
  - apply negb_true_iff in Hl. rewrite Hl. reflexivity.
  - cbn [truthy]. destruct (negb (String.eqb h "")); [|reflexivity].
    cbn [negb]. rewrite Hl. reflexivity.
Qed.

(** The role gate once the user record is fetched. *)
Lemma requireRole_decides
    (requiredRole : string) (svcTiming : Z) (req : fields)
    (userRecord metadata : fields) :
  truthy (get "user" req) = true ->
  getAuth sdk = Normal tt ->
  sdk_getUser sdk (opt_member (get "user" req) "uid") = Normal userRecord ->
  get "metadata" userRecord = VObj metadata ->
  let claims := or_else (get "customClaims" userRecord) (VObj []) in
  roles_is_list claims = true ->
  AuthMiddleware.requireRole rt sdk requiredRole svcTiming req
  = if carries_role claims requiredRole
    then (set "userRole" (opt_member claims "role")
            (set "userRoles" (or_else (opt_member claims "roles") (VArr [])) req),
          Next)
    else (req, Sent 403
            (FirebaseResponse.forbidden rt
               ("Role '" +:+ requiredRole +:+ "' required") "INSUFFICIENT_ROLE")).
Proof.
  intros Huser Hinit Hfetch Hmeta claims Hlist.
  destruct (getUserByUid_found rt sdk _ svcTiming _ _ Hinit Hfetch Hmeta)
    as (Hok & Hclaims & data & Hdata).
  fold claims in Hclaims.
  unfold AuthMiddleware.requireRole.
  rewrite Huser. cbn [negb]. rewrite Hok. cbn [truthy negb].
  unfold member at 1. rewrite Hdata.
  fold (opt_member (VObj data) "customClaims").
  rewrite <- Hdata, Hclaims. cbn [mbind completion_bind].
  rewrite (includes_call_list rt claims "roles" requiredRole Hlist).
  cbn [mbind completion_bind try_catch]. unfold carries_role.
  rewrite orb_comm. destruct (_ || _); reflexivity.
Qed.

End AcceptedTokenFacts.

Section AdminGuardFacts.
Context (rt : runtime) (sdk : AuthSdk).

(** X8: The guard of the admin routes, [verifyFirebaseToken()] followed by
    [requireAdmin]: a request without a bearer credential is answered
    401 MISSING_TOKEN and one with a token the provider does not accept
    401 by the first handler, so the role gate never runs; with an
    accepted token the role gate looks up the uid the provider decoded,
    whatever [user] the request carried, and, when the provider
    resolves that user's record and its [roles] claim is a list or is
    not there, the handler is reached exactly when the claims carry the
    admin role (403 otherwise). *)
Theorem admin_guard_decides
    (svcTiming timing roleTiming : Z) (req headers : fields) :
  get "headers" req = VObj headers ->
  let result := run_chain (admin_guard rt sdk svcTiming timing roleTiming) req in
  (lacks_bearer (get "authorization" headers) = true ->
     result = (req, Sent 401 (FirebaseResponse.unauthorized rt
                                "Authorization token required" "MISSING_TOKEN"))) /\
  (forall h idToken,
     get "authorization" headers = VStr h ->
     JsString.startsWith h "Bearer " = true ->
     JsString.split h "Bearer " !! 1%nat = Some idToken ->
     String.eqb idToken "" = false ->
     (forall d, sdk_verifyIdToken sdk idToken false <> Normal d) ->
     result = (req, Sent 401
                 (AuthService.verifyIdToken rt sdk idToken false svcTiming))) /\
  (forall h idToken d userRecord metadata,
     get "authorization" headers = VStr h ->
     JsString.startsWith h "Bearer " = true ->
     JsString.split h "Bearer " !! 1%nat = Some idToken ->
     String.eqb idToken "" = false ->
     getAuth sdk = Normal tt ->
     sdk_verifyIdToken sdk idToken false = Normal d ->
     sdk_getUser sdk (uid d) = Normal userRecord ->
     get "metadata" userRecord = VObj metadata ->
     let claims := or_else (get "customClaims" userRecord) (VObj []) in
     roles_is_list claims = true ->
     status_of (snd result)
     = (if carries_role claims "admin" then None else Some 403) /\
     opt_member (get "user" (fst result)) "uid" = uid d).
Proof.
  intros Hh result. unfold result, admin_guard. cbn [run_chain].
  split; [|split].
  - intros Hl.
    by rewrite (verifyFirebaseToken_without_bearer rt sdk _ _ _ _ _ _ Hh Hl).
  - intros h idToken Ha Hs Hsplit Htok Hrej.
    rewrite (verifyFirebaseToken_bearer rt sdk _ _ _ _ _ _ _ _ Hh Ha Hs Hsplit Htok).
    cbn zeta.
    by rewrite (verifyIdToken_unverified rt sdk idToken false svcTiming Hrej).
  - intros h idToken d userRecord metadata Ha Hs Hsplit Htok Hinit Hok
      Hfetch Hmeta Hlist.
    destruct (verifyFirebaseToken_accepts rt sdk false false svcTiming timing
                req headers h idToken d Hh Ha Hs Hsplit Htok Hinit Hok)
      as (userData & Hrun & Huid & _ & _).
    rewrite Hrun.
    set (req2 := set "authTiming" (VNum timing) (set "user" (VObj userData) req)).
    assert (Huser2 : get "user" req2 = VObj userData).
    { unfold req2. rewrite (get_set_ne "authTiming" "user") by done.
      apply get_set_eq. }
    assert (Huid2 : opt_member (get "user" req2) "uid" = uid d).
    { rewrite Huser2. exact Huid. }
    unfold AuthMiddleware.requireAdmin.
    rewrite (requireRole_decides rt sdk "admin" roleTiming req2 userRecord metadata);
      try assumption.
    + cbn zeta. destruct (carries_role _ "admin"); cbn [fst snd status_of].
      * split; [reflexivity|].
        rewrite !get_set_ne by done. exact Huid2.
      * split; [reflexivity | exact Huid2].
    + by rewrite Huser2.
    + by rewrite Huid2.
Qed.

End AdminGuardFacts.

(** ** What the sanitizer guarantees *)

Section SanitizerGuarantees.

Lemma value_induction (P : value -> Prop) :
  P VUndefined -> P VNull -> (forall b, P (VBool b)) -> (forall n, P (VNum n)) ->
  P VNaN -> (forall s, P (VStr s)) -> (forall ms, P (VDate ms)) ->
  (forall xs, Forall P xs -> P (VArr xs)) ->
  (forall o, Forall (fun kv => P (snd kv)) o -> P (VObj o)) ->
  forall v, P v.
Proof.
  intros Hu Hn Hb Hz Hnan Hs Hd Harr Hobj.
  fix IH 1.
  intros [| |b|n| |s|ms|xs|o];
    [apply Hu|apply Hn|apply Hb|apply Hz|apply Hnan|apply Hs|apply Hd| |].
  - apply Harr. induction xs as [|x xs IHxs]; constructor; [apply IH | exact IHxs].
  - apply Hobj. induction o as [|[k v] o IHo]; constructor; [apply IH | exact IHo].
Qed.

Lemma sanitizeKey_pattern (k : string) :
  PathValidation.path_pattern (Validation.sanitizeKey k) = true.
Proof.
  unfold Validation.sanitizeKey.
  induction k as [|c k IH]; [done|].
  cbn [JsString.replace_chars PathValidation.path_pattern]. rewrite IH.
  unfold PathValidation.path_separator.
  destruct (Ascii.eqb c "." || Ascii.eqb c "#" || Ascii.eqb c "$"
            || Ascii.eqb c "[" || Ascii.eqb c "]") eqn:E; [reflexivity|].
  by rewrite E.
Qed.

Lemma sanitizeKey_plain (k : string) :
  PathValidation.path_pattern k = true -> Validation.sanitizeKey k = k.
Proof.
  unfold Validation.sanitizeKey.
  induction k as [|c k IH]; [done|].
  cbn [JsString.replace_chars PathValidation.path_pattern].
  intros [Hc Hk]%andb_true_iff. rewrite (IH Hk).
  apply negb_true_iff in Hc. unfold PathValidation.path_separator in Hc.
  by rewrite Hc.
Qed.

Lemma sanitizeKey_length (k : string) :
  String.length (Validation.sanitizeKey k) = String.length k.
Proof.
  unfold Validation.sanitizeKey.
  induction k as [|c k IH]; [done|]. cbn. by rewrite IH.
Qed.

(** X9: A sanitized key holds none of [. # $ [ ]]: it passes the pattern the
    path and update schemas put on keys. It is as long as the key it
    comes from, and sanitizing it again changes nothing. *)
Theorem sanitized_key_is_path_safe (k : string) :
  PathValidation.path_pattern (Validation.sanitizeKey k) = true /\
  (forall c, PathValidation.path_separator c = true ->
             occurs c (Validation.sanitizeKey k) = false) /\
  String.length (Validation.sanitizeKey k) = String.length k /\
  Validation.sanitizeKey (Validation.sanitizeKey k) = Validation.sanitizeKey k.
Proof.
  split; [apply sanitizeKey_pattern|]. split; [|split].
  - intros c Hc. pose proof (sanitizeKey_pattern k) as Hp.
    induction (Validation.sanitizeKey k) as [|c' s IH]; [done|].
    cbn [PathValidation.path_pattern] in Hp.
    apply andb_true_iff in Hp as [Hc' Hs]. cbn [occurs]. rewrite (IH Hs).
    destruct (Ascii.eqb_spec c' c) as [->|]; [|done].
    rewrite Hc in Hc'. discriminate Hc'.
  - apply sanitizeKey_length.
  - apply sanitizeKey_plain, sanitizeKey_pattern.
Qed.

End SanitizerGuarantees.

Section SanitizedStrings.

Lemma remove_chars_length cls s :
  (String.length (JsString.remove_chars cls s) <= String.length s)%nat.
Proof.
  induction s as [|c s IH]; [done|]. cbn.
  destruct (cls c); cbn; lia.
Qed.

Lemma remove_ci_length pat s :
  forall skip,
  (String.length (JsString.remove_ci_from pat skip s) <= String.length s)%nat.
Proof.
  induction s as [|c s IH]; intros skip; [done|]. cbn.
  destruct skip as [|k].
  - destruct (JsString.prefix_ci pat (String c s)); cbn.
    + specialize (IH (Nat.pred (String.length pat))). lia.
    + specialize (IH O). lia.
  - specialize (IH k). lia.
Qed.

Lemma trim_start_length s :
  (String.length (JsString.trim_start s) <= String.length s)%nat.
Proof.
  induction s as [|c s IH]; [done|]. cbn.
  destruct (JsString.is_space c); cbn; lia.
Qed.

Lemma trim_end_length s :
  (String.length (JsString.trim_end s) <= String.length s)%nat.
Proof.
  induction s as [|c s IH]; [done|]. cbn.
  destruct (JsString.trim_end s); [destruct (JsString.is_space c)|]; cbn in *; lia.
Qed.

Lemma trim_start_head s : head_space (JsString.trim_start s) = false.
Proof.
  induction s as [|c s IH]; [done|]. cbn.
  destruct (JsString.is_space c) eqn:E; [exact IH|]. cbn. exact E.
Qed.

Lemma trim_end_head s : head_space s = false -> head_space (JsString.trim_end s) = false.
Proof.
  destruct s as [|c s]; [done|]. cbn. intros Hc.
  destruct (JsString.trim_end s); [|exact Hc]. by rewrite Hc.
Qed.

Lemma trim_end_last s : last_space (JsString.trim_end s) = false.
Proof.
  induction s as [|c s IH]; [done|]. cbn [JsString.trim_end].
  destruct (JsString.trim_end s) as [|c' t] eqn:E.
  - destruct (JsString.is_space c) eqn:Ec; [done|]. cbn. exact Ec.
  - exact IH.
Qed.

(** X10: Whatever the input, a sanitized string holds no angle bracket, has
    no white space at either end, and is no longer than the input. *)
Theorem sanitized_string_is_trimmed (s : string) :
  occurs "<" (Validation.sanitizeString s) = false /\
  occurs ">" (Validation.sanitizeString s) = false /\
  head_space (Validation.sanitizeString s) = false /\
  last_space (Validation.sanitizeString s) = false /\
  (String.length (Validation.sanitizeString s) <= String.length s)%nat.
Proof.
  destruct (sanitizeString_no_script_tag s) as (Hlt & Hgt & _).
  split; [exact Hlt|]. split; [exact Hgt|].
  unfold Validation.sanitizeString, JsString.trim, JsString.remove_ci.
  split; [apply trim_end_head, trim_start_head|].
  split; [apply trim_end_last|].
  etrans; [apply trim_end_length|]. etrans; [apply trim_start_length|].
  etrans; [apply remove_ci_length|]. etrans; [apply remove_ci_length|].
  apply remove_chars_length.
Qed.

Lemma remove_chars_none cls s :
  (forall c, cls c = true -> occurs c s = false) ->
  JsString.remove_chars cls s = s.
Proof.
  induction s as [|c s IH]; [done|]. intros Hn. cbn.
  destruct (cls c) eqn:E.
  - specialize (Hn c E). cbn in Hn. by rewrite Ascii.eqb_refl in Hn.
  - f_equal. apply IH. intros c' Hc'. specialize (Hn c' Hc'). cbn in Hn.
    by apply orb_false_iff in Hn as [_ Hn].
Qed.

Lemma remove_ci_none pat s :
  mentions_ci s pat = false -> JsString.remove_ci_from pat O s = s.
Proof.
  induction s as [|c s IH]; [done|].
  cbn [mentions_ci JsString.remove_ci_from].
  intros [Hp Hm]%orb_false_iff. rewrite Hp. f_equal. by apply IH.
Qed.

Lemma trim_start_none s : head_space s = false -> JsString.trim_start s = s.
Proof. destruct s as [|c s]; [done|]. cbn. by intros ->. Qed.

Lemma trim_end_none s : last_space s = false -> JsString.trim_end s = s.
Proof.
  induction s as [|c s IH]; [done|].
  destruct s as [|c' s'].
  - cbn. by intros ->.
  - intros Hl. change (last_space (String c (String c' s')))
      with (last_space (String c' s')) in Hl.
    cbn [JsString.trim_end]. cbn [JsString.trim_end] in IH.
    rewrite (IH Hl). reflexivity.
Qed.

Lemma sanitizeString_plain s :
  plain_string s = true -> Validation.sanitizeString s = s.
Proof.
  unfold plain_string.
  intros [[[[[Hlt Hgt]%andb_true_iff Hjs]%andb_true_iff Hdata]%andb_true_iff
             Hhead]%andb_true_iff Hlast]%andb_true_iff.
  apply negb_true_iff in Hlt, Hgt, Hjs, Hdata, Hhead, Hlast.
  unfold Validation.sanitizeString, JsString.trim, JsString.remove_ci.
  rewrite remove_chars_none.
  - rewrite (remove_ci_none _ _ Hjs), (remove_ci_none _ _ Hdata).
    rewrite (trim_start_none _ Hhead). by apply trim_end_none.
  - intros c [Hc|Hc]%orb_true_iff; apply Ascii.eqb_eq in Hc; by subst c.
Qed.

Lemma set_fresh k v (o : fields) : has k o = false -> set k v o = o ++ [(k, v)].
Proof.
  induction o as [|[k' v'] o IH]; [done|]. cbn.
  intros [Hk Ho]%orb_false_iff. rewrite Hk. by rewrite IH.
Qed.

Lemma spread_distinct (src : fields) :
  forall dst,
  distinct_keys src = true ->
  forallb (fun kv => negb (has (fst kv) dst)) src = true ->
  spread dst src = dst ++ src.
Proof.
  unfold spread.
  induction src as [|[k v] src IH]; intros dst Hd Hn.
  - by rewrite app_nil_r.
  - cbn [distinct_keys forallb fst] in Hd, Hn.
    apply andb_true_iff in Hd as [Hk Hd]. apply andb_true_iff in Hn as [Hkd Hn].
    apply negb_true_iff in Hk, Hkd.
    cbn [fold_left fst snd]. rewrite IH.
    + rewrite set_fresh by done. by rewrite <- (assoc_L (++)).
    + done.
    + rewrite set_fresh by done.
      clear IH Hd. induction src as [|[k' v'] src IHs]; [done|].
      cbn [forallb fst has] in *.
      apply andb_true_iff in Hn as [Hk' Hn].
      apply orb_false_iff in Hk as [Hkk' Hk].
      rewrite has_app. cbn [has].
      apply negb_true_iff in Hk'. rewrite Hk', (String.eqb_sym k k'), Hkk'. cbn.
      by apply IHs.
Qed.

Lemma literal_distinct (o : fields) : distinct_keys o = true -> literal o = o.
Proof.
  intros Hd. unfold literal. rewrite spread_distinct; [done|done|].
  clear. by induction o as [|[k v] o IH].
Qed.

Lemma assign_own (props : fields) :
  forall sanitized,
  forallb (fun kv => negb (String.eqb (fst kv) "__proto__")) props = true ->
  fold_left (fun acc kv => Validation.assign acc (fst kv) (snd kv)) props sanitized
  = spread sanitized props.
Proof.
  unfold spread. induction props as [|[k v] props IH]; intros sanitized; [done|].
  cbn [forallb fold_left fst snd]. intros [Hk Hrest]%andb_true_iff.
  apply negb_true_iff in Hk. unfold Validation.assign at 2. rewrite Hk.
  by apply IH.
Qed.

(** X11: A plain payload goes through the sanitizer unchanged. *)
Theorem plain_value_is_unchanged (v : value) :
  plain v = true -> Validation.sanitizeValue v = v.
Proof.
  induction v as [| | | | | | |xs IH|o IH] using value_induction;
    try reflexivity; try discriminate.
  - cbn. intros Hs. by rewrite sanitizeString_plain.
  - cbn [plain Validation.sanitizeValue]. intros Hall. f_equal.
    induction IH as [|x xs Hx _ IHxs]; [done|].
    cbn [forallb] in Hall. apply andb_true_iff in Hall as [Hpx Hall].
    cbn [map]. by rewrite (Hx Hpx), (IHxs Hall).
  - cbn [plain Validation.sanitizeValue].
    intros [Hall Hd]%andb_true_iff. f_equal.
    assert (Hmap : map (fun kv => (Validation.sanitizeKey (fst kv),
                                   Validation.sanitizeValue (snd kv))) o = o /\
                   forallb (fun kv => negb (String.eqb (fst kv) "__proto__")) o
                   = true).
    { clear Hd. induction IH as [|[k x] o Hx _ IHo]; [done|].
      cbn [forallb fst snd] in Hall.
      apply andb_true_iff in Hall as [[[Hk Hown]%andb_true_iff Hpx]%andb_true_iff Hall].
      destruct (IHo Hall) as [IHmap IHown].
      cbn [map forallb fst snd] in *.
      by rewrite (sanitizeKey_plain k Hk), (Hx Hpx), IHmap, Hown, IHown. }
    destruct Hmap as [-> Hown]. rewrite (assign_own o [] Hown).
    by apply literal_distinct.
Qed.

End SanitizedStrings.

Section SanitizerFrame.

(** X12: The sanitizer never answers a request itself: it always hands over,
    it replaces a truthy [body] and a truthy [query] by their sanitized
    forms, and every other property of the request is as it was. *)
Theorem sanitizer_hands_over (req : fields) :
  snd (Validation.sanitizeFirebaseData req) = Next /\
  (forall k, k <> "body" -> k <> "query" ->
     get k (fst (Validation.sanitizeFirebaseData req)) = get k req /\
     has k (fst (Validation.sanitizeFirebaseData req)) = has k req) /\
  get "body" (fst (Validation.sanitizeFirebaseData req)) =
    (if truthy (get "body" req)
     then Validation.sanitizeValue (get "body" req) else get "body" req) /\
  get "query" (fst (Validation.sanitizeFirebaseData req)) =
    (if truthy (get "query" req)
     then Validation.sanitizeValue (get "query" req) else get "query" req).
Proof.
  unfold Validation.sanitizeFirebaseData. cbn [fst snd].
  split; [reflexivity|]. split; [|split].
  - intros k Hb Hq.
    destruct (truthy (get "body" req)) eqn:Eb.
    + rewrite (get_set_ne "body" "query") by done.
      destruct (truthy (get "query" req)) eqn:Eq.
      * rewrite !get_set_ne by done. rewrite !has_set.
        destruct (String.eqb_spec "query" k) as [E|_]; [by subst k|].
        destruct (String.eqb_spec "body" k) as [E|_]; [by subst k|].
        done.
      * rewrite !get_set_ne by done. rewrite !has_set.
        destruct (String.eqb_spec "body" k) as [E|_]; [by subst k|].
        done.
    + destruct (truthy (get "query" req)) eqn:Eq; [|done].
      rewrite !get_set_ne by done. rewrite !has_set.
      destruct (String.eqb_spec "query" k) as [E|_]; [by subst k|].
      done.
  - destruct (truthy (get "body" req)) eqn:Eb.
    + rewrite (get_set_ne "body" "query") by done.
      destruct (truthy (get "query" req)).
      * rewrite get_set_ne by done. by rewrite get_set_eq.
      * by rewrite get_set_eq.
    + destruct (truthy (get "query" req)); [|done].
      by rewrite get_set_ne.
  - destruct (truthy (get "body" req)) eqn:Eb.
    + rewrite (get_set_ne "body" "query") by done.
      destruct (truthy (get "query" req)); [|by rewrite get_set_ne].
      by rewrite get_set_eq.
    + destruct (truthy (get "query" req)); [|done].
      by rewrite get_set_eq.
Qed.

End SanitizerFrame.

Section PathFacts.
Context (rt : runtime) (joi : JoiMessages).

Lemma path_pattern_occurs (s : string) :
  PathValidation.path_pattern s = true <->
  (forall c, PathValidation.path_separator c = true -> occurs c s = false).
Proof.
  induction s as [|c' s IH]; cbn [PathValidation.path_pattern occurs].
  - done.
  - rewrite andb_true_iff, negb_true_iff, IH. split.
    + intros [Hc' Hs] c Hc. rewrite (Hs c Hc).
      destruct (Ascii.eqb_spec c' c) as [E|_]; [|done].
      subst c'. rewrite Hc in Hc'. discriminate Hc'.
    + intros Hall. split.
      * destruct (PathValidation.path_separator c') eqn:E; [|done].
        specialize (Hall c' E). by rewrite Ascii.eqb_refl in Hall.
      * intros c Hc. specialize (Hall c Hc).
        by apply orb_false_iff in Hall as [_ ?].
Qed.

(** X13: The path gate leaves the request as it is. It hands over exactly
    when the path parameter is absent or is a non-empty string of at
    most 768 characters without any of [. # $ [ ]]; every other path is
    answered with status 400 and a validation envelope naming the
    field [path]. *)
Theorem path_gate (req params : fields) :
  get "params" req = VObj params ->
  exists o,
    PathValidation.validateRealtimeDbPath rt joi req = Normal (req, o) /\
    (o = Next <->
       get "path" params = VUndefined \/
       exists s, get "path" params = VStr s /\ s <> "" /\
                 (String.length s <= 768)%nat /\
                 forall c, PathValidation.path_separator c = true ->
                           occurs c s = false) /\
    (o <> Next ->
       exists message,
         o = Sent 400
               (FirebaseResponse.validation rt
                  (VArr [VObj [("field", VStr "path");
                               ("message", VStr message);
                               ("value", get "path" params)]])
                  "Validation failed")).
Proof.
  intros Hparams. unfold PathValidation.validateRealtimeDbPath.
  rewrite Hparams.
  change (member rt (VObj params) "path")
    with (Normal (get "path" params) : completion value).
  cbn [mbind completion_bind].
  destruct (get "path" params) as [| |b|n| |s|ms|xs|o] eqn:Hpath;
    cbn [PathValidation.firebasePath];
    try (eexists; split; [reflexivity|]; split;
         [split; [discriminate|intros [?|(? & ? & _)]; discriminate]
         |intros _; eexists; reflexivity]).
  - eexists; split; [reflexivity|]. split; [|done]. split; [by left|done].
  - destruct (String.eqb_spec s "") as [Hs|Hs].
    { eexists; split; [reflexivity|]. split; [|intros _; eexists; reflexivity].
      split; [discriminate|].
      intros [?|(s' & [= <-] & Hne & _)]; [discriminate|contradiction]. }
    destruct (768 <? String.length s)%nat eqn:Hlen.
    { apply Nat.ltb_lt in Hlen.
      eexists; split; [reflexivity|]. split; [|intros _; eexists; reflexivity].
      split; [discriminate|].
      intros [?|(s' & [= <-] & _ & Hle & _)]; [discriminate|lia]. }
    apply Nat.ltb_ge in Hlen.
    destruct (PathValidation.path_pattern s) eqn:Hpat; cbn [negb].
    + eexists; split; [reflexivity|]. split; [|done].
      split; [|done]. intros _. right. exists s.
      split; [done|]. split; [done|]. split; [done|].
      by apply path_pattern_occurs.
    + eexists; split; [reflexivity|]. split; [|intros _; eexists; reflexivity].
      split; [discriminate|].
      intros [?|(s' & [= <-] & _ & _ & Hocc)]; [discriminate|].
      apply path_pattern_occurs in Hocc. rewrite Hocc in Hpat. discriminate Hpat.
Qed.

End PathFacts.

Section LimiterStore.
Context (rt : runtime) (maxRequests windowMs : Z).





End LimiterStore.

Section LimiterQuota.
Context (rt : runtime) (maxRequests windowMs : Z) (k : option string).

Lemma inside_app W T (l1 l2 : list Z) :
  inside W T (l1 ++ l2) = inside W T l1 ++ inside W T l2.
Proof. apply filter_app. Qed.

Lemma inside_newer W T t (l : list Z) :
  t <= T -> Forall (fun x => x <= T) l ->
  (length (inside W T l) <= length (RateLimit.newer (t - W) l))%nat.
Proof.
  intros HtT. unfold inside, RateLimit.newer.
  induction 1 as [|x l Hx Hl IH]; [done|].
  rewrite !filter_cons.
  destruct (decide (T - W < x /\ x <= T)) as [[H1 H2]|Hn].
  - rewrite decide_True by lia. cbn. lia.
  - destruct (decide (t - W < x)); cbn; lia.
Qed.

Lemma let_through_quota (arrivals : list (fields * Z)) :
  forall (requests : RateLimit.store) (passed : list Z) (t0 : Z),
  RateLimit.nondecreasing (t0 :: map snd arrivals) = true ->
  (forall t, t0 <= t ->
     RateLimit.newer (t - windowMs) (held requests k)
     = RateLimit.newer (t - windowMs) passed) ->
  Forall (fun x => x <= t0) passed ->
  (forall T, Z.of_nat (length (inside windowMs T passed)) <= Z.max 0 maxRequests) ->
  forall T,
    Z.of_nat (length (inside windowMs T
      (passed ++ let_through rt maxRequests windowMs k arrivals requests)))
    <= Z.max 0 maxRequests.
Proof.
  induction arrivals as [|[req now] arrivals IH];
    intros requests passed t0 Hmono Hheld Hpast Hquota T.
  { cbn [let_through]. rewrite app_nil_r. apply Hquota. }
  cbn [map snd] in Hmono.
  assert (Hnow : t0 <= now /\
                 RateLimit.nondecreasing (now :: map snd arrivals) = true).
  { cbn [RateLimit.nondecreasing] in Hmono.
    apply andb_true_iff in Hmono as [Hle Hrest]. apply Z.leb_le in Hle.
    split; [done|]. exact Hrest. }
  destruct Hnow as [Ht0 Hrest].
  cbn [let_through].
  pose proof (limiter_step rt maxRequests windowMs now req requests k) as Hstep.
  cbn zeta in Hstep.
  destruct (RateLimit.createFirebaseRateLimit rt maxRequests windowMs now req requests)
    as [[req' o] requests'].
  assert (Hkeep : held requests' k
                  = RateLimit.newer (now - windowMs) (held requests k) ->
          forall t, now <= t ->
            RateLimit.newer (t - windowMs) (held requests' k)
            = RateLimit.newer (t - windowMs) passed).
  { intros -> t Ht. rewrite newer_newer by lia. apply Hheld. lia. }
  assert (Hpast' : Forall (fun x => x <= now) passed).
  { eapply Forall_impl; [exact Hpast|]. intros x Hx. cbn in Hx. lia. }
  destruct (decide (RateLimit.request_key req = k)) as [Hk|Hk].
  - destruct (maxRequests <=? _) eqn:Hfull.
    + destruct Hstep as [-> Hh]. cbn [app].
      apply (IH requests' passed now Hrest (Hkeep Hh) Hpast' Hquota).
    + destruct Hstep as [-> Hh]. apply Z.leb_gt in Hfull.
      rewrite (Hheld now Ht0) in Hfull, Hh.
      change ([now] ++ ?l) with (now :: l).
      rewrite (cons_middle now passed), (assoc_L (++)).
      apply (IH requests' (passed ++ [now]) now Hrest).
      * intros t Ht. rewrite Hh, !newer_app.
        rewrite newer_newer by lia. reflexivity.
      * apply Forall_app. split; [exact Hpast'|]. constructor; [lia|constructor].
      * intros T'. rewrite inside_app, length_app.
        unfold inside at 2. rewrite filter_cons, filter_nil.
        destruct (decide (T' - windowMs < now /\ now <= T')) as [[H1 H2]|Hn].
        -- pose proof (inside_newer windowMs T' now passed H2) as Hle.
           assert (Hall : Forall (fun x => x <= T') passed).
           { eapply Forall_impl; [exact Hpast'|]. intros x Hx. cbn in Hx. lia. }
           specialize (Hle Hall). cbn [length]. lia.
        -- cbn [length]. specialize (Hquota T'). lia.
  - cbn [app]. apply (IH requests' passed now Hrest (Hkeep Hstep) Hpast' Hquota).
Qed.

(** X15: While the clock does not go back, the limiter that starts with an
    empty map never hands over more than [maxRequests] requests of one
    key inside any window of [windowMs], whatever the other keys do. *)
Theorem limiter_quota (arrivals : list (fields * Z)) (T : Z) :
  RateLimit.nondecreasing (map snd arrivals) = true ->
  Z.of_nat (length (inside windowMs T
     (let_through rt maxRequests windowMs k arrivals ∅)))
  <= Z.max 0 maxRequests.
Proof.
  intros Hmono.
  destruct arrivals as [|[req now] rest] eqn:E; [cbn; lia|].
  rewrite <- E.
  apply (let_through_quota arrivals ∅ [] now).
  - rewrite E. cbn [map snd] in *. cbn [RateLimit.nondecreasing].
    rewrite Z.leb_refl. exact Hmono.
  - intros t _. reflexivity.
  - constructor.
  - intros T'. cbn. lia.
Qed.

End LimiterQuota.

Section LimiterIsolation.
Context (rt : runtime) (maxRequests windowMs : Z) (k : option string).

Lemma sorted_nondecreasing (ts : list Z) :
  StronglySorted Z.le ts -> RateLimit.nondecreasing ts = true.
Proof.
  induction 1 as [|t ts Hs IH Hall]; [done|].
  destruct ts as [|t' ts]; [done|].
  cbn [RateLimit.nondecreasing] in *. rewrite IH.
  apply Forall_cons in Hall as [Hle _].
  apply Z.leb_le in Hle. by rewrite Hle.
Qed.

Lemma alone_sorted (arrivals : list (fields * Z)) :
  RateLimit.nondecreasing (map snd arrivals) = true ->
  RateLimit.nondecreasing (map snd (alone k arrivals)) = true.
Proof.
  intros Hmono. apply sorted_nondecreasing.
  apply (key_times_sorted k). by apply nondecreasing_sorted.
Qed.

Lemma alone_key_times (arrivals : list (fields * Z)) :
  key_times k (alone k arrivals) = key_times k arrivals.
Proof.
  unfold key_times, alone. f_equal.
  induction arrivals as [|a arrivals IH]; [done|].
  rewrite (filter_cons _ a arrivals).
  destruct (decide (RateLimit.request_key (fst a) = k)) as [Ha|Ha].
  - rewrite filter_cons_True by done. by rewrite IH.
  - exact IH.
Qed.

Lemma answers_from_empty (arrivals : list (fields * Z)) :
  RateLimit.nondecreasing (map snd arrivals) = true ->
  RateLimit.answers rt maxRequests windowMs k arrivals ∅
  = window rt maxRequests windowMs [] (key_times k arrivals).
Proof.
  intros Hmono.
  destruct arrivals as [|[req now] rest] eqn:E; [done|].
  rewrite <- E.
  apply (answers_window rt maxRequests windowMs k arrivals ∅ [] now).
  - rewrite E. cbn [map snd] in *. cbn [RateLimit.nondecreasing].
    rewrite Z.leb_refl. exact Hmono.
  - intros t _. reflexivity.
Qed.

(** X16: While the clock does not go back, what the limiter answers to one
    key does not depend on the other keys: from an empty map, the
    answers to the key's requests are those it would get if its
    requests were the only ones. *)
Theorem limiter_isolates_keys (arrivals : list (fields * Z)) :
  RateLimit.nondecreasing (map snd arrivals) = true ->
  RateLimit.answers rt maxRequests windowMs k arrivals ∅
  = RateLimit.answers rt maxRequests windowMs k (alone k arrivals) ∅.
Proof.
  intros Hmono.
  rewrite (answers_from_empty arrivals Hmono).
  rewrite (answers_from_empty (alone k arrivals) (alone_sorted arrivals Hmono)).
  by rewrite alone_key_times.
Qed.

End LimiterIsolation.

(** ** Envelopes *)

Section EnvelopePayloads.
Context (rt : runtime).

Lemma spread_app (dst a b : fields) : spread dst (a ++ b) = spread (spread dst a) b.
Proof. unfold spread. apply fold_left_app. Qed.

Lemma get_spread_absent k (src : fields) :
  forall dst, has k src = false -> get k (spread dst src) = get k dst.
Proof.
  unfold spread. induction src as [|[k' v'] src IH]; intros dst; [done|].
  cbn [has fold_left fst snd]. intros [Hk Hsrc]%orb_false_iff.
  rewrite (IH _ Hsrc). apply get_set_ne.
  intros ->. by rewrite String.eqb_refl in Hk.
Qed.

Lemma get_spread_present k (src : fields) :
  forall dst, distinct_keys src = true -> has k src = true ->
  get k (spread dst src) = get k src.
Proof.
  induction src as [|[k' v'] src IH]; intros dst; [done|].
  cbn [distinct_keys has get]. intros [Hfresh Hd]%andb_true_iff Hk.
  apply negb_true_iff in Hfresh.
  change (spread dst ((k', v') :: src)) with (spread (set k' v' dst) src).
  destruct (String.eqb_spec k' k) as [E|E].
  - subst k'. rewrite (get_spread_absent k src _ Hfresh). apply get_set_eq.
  - cbn in Hk. by apply IH.
Qed.

(** X17: A success envelope carries [data] exactly when the payload is
    truthy, and then it is the payload itself: a payload of [0], [''],
    [false], [null] or [NaN] is dropped. In the same way a timing of
    [0] and an empty [meta] leave no field. *)
Theorem success_payload (data : value) (message : string) (timing : value)
    (meta : fields) :
  let e := FirebaseResponse.success rt data message timing meta in
  opt_member e "data" = (if truthy data then data else VUndefined) /\
  has "data" (fields_of e) = truthy data /\
  has "timing" (fields_of e) = truthy timing /\
  has "meta" (fields_of e) = negb (length meta =? 0)%nat /\
  (has "meta" (fields_of e) = true -> opt_member e "meta" = VObj meta).
Proof.
  unfold FirebaseResponse.success, FirebaseResponse.timing_field.
  destruct meta as [|kv meta];
    destruct (truthy data), (truthy timing); cbn; done.
Qed.

(** X18: Inside the [error] object of an error envelope the properties of
    the caller's context come last: each of them is there with the
    caller's value, also under the names [code], [message], [operation]
    and [timestamp]; only when the context has no such property are
    [code] and [message] those of the error (or the defaults) and
    [operation] the operation's name. *)
Theorem error_context_wins (err : fields) (operation : string) (ctx : fields)
    (timing : value) :
  distinct_keys ctx = true ->
  let info :=
    fields_of (opt_member (FirebaseResponse.error rt err operation ctx timing)
                 "error") in
  (forall k, has k ctx = true -> get k info = get k ctx) /\
  (has "code" ctx = false ->
     get "code" info = or_else (get "code" err) (VStr "UNKNOWN_ERROR")) /\
  (has "message" ctx = false ->
     get "message" info
     = or_else (get "message" err) (VStr "Unknown error occurred")) /\
  (has "operation" ctx = false -> get "operation" info = VStr operation).
Proof.
  intros Hd. cbn zeta. unfold FirebaseResponse.error.
  cbn [opt_member get fields_of String.eqb Ascii.eqb Bool.eqb].
  unfold literal. rewrite !(assoc_L (++)), spread_app.
  split; [|split; [|split]].
  - intros k Hk. by apply get_spread_present.
  - intros Hk. rewrite (get_spread_absent _ _ _ Hk).
    unfold FirebaseResponse.timing_field.
    destruct (truthy timing), (development rt); reflexivity.
  - intros Hk. rewrite (get_spread_absent _ _ _ Hk).
    unfold FirebaseResponse.timing_field.
    destruct (truthy timing), (development rt); reflexivity.
  - intros Hk. rewrite (get_spread_absent _ _ _ Hk).
    unfold FirebaseResponse.timing_field.
    destruct (truthy timing), (development rt); reflexivity.
Qed.

(** X19: [wrap] turns both ways an operation can end into an envelope: a
    result into a success envelope whose [data] is the result when it
    is truthy, a throw into an error envelope under the operation's
    name. The duration is reported only when the two clock readings
    differ. *)
Theorem wrap_reports (operation : completion value) (operationName : string)
    (context : fields) (startTime endTime : Z) :
  let e :=
    FirebaseResponse.wrap rt operation operationName context startTime endTime in
  (forall result, operation = Normal result ->
     opt_member e "success" = VBool true /\
     opt_member e "message" = VStr (operationName +:+ " completed successfully") /\
     opt_member e "data" = (if truthy result then result else VUndefined) /\
     has "timing" (fields_of e) = negb (endTime =? startTime)) /\
  (forall err, operation = Throw err ->
     opt_member e "success" = VBool false /\
     has "data" (fields_of e) = false /\
     (has "operation" context = false ->
      opt_member (opt_member e "error") "operation" = VStr operationName) /\
     (has "timing" context = false ->
      has "timing" (fields_of (opt_member e "error"))
      = negb (endTime =? startTime))).
Proof.
  cbn zeta. unfold FirebaseResponse.wrap.
  assert (Htiming : truthy (VNum (endTime - startTime)) = negb (endTime =? startTime)).
  { cbn. destruct (Z.eqb_spec (endTime - startTime) 0),
           (Z.eqb_spec endTime startTime); try reflexivity; lia. }
  split.
  - intros result ->.
    unfold FirebaseResponse.success, FirebaseResponse.timing_field.
    rewrite Htiming.
    destruct context as [|kv context];
      destruct (truthy result), (endTime =? startTime); cbn; done.
  - intros err ->. unfold FirebaseResponse.error.
    cbn [opt_member get fields_of has String.eqb Ascii.eqb Bool.eqb orb].
    split; [reflexivity|]. split; [reflexivity|].
    unfold literal. rewrite !(assoc_L (++)), spread_app.
    split.
    + intros Hk. rewrite (get_spread_absent _ _ _ Hk).
      unfold FirebaseResponse.timing_field.
      destruct (truthy _), (development rt); reflexivity.
    + intros Hk. rewrite has_spread, Hk, orb_false_r.
      fold (literal ([("message",
                       or_else (get "message" err) (VStr "Unknown error occurred"));
                      ("code", or_else (get "code" err) (VStr "UNKNOWN_ERROR"));
                      ("operation", VStr operationName);
                      ("timestamp", VStr (iso rt))]
                     ++ FirebaseResponse.timing_field (VNum (endTime - startTime))
                     ++ when (development rt)
                          [("stack", get "stack" err);
                           ("details", or_else (get "details" err) VNull)])).
      rewrite has_literal, !has_app. unfold FirebaseResponse.timing_field.
      rewrite Htiming.
      destruct (endTime =? startTime), (development rt); reflexivity.
Qed.

(** X20: In every batch envelope the summary adds up: [total] is
    [successful] plus [failed], and [success] is true exactly when
    [failed] is 0, which includes the batch without results. *)
Theorem batch_summary_adds_up (results : list fields) (operation : string) :
  let e := FirebaseResponse.batch rt results operation in
  exists successful failed : nat,
    opt_member (opt_member e "summary") "successful" = VNum (Z.of_nat successful) /\
    opt_member (opt_member e "summary") "failed" = VNum (Z.of_nat failed) /\
    opt_member (opt_member e "summary") "total"
    = VNum (Z.of_nat (successful + failed)) /\
    opt_member e "success" = VBool (failed =? 0)%nat /\
    successful = length (filter (fun r => truthy (get "success" r) = true) results).
Proof.
  cbn zeta. eexists _, _.
  split; [reflexivity|]. split; [reflexivity|].
  split; [|split; reflexivity].
  unfold FirebaseResponse.batch. cbn [opt_member get String.eqb Ascii.eqb Bool.eqb].
  by rewrite batch_partition.
Qed.

End EnvelopePayloads.

(** ** Single documents *)

Section DocumentFacts.
Context (rt : runtime) (sdk : FirestoreSdk).

Lemma distinct_set k v (o : fields) :
  distinct_keys o = true -> distinct_keys (set k v o) = true.
Proof.
  induction o as [|[k' v'] o IH]; [done|].
  cbn [distinct_keys set]. intros [Hfresh Hd]%andb_true_iff.
  destruct (String.eqb_spec k' k) as [E|E]; cbn [distinct_keys].
  - by rewrite Hfresh, Hd.
  - rewrite (IH Hd), has_set.
    apply negb_true_iff in Hfresh. rewrite Hfresh.
    destruct (String.eqb_spec k k') as [E'|_]; [by subst|done].
Qed.

Lemma distinct_spread (src : fields) :
  forall dst, distinct_keys dst = true -> distinct_keys (spread dst src) = true.
Proof.
  unfold spread. induction src as [|[k v] src IH]; intros dst Hd; [done|].
  cbn [fold_left]. apply IH. by apply distinct_set.
Qed.

Lemma distinct_literal (props : fields) : distinct_keys (literal props) = true.
Proof. by apply distinct_spread. Qed.

Lemma get_with_id (id : string) (stored : fields) (k : string) :
  distinct_keys stored = true ->
  opt_member (FirestoreDocuments.with_id id stored) k
  = if has k stored then get k stored
    else if String.eqb "id" k then VStr id else VUndefined.
Proof.
  intros Hd. unfold FirestoreDocuments.with_id, opt_member, fields_of, literal.
  change (spread [] (("id", VStr id) :: stored))
    with (spread [("id", VStr id)] stored).
  destruct (has k stored) eqn:Hk.
  - by apply get_spread_present.
  - by rewrite get_spread_absent.
Qed.

Lemma success_data (data : value) message timing :
  truthy data = true ->
  opt_member (FirebaseResponse.success rt data message timing []) "data" = data /\
  opt_member (FirebaseResponse.success rt data message timing []) "success"
  = VBool true.
Proof.
  intros Hd. unfold FirebaseResponse.success, FirebaseResponse.timing_field.
  rewrite Hd. destruct (truthy timing); cbn; done.
Qed.

Lemma doc_valid (collection id : string) :
  valid_collection sdk collection = true -> valid_id sdk id = true ->
  FirestoreService.doc sdk collection (Some id) = Normal (collection, id).
Proof. intros Hc Hi. unfold FirestoreService.doc. by rewrite Hc, Hi. Qed.

Lemma literal_app_absent (data rest : fields) (k : string) :
  distinct_keys data = true -> has k rest = false ->
  get k (literal (data ++ rest)) = get k data /\
  has k (literal (data ++ rest)) = has k data.
Proof.
  intros Hd Hrest. unfold literal. rewrite spread_app. split.
  - rewrite (get_spread_absent _ _ _ Hrest).
    fold (literal data). by rewrite literal_distinct.
  - rewrite has_spread, Hrest, orb_false_r.
    fold (literal data). by rewrite literal_distinct.
Qed.

Lemma get_spread k (dst src : fields) :
  distinct_keys src = true ->
  get k (spread dst src) = if has k src then get k src else get k dst.
Proof.
  intros Hd. destruct (has k src) eqn:Hk.
  - by apply get_spread_present.
  - by apply get_spread_absent.
Qed.

Lemma error_code_own (err : fields) (operation : string) (ctx : fields)
    (timing : value) :
  has "code" ctx = false -> has "operation" ctx = false ->
  opt_member (FirebaseResponse.error rt err operation ctx timing) "success"
  = VBool false /\
  error_code (FirebaseResponse.error rt err operation ctx timing)
  = or_else (get "code" err) (VStr "UNKNOWN_ERROR") /\
  opt_member (opt_member (FirebaseResponse.error rt err operation ctx timing)
                "error") "operation"
  = VStr operation.
Proof.
  intros Hk Ho. split; [reflexivity|].
  unfold error_code, FirebaseResponse.error.
  cbn [opt_member get fields_of String.eqb Ascii.eqb Bool.eqb].
  unfold literal. rewrite !(assoc_L (++)), !spread_app.
  rewrite (get_spread_absent _ _ _ Hk), (get_spread_absent _ _ _ Ho).
  unfold FirebaseResponse.timing_field.
  destruct (truthy timing), (development rt); split; reflexivity.
Qed.

(** X21: A document created under an id of the caller's, with data
    the client takes, is read back as it was given: every field of the
    data other than the three stamps comes back with its value, the
    [id] is the last segment of the document's id unless the data has
    an [id] field of its own, and no other field is there, whatever the
    store held under that id before. *)
Theorem created_document_is_read_back (collection id : string) (data : fields)
    (userId : value) (draw : nat) (t1 t2 : Z) (db : documents) :
  getFirestore sdk = Normal tt ->
  valid_collection sdk collection = true ->
  valid_id sdk id = true ->
  id <> "" ->
  distinct_keys data = true ->
  storable (VObj data) = true ->
  accepts_set sdk
    (FirestoreDocuments.docData data (FirestoreDocuments.or_null userId)) = true ->
  let created :=
    FirestoreDocuments.createDocument rt sdk collection data (VStr id) userId
      draw t1 db in
  let answer := FirestoreDocuments.getDocument rt sdk collection id t2 (snd created) in
  opt_member (fst created) "success" = VBool true /\
  opt_member answer "success" = VBool true /\
  (forall k, creation_stamp k = false ->
     opt_member (opt_member answer "data") k
     = if has k data then get k data
       else if String.eqb "id" k
            then VStr (FirestoreService.ref_id (collection, id))
            else VUndefined) /\
  (forall k, creation_stamp k = false ->
     opt_member (opt_member (fst created) "data") k
     = opt_member (opt_member answer "data") k).
Proof.
  intros Hget Hc Hi Hid Hd _ Htaken. cbn zeta.
  unfold FirestoreDocuments.createDocument, FirestoreDocuments.getDocument,
    FirestoreService.initialize, FirestoreDocuments.named.
  rewrite Hget. cbn [mbind completion_bind FirestoreDocuments.or_null].
  assert (Htruthy : truthy (VStr id) = true).
  { cbn. destruct (String.eqb_spec id ""); [contradiction|done]. }
  rewrite Htruthy, (doc_valid collection id Hc Hi).
  cbn [mbind completion_bind]. rewrite Htaken.
  cbn [FirestoreService.checked mbind completion_bind try_catch fst snd].
  rewrite lookup_insert_eq.
  set (stored := FirestoreDocuments.docData data _).
  set (name := FirestoreService.ref_id (collection, id)).
  destruct (success_data (FirestoreDocuments.with_id name stored)
              "Document created successfully" (VNum t1) eq_refl) as [Hd1 Hs1].
  destruct (success_data (FirestoreDocuments.with_id name stored)
              "Document retrieved successfully" (VNum t2) eq_refl) as [Hd2 Hs2].
  cbn [try_catch].
  split; [exact Hs1|]. split; [exact Hs2|]. rewrite Hd1, Hd2.
  split; [|reflexivity].
  intros k Hk. rewrite get_with_id by apply distinct_literal.
  assert (Hrest : has k ([("createdAt", serverTimestamp);
                          ("updatedAt", serverTimestamp)]
                         ++ when (truthy (FirestoreDocuments.or_null userId))
                              [("createdBy", FirestoreDocuments.or_null userId)])
                  = false).
  { unfold creation_stamp in Hk.
    apply orb_false_iff in Hk as [[Hca Hua]%orb_false_iff Hb].
    rewrite has_app. cbn [has].
    rewrite (String.eqb_sym "createdAt"), (String.eqb_sym "updatedAt"), Hca, Hua.
    destruct (truthy (FirestoreDocuments.or_null userId)); cbn [when has]; [|done].
    by rewrite (String.eqb_sym "createdBy"), Hb. }
  destruct (literal_app_absent data _ k Hd Hrest) as [Hg Hh].
  unfold stored, FirestoreDocuments.docData. by rewrite Hg, Hh.
Qed.

(** X22: A document that is not there: reading, updating and deleting it
    (softly or not) are each answered with the not-found envelope for
    [collection/docId], and the store stays as it is. *)
Theorem missing_document_is_not_found (collection docId : string)
    (data : fields) (hardDelete userId : value) (timing : Z) (db : documents) :
  getFirestore sdk = Normal tt ->
  valid_collection sdk collection = true ->
  valid_id sdk docId = true ->
  db !! (collection, docId) = None ->
  let notFound := FirebaseResponses.document_notFound rt collection docId in
  FirestoreDocuments.getDocument rt sdk collection docId timing db = notFound /\
  FirestoreDocuments.updateDocument rt sdk collection docId data userId timing db
  = (notFound, db) /\
  FirestoreService.deleteDocument rt sdk collection docId hardDelete userId timing db
  = (notFound, db) /\
  error_code notFound = VStr "NOT_FOUND" /\
  opt_member (opt_member notFound "error") "identifier"
  = VStr (collection +:+ "/" +:+ docId).
Proof.
  intros Hget Hc Hi Hdb. cbn zeta.
  unfold FirestoreDocuments.getDocument, FirestoreDocuments.updateDocument,
    FirestoreService.deleteDocument, FirestoreService.initialize.
  rewrite Hget, (doc_valid collection docId Hc Hi).
  cbn [mbind completion_bind]. rewrite Hdb.
  rewrite bool_decide_eq_false_2 by (intros [? ?]; done).
  cbn [negb try_catch]. done.
Qed.

Lemma segments_plain (k : string) :
  occurs "." k = false -> FirestoreService.segments k = [k].
Proof.
  induction k as [|c k IH]; [done|].
  cbn [occurs FirestoreService.segments]. intros [Hc Hk]%orb_false_iff.
  rewrite Hc, (IH Hk). reflexivity.
Qed.

(** Under names without a [.] an update is the flat merge. *)
Lemma merge_flat (data : fields) :
  forall old,
  forallb (fun kv => negb (occurs "." (fst kv))) data = true ->
  FirestoreService.merge old data = spread old data.
Proof.
  unfold FirestoreService.merge, spread.
  induction data as [|[k v] data IH]; intros old; [done|].
  cbn [forallb fold_left fst snd]. intros [Hk Hrest]%andb_true_iff.
  apply negb_true_iff in Hk. rewrite (segments_plain k Hk).
  cbn [FirestoreService.set_path]. by apply IH.
Qed.

Lemma names_set (P : string -> bool) k v (o : fields) :
  P k = true -> forallb (fun kv => P (fst kv)) o = true ->
  forallb (fun kv => P (fst kv)) (set k v o) = true.
Proof.
  intros Hk. induction o as [|[k' v'] o IH]; cbn [set forallb fst].
  - by rewrite Hk.
  - intros [Hk' Ho]%andb_true_iff.
    destruct (String.eqb k' k); cbn [forallb fst]; rewrite Hk'; [done|].
    by rewrite IH.
Qed.

Lemma names_literal (P : string -> bool) (props : fields) :
  forallb (fun kv => P (fst kv)) props = true ->
  forallb (fun kv => P (fst kv)) (literal props) = true.
Proof.
  unfold literal, spread.
  assert (Hgen : forall acc,
            forallb (fun kv => P (fst kv)) acc = true ->
            forallb (fun kv => P (fst kv)) props = true ->
            forallb (fun kv => P (fst kv))
              (fold_left (fun acc kv => set (fst kv) (snd kv) acc) props acc) = true).
  { induction props as [|[k v] props IH]; intros acc Hacc; [done|].
    cbn [forallb fold_left fst snd]. intros [Hk Hrest]%andb_true_iff.
    apply IH; [by apply names_set|done]. }
  by apply Hgen.
Qed.

Lemma field_name_flat (k : string) : field_name k = true -> occurs "." k = false.
Proof.
  unfold field_name. intros H.
  repeat (apply andb_true_iff in H as [H ?]).
  by apply negb_true_iff.
Qed.

(** X23: An update of a document that is there, with data of plain
    field names that the client takes, merges: each field the data
    names (the update's own stamps apart) has the data's value
    afterwards, every other field keeps the value it had, and the
    answer carries the document as it is stored after the update. *)
Theorem update_keeps_other_fields (collection docId : string) (data : fields)
    (userId : value) (timing : Z) (db : documents) (old : fields) :
  getFirestore sdk = Normal tt ->
  valid_collection sdk collection = true ->
  valid_id sdk docId = true ->
  db !! (collection, docId) = Some old ->
  distinct_keys old = true ->
  distinct_keys data = true ->
  flat_names data = true ->
  storable (VObj data) = true ->
  accepts_update sdk (FirestoreDocuments.updateData data userId) = true ->
  let r := FirestoreDocuments.updateDocument rt sdk collection docId data userId
             timing db in
  opt_member (fst r) "success" = VBool true /\
  exists new,
    snd r !! (collection, docId) = Some new /\
    (forall k, update_stamp k = false ->
       get k new = (if has k data then get k data else get k old) /\
       has k new = has k data || has k old) /\
    (forall k, has k new = true ->
       opt_member (opt_member (fst r) "data") k = get k new).
Proof.
  intros Hget Hc Hi Hdb Hold Hd Hflat _ Htaken. cbn zeta.
  unfold FirestoreDocuments.updateDocument, FirestoreService.initialize,
    FirestoreService.update.
  rewrite Hget, (doc_valid collection docId Hc Hi).
  cbn [mbind completion_bind]. rewrite Hdb.
  rewrite bool_decide_eq_true_2 by eauto. rewrite Htaken.
  cbn [negb FirestoreService.checked mbind completion_bind try_catch fst snd].
  rewrite lookup_insert_eq. cbn [default from_option id].
  assert (Hnames : forallb (fun kv => negb (occurs "." (fst kv)))
                     (FirestoreDocuments.updateData data userId) = true).
  { unfold FirestoreDocuments.updateData.
    apply (names_literal (fun k => negb (occurs "." k))).
    rewrite !forallb_app. apply andb_true_iff. split.
    - unfold flat_names in Hflat. clear -Hflat.
      induction data as [|[k v] data IH]; [done|].
      cbn [forallb fst] in *. apply andb_true_iff in Hflat as [Hk Hrest].
      by rewrite (field_name_flat k Hk), IH.
    - by destruct (truthy userId). }
  rewrite (merge_flat _ old Hnames).
  unfold FirestoreDocuments.updateData.
  set (updateData := literal (data ++ _ ++ _)).
  set (new := spread old updateData).
  set (name := FirestoreService.ref_id (collection, docId)).
  destruct (success_data (FirestoreDocuments.with_id name new)
              "Document updated successfully" (VNum timing) eq_refl) as [Hd1 Hs1].
  split; [exact Hs1|]. exists new. split; [reflexivity|]. split.
  - intros k Hk.
    assert (Hrest : has k ([("updatedAt", serverTimestamp)]
                           ++ when (truthy userId) [("updatedBy", userId)]) = false).
    { unfold update_stamp in Hk. apply orb_false_iff in Hk as [Hua Hub].
      rewrite has_app. cbn [has]. rewrite (String.eqb_sym "updatedAt"), Hua.
      destruct (truthy userId); cbn [when has]; [|done].
      by rewrite (String.eqb_sym "updatedBy"), Hub. }
    destruct (literal_app_absent data _ k Hd Hrest) as [Hg Hh].
    fold updateData in Hg, Hh. unfold new.
    rewrite get_spread by apply distinct_literal.
    rewrite has_spread, Hh, Hg. by rewrite orb_comm.
  - intros k Hk. rewrite Hd1.
    rewrite get_with_id by (by apply distinct_spread).
    by rewrite Hk.
Qed.

Lemma soft_delete_step (collection docId : string) (hardDelete userId : value)
    (timing : Z) (db : documents) (old : fields) :
  getFirestore sdk = Normal tt ->
  valid_collection sdk collection = true ->
  valid_id sdk docId = true ->
  db !! (collection, docId) = Some old ->
  truthy hardDelete = false ->
  FirestoreService.deleteDocument rt sdk collection docId hardDelete userId timing db
  = (FirebaseResponses.document_deleted rt docId (VNum timing),
     <[(collection, docId) :=
         spread old (literal ([("deleted", VBool true);
                               ("deletedAt", serverTimestamp)]
                              ++ when (truthy userId) [("deletedBy", userId)]))]> db).
Proof.
  intros Hget Hc Hi Hdb Hsoft.
  unfold FirestoreService.deleteDocument, FirestoreService.initialize,
    FirestoreService.update.
  rewrite Hget, (doc_valid collection docId Hc Hi).
  cbn [mbind completion_bind]. rewrite Hdb.
  rewrite bool_decide_eq_true_2 by eauto. rewrite Hsoft.
  rewrite merge_flat by (by destruct (truthy userId)).
  reflexivity.
Qed.

(** X24: A soft delete keeps the document: it is marked [deleted], every
    field other than the three marks keeps its value, the document is
    still read with success afterwards, and a second soft delete is
    answered with success again. *)
Theorem soft_delete_keeps_document (collection docId : string)
    (hardDelete userId : value) (t1 t2 t3 : Z) (db : documents) (old : fields) :
  getFirestore sdk = Normal tt ->
  valid_collection sdk collection = true ->
  valid_id sdk docId = true ->
  db !! (collection, docId) = Some old ->
  truthy hardDelete = false ->
  let r := FirestoreService.deleteDocument rt sdk collection docId hardDelete
             userId t1 db in
  fst r = FirebaseResponses.document_deleted rt docId (VNum t1) /\
  (exists marked,
     snd r !! (collection, docId) = Some marked /\
     get "deleted" marked = VBool true /\
     (forall k, deletion_mark k = false ->
        get k marked = get k old /\ has k marked = has k old)) /\
  opt_member (FirestoreDocuments.getDocument rt sdk collection docId t2 (snd r))
    "success" = VBool true /\
  fst (FirestoreService.deleteDocument rt sdk collection docId hardDelete
         userId t3 (snd r))
  = FirebaseResponses.document_deleted rt docId (VNum t3).
Proof.
  intros Hget Hc Hi Hdb Hsoft. cbn zeta.
  rewrite (soft_delete_step collection docId hardDelete userId t1 db old)
    by assumption.
  cbn [fst snd].
  set (mark := literal (_ ++ _)).
  assert (Hmark : distinct_keys mark = true) by apply distinct_literal.
  assert (Hdeleted : has "deleted" mark = true /\ get "deleted" mark = VBool true).
  { unfold mark. destruct (truthy userId); split; reflexivity. }
  assert (Hother : forall k, deletion_mark k = false -> has k mark = false).
  { intros k Hk. unfold deletion_mark in Hk.
    apply orb_false_iff in Hk as [[H1 H2]%orb_false_iff H3].
    unfold mark. rewrite has_literal, has_app. cbn [has].
    rewrite (String.eqb_sym "deleted"), (String.eqb_sym "deletedAt"), H1, H2.
    destruct (truthy userId); cbn [when has]; [|done].
    by rewrite (String.eqb_sym "deletedBy"), H3. }
  split; [reflexivity|]. split; [|split].
  - exists (spread old mark). split; [by rewrite lookup_insert_eq|].
    destruct Hdeleted as [Hh Hg]. split.
    + by rewrite get_spread, Hh.
    + intros k Hk. rewrite get_spread by done.
      rewrite has_spread, (Hother k Hk). by rewrite orb_false_r.
  - unfold FirestoreDocuments.getDocument, FirestoreService.initialize.
    rewrite Hget, (doc_valid collection docId Hc Hi).
    cbn [mbind completion_bind]. rewrite lookup_insert_eq.
    cbn [try_catch].
    by destruct (success_data
                   (FirestoreDocuments.with_id
                      (FirestoreService.ref_id (collection, docId))
                      (spread old mark))
                   "Document retrieved successfully" (VNum t2) eq_refl).
  - rewrite (soft_delete_step collection docId hardDelete userId t3 _
               (spread old mark)); try assumption; [done|].
    by rewrite lookup_insert_eq.
Qed.

(** X25: Creating, updating and deleting a document never touch another
    document: whatever the outcome, every document under a reference
    other than the one the call names (or, for a creation without an
    id, the one generated) is afterwards as it was before. *)
Theorem other_documents_are_untouched (collection docId : string)
    (data : fields) (newId hardDelete userId : value) (draw : nat) (timing : Z)
    (db : documents) (other : string * string) :
  (other <> (collection, docId) ->
   (snd (FirestoreDocuments.updateDocument rt sdk collection docId data userId
           timing db)) !! other = db !! other /\
   (snd (FirestoreService.deleteDocument rt sdk collection docId hardDelete
           userId timing db)) !! other = db !! other) /\
  ((forall s, newId = VStr s -> other <> (collection, s)) ->
   (truthy newId = false -> other <> (collection, autoId sdk draw)) ->
   (snd (FirestoreDocuments.createDocument rt sdk collection data newId userId
           draw timing db)) !! other = db !! other).
Proof.
  split; [intros Hother; split|intros Hnamed Hdrawn].
  - unfold FirestoreDocuments.updateDocument, FirestoreService.initialize,
      FirestoreService.doc, FirestoreService.update.
    destruct (getFirestore sdk) as [[]|e]; cbn [mbind completion_bind try_catch snd];
      [|done].
    destruct (valid_collection sdk collection && valid_id sdk docId);
      cbn [mbind completion_bind try_catch snd]; [|done].
    destruct (db !! (collection, docId)) as [old|] eqn:Hdb.
    + rewrite bool_decide_eq_true_2 by eauto.
      destruct (accepts_update sdk _);
        cbn [negb FirestoreService.checked mbind completion_bind try_catch snd];
        [|done].
      by rewrite lookup_insert_ne.
    + rewrite bool_decide_eq_false_2 by (intros [? ?]; done). done.
  - unfold FirestoreService.deleteDocument, FirestoreService.initialize,
      FirestoreService.doc, FirestoreService.update.
    destruct (getFirestore sdk) as [[]|e]; cbn [mbind completion_bind try_catch snd];
      [|done].
    destruct (valid_collection sdk collection && valid_id sdk docId);
      cbn [mbind completion_bind try_catch snd]; [|done].
    destruct (db !! (collection, docId)) as [old|] eqn:Hdb.
    + rewrite bool_decide_eq_true_2 by eauto.
      cbn [negb]. destruct (truthy hardDelete);
        cbn [mbind completion_bind try_catch snd].
      * by rewrite lookup_delete_ne.
      * by rewrite lookup_insert_ne.
    + rewrite bool_decide_eq_false_2 by (intros [? ?]; done). done.
  - unfold FirestoreDocuments.createDocument, FirestoreService.initialize,
      FirestoreService.doc, FirestoreService.new_doc, FirestoreDocuments.named.
    destruct (getFirestore sdk) as [[]|e]; cbn [mbind completion_bind try_catch snd];
      [|done].
    assert (Hsame : truthy (FirestoreDocuments.or_null newId) = truthy newId)
      by (by destruct newId).
    rewrite Hsame.
    destruct (truthy newId) eqn:Htruthy.
    + destruct newId as [| |b|n| |s|ms|xs|o];
        cbn [FirestoreDocuments.or_null mbind completion_bind try_catch snd];
        try done.
      destruct (valid_collection sdk collection && valid_id sdk s);
        cbn [mbind completion_bind try_catch snd]; [|done].
      destruct (accepts_set sdk _);
        cbn [FirestoreService.checked mbind completion_bind try_catch snd];
        [|done].
      rewrite lookup_insert_ne; [done|]. intros E. by apply (Hnamed s).
    + destruct (valid_collection sdk collection);
        cbn [mbind completion_bind try_catch snd]; [|done].
      destruct (accepts_set sdk _);
        cbn [FirestoreService.checked mbind completion_bind try_catch snd];
        [|done].
      rewrite lookup_insert_ne; [done|]. intros E. by apply Hdrawn.
Qed.

(** X26: When the database is not available, each of the four operations
    answers with an error envelope under its own name that carries the
    code of the fault, the store is as it was, and the delete route
    sends the envelope with status 404. *)
Theorem unavailable_store_is_reported (collection docId : string)
    (data : fields) (newId hardDelete userId : value) (draw : nat) (timing : Z)
    (req : fields) (db : documents) (fault : fields) :
  getFirestore sdk = Throw fault ->
  let code := or_else (get "code" fault) (VStr "UNKNOWN_ERROR") in
  let created := FirestoreDocuments.createDocument rt sdk collection data newId
                   userId draw timing db in
  let read := FirestoreDocuments.getDocument rt sdk collection docId timing db in
  let updated := FirestoreDocuments.updateDocument rt sdk collection docId data
                   userId timing db in
  let deleted := FirestoreService.deleteDocument rt sdk collection docId
                   hardDelete userId timing db in
  (snd created = db /\ snd updated = db /\ snd deleted = db) /\
  (error_code (fst created) = code /\ error_code read = code /\
   error_code (fst updated) = code /\ error_code (fst deleted) = code) /\
  (opt_member (opt_member (fst created) "error") "operation" = VStr "createDocument" /\
   opt_member (opt_member read "error") "operation" = VStr "getDocument" /\
   opt_member (opt_member (fst updated) "error") "operation" = VStr "updateDocument" /\
   opt_member (opt_member (fst deleted) "error") "operation" = VStr "deleteDocument") /\
  (truthy (get "query" req) = true -> truthy (get "user" req) = true ->
   exists body,
     FirestoreRoutes.deleteDocument rt sdk collection docId timing req db
     = (Sent 404 body, db) /\ error_code body = code).
Proof.
  intros Hget. cbn zeta.
  unfold FirestoreDocuments.createDocument, FirestoreDocuments.getDocument,
    FirestoreDocuments.updateDocument, FirestoreRoutes.deleteDocument,
    FirestoreService.deleteDocument, FirestoreService.initialize.
  rewrite Hget. cbn [mbind completion_bind try_catch fst snd].
  split; [done|].
  pose proof (fun op ctx H1 H2 =>
    error_code_own fault op ctx (VNum timing) H1 H2) as Herr.
  destruct (Herr "createDocument"
              [("collection", VStr collection);
               ("docId", FirestoreDocuments.or_null newId)] eq_refl eq_refl)
    as (_ & Hc1 & Ho1).
  destruct (Herr "getDocument"
              [("collection", VStr collection); ("docId", VStr docId)] eq_refl eq_refl)
    as (_ & Hc2 & Ho2).
  destruct (Herr "updateDocument"
              [("collection", VStr collection); ("docId", VStr docId)] eq_refl eq_refl)
    as (_ & Hc3 & Ho3).
  destruct (Herr "deleteDocument"
              [("collection", VStr collection); ("docId", VStr docId)] eq_refl eq_refl)
    as (Hs4 & Hc4 & Ho4).
  split; [done|]. split; [done|].
  intros Hq Hu.
  assert (Hmq : exists v, member rt (get "query" req) "hardDelete" = Normal v).
  { destruct (get "query" req); try discriminate Hq; eexists; reflexivity. }
  assert (Hmu : exists v, member rt (get "user" req) "uid" = Normal v).
  { destruct (get "user" req); try discriminate Hu; eexists; reflexivity. }
  destruct Hmq as [hd ->], Hmu as [uid ->].
  cbn [mbind completion_bind try_catch fst snd].
  eexists. split; [|exact Hc4].
  by rewrite Hs4.
Qed.

End DocumentFacts.

(** ** Batches that fail *)

Section BatchFailures.
Context (rt : runtime) (sdk : FirestoreSdk).

Lemma update_of_missing_mono (db db1 : documents) (o : operation) :
  (forall ref, db !! ref = None -> db1 !! ref = None) ->
  update_of_missing sdk db o = true -> update_of_missing sdk db1 o = true.
Proof.
  intros Hmono. unfold update_of_missing.
  destruct (String.eqb (op_type o) "update"); [|done].
  destruct (accepts_update sdk _); [|done].
  destruct (op_id o) as [i|]; [|done]. cbn [andb].
  intros [Hv Hmiss]%andb_true_iff. rewrite Hv. cbn [andb].
  apply negb_true_iff, bool_decide_eq_false in Hmiss.
  apply negb_true_iff, bool_decide_eq_false.
  intros [x Hx]. apply Hmiss.
  destruct (db !! (op_collection o, i)) eqn:E; [eauto|].
  rewrite (Hmono _ E) in Hx. discriminate Hx.
Qed.

Lemma update_of_missing_exists (db db1 : documents) (operations : list operation) :
  (forall ref, db !! ref = None -> db1 !! ref = None) ->
  existsb (update_of_missing sdk db) operations = true ->
  existsb (update_of_missing sdk db1) operations = true.
Proof.
  intros Hmono. induction operations as [|o operations IH]; [done|].
  cbn [existsb]. intros [Ho|Hrest]%orb_true_iff.
  - by rewrite (update_of_missing_mono db db1 o Hmono Ho).
  - rewrite (IH Hrest). apply orb_true_r.
Qed.

(** What an operation that is no create queues. *)
Lemma queue_one_writes (index : nat) (o : operation) (db : documents) :
  String.eqb (op_type o) "create" = false ->
  let w := fst (FirestoreService.queue_one sdk index o) in
  (w = [] /\ update_of_missing sdk db o = false) \/
  (exists ref d, w = [WUpdate ref d] /\
     (update_of_missing sdk db o = true -> db !! ref = None)) \/
  (exists ref, w = [WDelete ref] /\ update_of_missing sdk db o = false).
Proof.
  intros Hcreate. cbn zeta.
  unfold FirestoreService.queue_one, update_of_missing, FirestoreService.doc,
    FirestoreService.checked.
  rewrite Hcreate.
  destruct (String.eqb (op_type o) "update") eqn:Hupdate.
  - destruct (op_id o) as [i|];
      [|left; split; [reflexivity|apply andb_false_r]].
    destruct (valid_collection sdk (op_collection o) && valid_id sdk i);
      [|left; split; [reflexivity|apply andb_false_r]].
    cbn [mbind completion_bind].
    destruct (accepts_update sdk _); [|by left].
    right. left. eexists _, _. split; [reflexivity|].
    cbn [andb]. intros Hmiss.
    apply negb_true_iff, bool_decide_eq_false in Hmiss.
    destruct (db !! (op_collection o, i)) eqn:E; [|done].
    exfalso. apply Hmiss. eauto.
  - destruct (String.eqb (op_type o) "delete").
    + destruct (op_id o) as [i|]; [|by left].
      destruct (valid_collection sdk (op_collection o) && valid_id sdk i);
        [|by left].
      right. right. eexists. split; reflexivity.
    + by left.
Qed.

Lemma commit_update_of_missing (operations : list operation) :
  forall (index : nat) (db : documents),
  no_creation operations = true ->
  existsb (update_of_missing sdk db) operations = true ->
  FirestoreService.commit sdk (fst (FirestoreService.queue sdk index operations)) db
  = Throw (missing_error sdk).
Proof.
  induction operations as [|o operations IH]; intros index db Hnc Hst;
    [discriminate|].
  cbn [no_creation forallb] in Hnc. apply andb_true_iff in Hnc as [Ho Hnc].
  apply negb_true_iff in Ho.
  cbn [existsb] in Hst.
  pose proof (queue_one_writes index o db Ho) as Hw. cbn zeta in Hw.
  cbn [FirestoreService.queue].
  destruct (FirestoreService.queue_one sdk index o) as [w r].
  specialize (IH (S index)).
  destruct (FirestoreService.queue sdk (S index) operations) as [ws rs].
  cbn [fst] in *.
  destruct Hw as [[-> Hno]|[(ref & d & -> & Hmiss)|(ref & -> & Hno)]].
  - rewrite Hno in Hst. cbn [orb app] in *. by apply IH.
  - cbn [app FirestoreService.commit FirestoreService.apply_write].
    unfold FirestoreService.update.
    destruct (db !! ref) as [old|] eqn:Hdb; [|reflexivity].
    cbn [mbind completion_bind].
    destruct (update_of_missing sdk db o) eqn:Hstale.
    { specialize (Hmiss eq_refl). discriminate Hmiss. }
    cbn [orb] in Hst. apply IH; [done|].
    apply (update_of_missing_exists db); [|done].
    intros ref' Hnone. rewrite lookup_insert_ne; [done|].
    intros <-. rewrite Hdb in Hnone. discriminate Hnone.
  - rewrite Hno in Hst. cbn [orb] in Hst.
    cbn [app FirestoreService.commit FirestoreService.apply_write
         mbind completion_bind].
    apply IH; [done|].
    apply (update_of_missing_exists db); [|done].
    intros ref' Hnone. apply lookup_delete_None. by right.
Qed.

(** X27: A batch without creates in which some update, with data the
    client takes, names a document that is not there is answered as a
    whole: one error envelope under the name [batchOperations] with the
    database's fault and the number of operations, no result per
    operation; the store is as it was, and the route sends status
    400. *)
Theorem batch_rolls_back (operations : list operation) (timing : Z)
    (db : documents) :
  getFirestore sdk = Normal tt ->
  no_creation operations = true ->
  existsb (update_of_missing sdk db) operations = true ->
  let answer :=
    FirebaseResponse.error rt (missing_error sdk) "batchOperations"
      [("operationsCount", VNum (Z.of_nat (length operations)))] (VNum timing) in
  FirestoreService.batchOperations rt sdk operations timing db = (answer, db) /\
  FirestoreRoutes.batch rt sdk operations timing db = (Sent 400 answer, db) /\
  has "results" (fields_of answer) = false /\
  opt_member (opt_member answer "error") "operationsCount"
  = VNum (Z.of_nat (length operations)).
Proof.
  intros Hget Hnc Hst. cbn zeta.
  assert (Hbatch :
    FirestoreService.batchOperations rt sdk operations timing db
    = (FirebaseResponse.error rt (missing_error sdk) "batchOperations"
         [("operationsCount", VNum (Z.of_nat (length operations)))] (VNum timing),
       db)).
  { unfold FirestoreService.batchOperations, FirestoreService.initialize.
    rewrite Hget. cbn [mbind completion_bind].
    pose proof (commit_update_of_missing operations 0 db Hnc Hst) as Hcommit.
    destruct (FirestoreService.queue sdk 0 operations) as [batch results].
    cbn [fst] in Hcommit. rewrite Hcommit. reflexivity. }
  split; [exact Hbatch|]. split.
  - unfold FirestoreRoutes.batch. rewrite Hbatch. reflexivity.
  - split; [reflexivity|].
    unfold FirebaseResponse.error, FirebaseResponse.timing_field.
    destruct (truthy (VNum timing)), (development rt); reflexivity.
Qed.

Lemma queue_one_create_or_refused (index : nat) (o : operation) :
  valid_create sdk o || refused_reference sdk o = true ->
  (valid_create sdk o = true /\ refused_reference sdk o = false /\
   fst (FirestoreService.queue_one sdk index o)
   = [WSet (op_collection o, autoId sdk index)
        (FirestoreService.createData (op_data o))] /\
   FirebaseResponse.succeeded (snd (FirestoreService.queue_one sdk index o)) = true)
  \/
  (valid_create sdk o = false /\ refused_reference sdk o = true /\
   fst (FirestoreService.queue_one sdk index o) = [] /\
   FirebaseResponse.succeeded (snd (FirestoreService.queue_one sdk index o)) = false).
Proof.
  unfold valid_create, refused_reference, FirestoreService.queue_one,
    FirestoreService.new_doc, FirestoreService.doc, FirestoreService.checked.
  destruct (String.eqb (op_type o) "create") eqn:Hc.
  - apply String.eqb_eq in Hc. rewrite Hc.
    cbn [String.eqb Ascii.eqb Bool.eqb andb orb].
    rewrite orb_false_r. intros [Hv Hdata]%andb_true_iff.
    rewrite Hv. cbn [mbind completion_bind]. rewrite Hdata. left. cbn. done.
  - cbn [andb orb].
    destruct (String.eqb (op_type o) "update") eqn:Hu.
    + cbn [orb andb]. intros Href. right.
      destruct (op_id o) as [i|]; [|cbn; done].
      apply negb_true_iff in Href. rewrite Href. cbn. done.
    + destruct (String.eqb (op_type o) "delete"); cbn [orb andb]; [|discriminate].
      intros Href. right.
      destruct (op_id o) as [i|]; [|cbn; done].
      apply negb_true_iff in Href. rewrite Href. cbn. done.
Qed.

Lemma commit_creates (operations : list operation) :
  forall (index : nat) (db : documents),
  forallb (fun o => valid_create sdk o || refused_reference sdk o) operations
  = true ->
  exists db',
    FirestoreService.commit sdk (fst (FirestoreService.queue sdk index operations)) db
    = Normal db' /\
    (forall ref, is_Some (db !! ref) -> is_Some (db' !! ref)) /\
    (forall i o, operations !! i = Some o -> valid_create sdk o = true ->
       is_Some (db' !! (op_collection o, autoId sdk (index + i)))) /\
    forallb FirebaseResponse.succeeded
      (snd (FirestoreService.queue sdk index operations))
    = negb (existsb (refused_reference sdk) operations).
Proof.
  induction operations as [|o operations IH]; intros index db Hall.
  { exists db. split; [reflexivity|]. split; [done|]. split; [|reflexivity].
    intros i o Hi. discriminate Hi. }
  cbn [forallb] in Hall. apply andb_true_iff in Hall as [Ho Hall].
  pose proof (queue_one_create_or_refused index o Ho) as Hone.
  cbn [FirestoreService.queue existsb].
  destruct (FirestoreService.queue_one sdk index o) as [w r].
  specialize (IH (S index)).
  destruct (FirestoreService.queue sdk (S index) operations) as [ws rs].
  cbn [fst snd] in *.
  destruct Hone as [(Hv & Hu & -> & Hr)|(Hv & Hu & -> & Hr)].
  - destruct (IH (<[(op_collection o, autoId sdk index) :=
                      FirestoreService.createData (op_data o)]> db) Hall)
      as (db' & Hcommit & Hkeep & Hnew & Hres).
    exists db'.
    cbn [app FirestoreService.commit FirestoreService.apply_write
         mbind completion_bind].
    split; [exact Hcommit|]. split; [|split].
    + intros ref Href. apply Hkeep.
      destruct (decide ((op_collection o, autoId sdk index) = ref)) as [<-|Hne].
      * rewrite lookup_insert_eq. eauto.
      * by rewrite lookup_insert_ne.
    + intros [|i] o' Hi Hv'.
      * cbn in Hi. injection Hi as <-. rewrite Nat.add_0_r.
        apply Hkeep. rewrite lookup_insert_eq. eauto.
      * cbn in Hi. replace (index + S i)%nat with (S index + i)%nat by lia.
        by apply Hnew.
    + cbn [forallb]. by rewrite Hr, Hu, Hres.
  - destruct (IH db Hall) as (db' & Hcommit & Hkeep & Hnew & Hres).
    exists db'. cbn [app].
    split; [exact Hcommit|]. split; [exact Hkeep|]. split.
    + intros [|i] o' Hi Hv'.
      * cbn in Hi. injection Hi as <-. rewrite Hv in Hv'. discriminate Hv'.
      * cbn in Hi. replace (index + S i)%nat with (S index + i)%nat by lia.
        by apply Hnew.
    + cbn [forallb]. by rewrite Hr, Hu.
Qed.

(** X28: A batch of valid creates with an update or a delete among them
    whose reference the database refuses is sent with status 400 and
    [success: false], and yet every create of the batch has been
    written: its document is in the store under the generated id, next
    to all documents that were there. *)
Theorem batch_fails_after_writing (operations : list operation) (timing : Z)
    (db : documents) :
  getFirestore sdk = Normal tt ->
  forallb (fun o => valid_create sdk o || refused_reference sdk o) operations
  = true ->
  existsb (refused_reference sdk) operations = true ->
  exists answer db',
    FirestoreRoutes.batch rt sdk operations timing db = (Sent 400 answer, db') /\
    FirestoreService.batchOperations rt sdk operations timing db = (answer, db') /\
    opt_member answer "success" = VBool false /\
    (forall i o, operations !! i = Some o -> valid_create sdk o = true ->
       is_Some (db' !! (op_collection o, autoId sdk i))) /\
    (forall ref, is_Some (db !! ref) -> is_Some (db' !! ref)).
Proof.
  intros Hget Hall Hrefused.
  destruct (commit_creates operations 0 db Hall)
    as (db' & Hcommit & Hkeep & Hnew & Hres).
  rewrite Hrefused in Hres. cbn [negb] in Hres.
  assert (Hbatch : exists results,
    FirestoreService.batchOperations rt sdk operations timing db
    = (FirebaseResponse.batch rt results "batch operations", db') /\
    forallb FirebaseResponse.succeeded results = false).
  { unfold FirestoreService.batchOperations, FirestoreService.initialize.
    rewrite Hget. cbn [mbind completion_bind].
    destruct (FirestoreService.queue sdk 0 operations) as [batch results].
    cbn [fst snd] in *. rewrite Hcommit. cbn [mbind completion_bind try_catch].
    eauto. }
  destruct Hbatch as (results & Hbatch & Hfailed).
  destruct (batch_envelope rt results "batch operations") as (Hsuccess & _).
  rewrite Hfailed in Hsuccess.
  exists (FirebaseResponse.batch rt results "batch operations"), db'.
  split; [|split; [exact Hbatch|split; [exact Hsuccess|split; [|exact Hkeep]]]].
  - unfold FirestoreRoutes.batch. rewrite Hbatch. by rewrite Hsuccess.
  - intros i o Hi Hv. by apply (Hnew i o).
Qed.

End BatchFailures.

(** ** Search results *)

Section SearchFacts.

Lemma filter_indexed_sublist keep (l : list fields) :
  forall index, sublist (FirestoreSearch.filter_indexed keep index l) l.
Proof.
  induction l as [|d l IH]; intros index; [constructor|].
  cbn [FirestoreSearch.filter_indexed].
  destruct (keep index d); cbn [app].
  - by apply sublist_skip.
  - by apply sublist_cons.
Qed.

Lemma has_id_same (s : string) (j index : nat) (d doc : fields) :
  has_id s doc = true ->
  FirestoreSearch.same_id j index (get "id" d) (get "id" doc) = has_id s d.
Proof.
  unfold has_id, FirestoreSearch.same_id.
  destruct (get "id" doc) as [| |b|n| |s'|ms|xs|o]; try discriminate.
  cbn. intros ->%String.eqb_eq.
  destruct (get "id" d); reflexivity.
Qed.

Lemma findIndex_first (q : fields -> bool) (p : nat -> fields -> bool)
    (pre : list fields) (d : fields) (rest : list fields) :
  (forall j x, p j x = q x) ->
  forall j,
  FirestoreSearch.findIndex p j (pre ++ d :: rest)
  = if existsb q pre
    then FirestoreSearch.findIndex p j pre
    else if q d then Some (j + length pre)%nat
         else FirestoreSearch.findIndex p (S (j + length pre)) rest.
Proof.
  intros Hp. induction pre as [|x pre IH]; intros j.
  - cbn. rewrite Hp, Nat.add_0_r. reflexivity.
  - cbn [app FirestoreSearch.findIndex existsb length]. rewrite Hp.
    destruct (q x); cbn [orb]; [reflexivity|].
    rewrite IH. by replace (S j + length pre)%nat with (j + S (length pre))%nat by lia.
Qed.

Lemma findIndex_bound (p : nat -> fields -> bool) (l : list fields) :
  forall j i, FirestoreSearch.findIndex p j l = Some i -> (i < j + length l)%nat.
Proof.
  induction l as [|x l IH]; intros j i; [discriminate|].
  cbn [FirestoreSearch.findIndex length].
  destruct (p j x).
  - intros [= <-]. lia.
  - intros H. apply IH in H. lia.
Qed.

Lemma unique_from (s : string) (allDocs : list fields) (rest : list fields) :
  forall pre, allDocs = pre ++ rest ->
  filter (fun doc => has_id s doc = true)
    (FirestoreSearch.filter_indexed
       (fun index doc =>
          match FirestoreSearch.findIndex
                  (fun j d => FirestoreSearch.same_id j index (get "id" d)
                                (get "id" doc)) 0 allDocs with
          | Some j => Nat.eqb index j
          | None => false
          end)
       (length pre) rest)
  = if existsb (has_id s) pre then []
    else take 1 (filter (fun doc => has_id s doc = true) rest).
Proof.
  induction rest as [|d rest IH]; intros pre Hall.
  - cbn. by destruct (existsb (has_id s) pre).
  - cbn [FirestoreSearch.filter_indexed]. rewrite filter_app.
    specialize (IH (pre ++ [d])).
    rewrite length_app, Nat.add_1_r in IH.
    rewrite IH by (by rewrite <- (assoc_L (++))).
    rewrite existsb_app. cbn [existsb]. rewrite orb_false_r.
    rewrite (filter_cons _ d rest).
    destruct (has_id s d) eqn:Hd.
    + rewrite decide_True by done. rewrite orb_true_r, app_nil_r.
      rewrite Hall.
      rewrite (findIndex_first (has_id s) _ pre d rest
                 (fun j x => has_id_same s j (length pre) x d Hd) 0).
      rewrite Hd. cbn [Nat.add].
      destruct (existsb (has_id s) pre) eqn:Hpre.
      * destruct (FirestoreSearch.findIndex _ 0 pre) as [i|] eqn:Hfind;
          [|done].
        apply findIndex_bound in Hfind. cbn [Nat.add] in Hfind.
        destruct (Nat.eqb_spec (length pre) i) as [E|_]; [lia|done].
      * rewrite Nat.eqb_refl. cbn [filter]. rewrite filter_cons_True by done.
        reflexivity.
    + rewrite decide_False by done. rewrite orb_false_r.
      destruct (match FirestoreSearch.findIndex _ 0 allDocs with
                | Some j => Nat.eqb (length pre) j
                | None => false
                end).
      * rewrite filter_cons_False by (rewrite Hd; done). reflexivity.
      * reflexivity.
Qed.

(** X29: The documents a search keeps are documents it found, in the order
    they were found, and for every string id the one document kept
    under it is the first that was found under it. *)
Theorem search_results_are_unique (allDocs : list fields) (s : string) :
  sublist (FirestoreSearch.uniqueDocs allDocs) allDocs /\
  filter (fun doc => has_id s doc = true) (FirestoreSearch.uniqueDocs allDocs)
  = take 1 (filter (fun doc => has_id s doc = true) allDocs).
Proof.
  split; [apply filter_indexed_sublist|].
  exact (unique_from s allDocs allDocs [] eq_refl).
Qed.

End SearchFacts.

(** ** Custom tokens *)

Section CustomTokenFacts.
Context (rt : runtime) (sdk : AuthSdk).
Context (sdk_createCustomToken : value -> value -> completion value).

(** X30: With the provider at hand and claims that are an object, a custom
    token is asked for only under a truthy uid: without one the answer
    is the validation envelope with its one message and the provider is
    not asked; with one, the provider's token comes back under
    [data.token.customToken] next to the uid, and a fault of the
    provider comes back as an error envelope with the fault's code. *)
Theorem custom_token_outcomes (uid : value) (claims : fields) (timing : Z) :
  getAuth sdk = Normal tt ->
  let answer :=
    AuthTokens.createCustomToken rt sdk sdk_createCustomToken uid (VObj claims)
      timing in
  (truthy uid = false ->
     answer = FirebaseResponse.validation rt
                (VStr "UID is required for custom token creation")
                "Validation failed" /\
     opt_member answer "errors"
     = VArr [VStr "UID is required for custom token creation"]) /\
  (forall token, truthy uid = true ->
     sdk_createCustomToken uid (VObj claims) = Normal token ->
     opt_member answer "success" = VBool true /\
     opt_member (opt_member (opt_member answer "data") "token") "customToken"
     = token /\
     opt_member (opt_member (opt_member answer "data") "token") "uid" = uid) /\
  (forall fault, truthy uid = true ->
     sdk_createCustomToken uid (VObj claims) = Throw fault ->
     opt_member answer "success" = VBool false /\
     error_code answer = or_else (get "code" fault) (VStr "UNKNOWN_ERROR") /\
     opt_member (opt_member answer "error") "uid" = uid).
Proof.
  intros Hget. cbn zeta.
  unfold AuthTokens.createCustomToken, AuthService.initialize.
  rewrite Hget. cbn [mbind completion_bind Validation.object_keys].
  split; [|split].
  - intros ->. cbn [negb try_catch]. split; reflexivity.
  - intros token -> ->. cbn [negb mbind completion_bind try_catch].
    unfold FirebaseResponse.success, FirebaseResponse.timing_field.
    destruct (truthy (VNum timing)); cbn; done.
  - intros fault -> ->. cbn [negb mbind completion_bind try_catch].
    unfold error_code, FirebaseResponse.error, FirebaseResponse.timing_field.
    destruct (truthy (VNum timing)), (development rt); cbn; done.
Qed.

End CustomTokenFacts.

(** * The further properties on sample requests *)

Lemma gates_need_identity_witness :
  AuthGates.requirePermission sample_runtime directory_sdk "notes:write" 3
    [("ip", VStr "10.0.0.7")]
  = ([("ip", VStr "10.0.0.7")],
     Sent 401 (FirebaseResponse.unauthorized sample_runtime
                 "Authentication required for permission check" "UNAUTHORIZED")).
Proof.
  exact (proj1 (proj2 (proj2
    (gates_need_identity sample_runtime directory_sdk [("ip", VStr "10.0.0.7")] 3
       "admin" "notes:write" "ownerId" "userId" ["admin"; "editor"] eq_refl)))).
Defined.

Lemma any_role_gate_witness :
  snd (AuthGates.requireAnyRole sample_runtime directory_sdk ["admin"; "reviewer"] 4
         [("user", VObj [("uid", VStr "u1")])])
  = Next.
Proof.
  destruct (any_role_gate sample_runtime directory_sdk ["admin"; "reviewer"] 4
              [("user", VObj [("uid", VStr "u1")])]
              [("uid", VStr "u1");
               ("metadata", VObj [("creationTime", VStr "2024-05-01")]);
               ("customClaims", VObj [("role", VStr "editor");
                                      ("roles", VArr [VStr "reviewer"])])]
              [("creationTime", VStr "2024-05-01")]
              eq_refl eq_refl eq_refl eq_refl eq_refl) as (_ & Hpass & _).
  exact (proj1 (Hpass eq_refl)).
Defined.

Lemma permission_gate_witness :
  status_of
    (snd (AuthGates.requirePermission sample_runtime directory_sdk "notes:write" 4
            [("user", VObj [("uid", VStr "u1")])]))
  = Some 403.
Proof.
  destruct (permission_gate sample_runtime directory_sdk "notes:write" 4
              [("user", VObj [("uid", VStr "u1")])]
              [("uid", VStr "u1");
               ("metadata", VObj [("creationTime", VStr "2024-05-01")]);
               ("customClaims", VObj [("role", VStr "editor");
                                      ("roles", VArr [VStr "reviewer"])])]
              [("creationTime", VStr "2024-05-01")]
              eq_refl eq_refl eq_refl eq_refl eq_refl) as (Hdenied & _).
  destruct (Hdenied eq_refl) as [-> _]. reflexivity.
Defined.

Lemma role_gate_fetch_failure_witness :
  exists body,
    AuthMiddleware.requireRole sample_runtime rejecting_sdk "admin" 4
      [("user", VObj [("uid", VStr "u1")])]
    = ([("user", VObj [("uid", VStr "u1")])], Sent 500 body) /\
    error_code body = VStr "NOT_FOUND".
Proof.
  destruct (role_gate_fetch_failure sample_runtime rejecting_sdk "admin" 4
              [("user", VObj [("uid", VStr "u1")])]
              [("message", VStr "no user"); ("code", VStr "auth/user-not-found")]
              eq_refl eq_refl eq_refl) as (body & Hres & _ & Hmissing & _).
  exists body. split; [exact Hres|]. exact (proj1 (Hmissing eq_refl)).
Defined.

Lemma ownership_gate_witness :
  status_of
    (snd (AuthGates.requireOwnership sample_runtime "ownerId" "userId"
            [("user", VObj [("uid", VStr "u1")]);
             ("params", VObj [("userId", VStr "u2")])]))
  = Some 403.
Proof.
  destruct (ownership_gate sample_runtime "ownerId" "userId"
              [("user", VObj [("uid", VStr "u1")]);
               ("params", VObj [("userId", VStr "u2")])]
              [("userId", VStr "u2")] eq_refl eq_refl) as (_ & Hparam & _).
  rewrite (Hparam eq_refl). reflexivity.
Defined.

Lemma accepted_token_attaches_identity_witness :
  opt_member
    (get "user"
       (fst (AuthMiddleware.verifyFirebaseToken sample_runtime accepting_sdk
               false false 12 15
               [("headers", VObj [("authorization", VStr "Bearer abc")])])))
    "uid"
  = VStr "u1".
Proof.
  assert (Hsplit : JsString.split "Bearer abc" "Bearer " !! 1%nat = Some "abc")
    by (vm_compute; reflexivity).
  exact (proj1 (proj2
    (accepted_token_attaches_identity sample_runtime accepting_sdk false false 12 15
       [("headers", VObj [("authorization", VStr "Bearer abc")])]
       [("authorization", VStr "Bearer abc")] "Bearer abc" "abc"
       {| uid := VStr "u1"; email := VStr "u1@example.org";
          email_verified := VBool true; name := VStr "U One";
          picture := VUndefined; phone_number := VUndefined;
          iss := VStr "https://securetoken.google.com/demo";
          aud := VStr "demo"; iat := 1700000000; exp := 1700003600;
          auth_time := 1700000000;
          customClaims := VObj [("role", VStr "admin")] |}
       eq_refl eq_refl eq_refl Hsplit eq_refl eq_refl eq_refl))).
Defined.

Lemma admin_guard_decides_witness :
  let req := [("headers", VObj [("authorization", VStr "Bearer abc")])] in
  status_of (snd (run_chain (admin_guard sample_runtime accepting_sdk 12 15 4) req))
  = None /\
  status_of
    (snd (run_chain (admin_guard sample_runtime accepting_sdk 12 15 4)
            [("headers", VObj [("accept", VStr "application/json")])]))
  = Some 401.
Proof.
  intros req.
  assert (Hsplit : JsString.split "Bearer abc" "Bearer " !! 1%nat = Some "abc")
    by (vm_compute; reflexivity).
  split.
  - destruct (admin_guard_decides sample_runtime accepting_sdk 12 15 4 req
                [("authorization", VStr "Bearer abc")] eq_refl)
      as (_ & _ & Haccepted).
    exact (proj1
      (Haccepted "Bearer abc" "abc"
         {| uid := VStr "u1"; email := VStr "u1@example.org";
            email_verified := VBool true; name := VStr "U One";
            picture := VUndefined; phone_number := VUndefined;
            iss := VStr "https://securetoken.google.com/demo";
            aud := VStr "demo"; iat := 1700000000; exp := 1700003600;
            auth_time := 1700000000;
            customClaims := VObj [("role", VStr "admin")] |}
         [("uid", VStr "u1");
          ("metadata", VObj [("creationTime", VStr "2024-05-01")]);
          ("customClaims", VObj [("role", VStr "admin")])]
         [("creationTime", VStr "2024-05-01")]
         eq_refl eq_refl Hsplit eq_refl eq_refl eq_refl eq_refl eq_refl eq_refl)).
  - destruct (admin_guard_decides sample_runtime accepting_sdk 12 15 4
                [("headers", VObj [("accept", VStr "application/json")])]
                [("accept", VStr "application/json")] eq_refl) as (Hmissing & _).
    rewrite (Hmissing eq_refl). reflexivity.
Defined.

Lemma plain_value_is_unchanged_witness :
  Validation.sanitizeValue
    (VObj [("title", VStr "hello world"); ("tags", VArr [VStr "a"; VNum 2])])
  = VObj [("title", VStr "hello world"); ("tags", VArr [VStr "a"; VNum 2])].
Proof.
  exact (plain_value_is_unchanged
           (VObj [("title", VStr "hello world"); ("tags", VArr [VStr "a"; VNum 2])])
           eq_refl).
Defined.

Lemma path_gate_witness :
  PathValidation.validateRealtimeDbPath sample_runtime sample_joi
    [("params", VObj [("path", VStr "rooms/r1")])]
  = Normal ([("params", VObj [("path", VStr "rooms/r1")])], Next).
Proof.
  destruct (path_gate sample_runtime sample_joi
              [("params", VObj [("path", VStr "rooms/r1")])]
              [("path", VStr "rooms/r1")] eq_refl) as (o & Hrun & Hnext & _).
  rewrite Hrun. f_equal. f_equal. apply Hnext. right.
  exists "rooms/r1". split; [reflexivity|]. split; [discriminate|].
  split; [cbn; lia|]. by apply path_pattern_occurs.
Defined.


Lemma limiter_quota_witness :
  Z.of_nat (length (inside 60000 3000
     (let_through sample_runtime 2 60000 (Some "u1") two_clients ∅)))
  <= Z.max 0 2.
Proof.
  exact (limiter_quota sample_runtime 2 60000 (Some "u1") two_clients 3000 eq_refl).
Defined.

Lemma limiter_isolates_keys_witness :
  RateLimit.answers sample_runtime 2 60000 (Some "u1") two_clients ∅
  = RateLimit.answers sample_runtime 2 60000 (Some "u1")
      (alone (Some "u1") two_clients) ∅.
Proof.
  exact (limiter_isolates_keys sample_runtime 2 60000 (Some "u1") two_clients eq_refl).
Defined.

Lemma error_context_wins_witness :
  error_code
    (FirebaseResponse.error sample_runtime
       [("message", VStr "boom"); ("code", VStr "E_PROVIDER")] "upload"
       [("code", VStr "E_CALLER")] VNull)
  = VStr "E_CALLER".
Proof.
  exact (proj1
    (error_context_wins sample_runtime
       [("message", VStr "boom"); ("code", VStr "E_PROVIDER")] "upload"
       [("code", VStr "E_CALLER")] VNull eq_refl) "code" eq_refl).
Defined.

Lemma created_document_is_read_back_witness :
  opt_member
    (opt_member
       (FirestoreDocuments.getDocument sample_runtime plain_sdk "notes" "n1" 7
          (snd (FirestoreDocuments.createDocument sample_runtime plain_sdk "notes"
                  [("title", VStr "a")] (VStr "n1") (VStr "u1") 0 5 one_note)))
       "data")
    "body"
  = VUndefined.
Proof.
  assert (Hne : "n1" <> "") by discriminate.
  exact (proj1 (proj2 (proj2
    (created_document_is_read_back sample_runtime plain_sdk "notes" "n1"
       [("title", VStr "a")] (VStr "u1") 0 5 7 one_note
       eq_refl eq_refl eq_refl Hne eq_refl eq_refl eq_refl))) "body" eq_refl).
Defined.

Lemma missing_document_is_not_found_witness :
  FirestoreDocuments.updateDocument sample_runtime plain_sdk "notes" "ghost"
    [("title", VStr "c")] (VStr "u1") 5 one_note
  = (FirebaseResponses.document_notFound sample_runtime "notes" "ghost", one_note).
Proof.
  assert (Hmissing : one_note !! ("notes", "ghost") = None)
    by (vm_compute; reflexivity).
  exact (proj1 (proj2
    (missing_document_is_not_found sample_runtime plain_sdk "notes" "ghost"
       [("title", VStr "c")] (VBool false) (VStr "u1") 5 one_note
       eq_refl eq_refl eq_refl Hmissing))).
Defined.

Lemma update_keeps_other_fields_witness :
  opt_member
    (fst (FirestoreDocuments.updateDocument sample_runtime plain_sdk "notes" "n1"
            [("title", VStr "c")] (VStr "u1") 5 one_note))
    "success"
  = VBool true.
Proof.
  assert (Hstored : one_note !! ("notes", "n1")
                    = Some [("title", VStr "a"); ("body", VStr "b")])
    by (vm_compute; reflexivity).
  exact (proj1
    (update_keeps_other_fields sample_runtime plain_sdk "notes" "n1"
       [("title", VStr "c")] (VStr "u1") 5 one_note
       [("title", VStr "a"); ("body", VStr "b")]
       eq_refl eq_refl eq_refl Hstored eq_refl eq_refl eq_refl eq_refl eq_refl)).
Defined.

Lemma soft_delete_keeps_document_witness :
  opt_member
    (FirestoreDocuments.getDocument sample_runtime plain_sdk "notes" "n1" 7
       (snd (FirestoreService.deleteDocument sample_runtime plain_sdk "notes" "n1"
               (VBool false) (VStr "u1") 5 one_note)))
    "success"
  = VBool true.
Proof.
  assert (Hstored : one_note !! ("notes", "n1")
                    = Some [("title", VStr "a"); ("body", VStr "b")])
    by (vm_compute; reflexivity).
  exact (proj1 (proj2 (proj2
    (soft_delete_keeps_document sample_runtime plain_sdk "notes" "n1"
       (VBool false) (VStr "u1") 5 7 9 one_note
       [("title", VStr "a"); ("body", VStr "b")]
       eq_refl eq_refl eq_refl Hstored eq_refl)))).
Defined.

Lemma unavailable_store_is_reported_witness :
  error_code (FirestoreDocuments.getDocument sample_runtime offline_sdk
                "notes" "n1" 5 one_note)
  = VStr "app/no-app".
Proof.
  exact (proj1 (proj2 (proj1 (proj2
    (unavailable_store_is_reported sample_runtime offline_sdk "notes" "n1"
       [("title", VStr "c")] VNull (VBool false) (VStr "u1") 0 5 [] one_note
       [("message", VStr "The default Firebase app does not exist");
        ("code", VStr "app/no-app")]
       eq_refl))))).
Defined.

Lemma batch_rolls_back_witness :
  snd (FirestoreService.batchOperations sample_runtime plain_sdk stale_batch 5 one_note)
  = one_note.
Proof.
  assert (Hstale : existsb (update_of_missing plain_sdk one_note) stale_batch = true)
    by (vm_compute; reflexivity).
  rewrite (proj1 (batch_rolls_back sample_runtime plain_sdk stale_batch 5 one_note
                    eq_refl eq_refl Hstale)).
  reflexivity.
Defined.

Lemma batch_fails_after_writing_witness :
  exists answer db',
    FirestoreRoutes.batch sample_runtime plain_sdk mixed_batch 5 ∅
    = (Sent 400 answer, db') /\
    is_Some (db' !! ("notes", autoId plain_sdk 0)).
Proof.
  destruct (batch_fails_after_writing sample_runtime plain_sdk mixed_batch 5 ∅
              eq_refl eq_refl eq_refl) as (answer & db' & Hroute & _ & _ & Hnew & _).
  exists answer, db'. split; [exact Hroute|].
  exact (Hnew 0%nat _ eq_refl eq_refl).
Defined.

Lemma custom_token_outcomes_witness :
  opt_member
    (AuthTokens.createCustomToken sample_runtime directory_sdk
       (fun _ _ => Normal (VStr "signed")) (VStr "") (VObj []) 5)
    "errors"
  = VArr [VStr "UID is required for custom token creation"].
Proof.
  exact (proj2 (proj1
    (custom_token_outcomes sample_runtime directory_sdk
       (fun _ _ => Normal (VStr "signed")) (VStr "") [] 5 eq_refl) eq_refl)).
Defined.
